(** * FlowPay orchestration core: a shallow embedding of the backend

    The development follows the Python sources under [backend/app]:
    - [services/fx.py]          rate oracle, rate locks, drift check
    - [services/nessie.py]      ledger gateway (balance read, transfer)
    - [middleware/idempotency.py] the idempotent-replay cache
    - [api/collect.py], [api/pool.py], [api/fxpool.py]  the state machines

    Python [float] is IEEE-754 binary64; it is modelled by [spec_float]
    with the binary64 operations of the standard library's [SpecFloat].
    Python [int] is [Z].  [async def] functions are terms of the resumable
    computation type [Async]: running one to completion is a request served
    alone, interleaving several at their [await] points is asyncio. *)

From Stdlib Require Import ZArith String Ascii List Bool Lia.
From Stdlib.Floats Require Import SpecFloat PrimFloat FloatOps.
From stdpp Require Import base tactics option list gmap strings pretty fin_maps.

Local Open Scope Z_scope.
Local Open Scope string_scope.
Local Open Scope list_scope.

Set Default Proof Using "Type".
Set Warnings "-inexact-float".

(** ** Resumable computations (asyncio coroutines) *)

(** [Sync act k] runs [act] on the shared state without giving up control;
    [Await k] is a point where the coroutine is suspended and the event
    loop may resume any other task before continuing with [k]. *)
Inductive Async (St R : Type) : Type :=
| Return (r : R)
| Sync {A : Type} (act : St -> A * St) (k : A -> Async St R)
| Await (k : Async St R).

Arguments Return {St R} r.
Arguments Sync {St R A} act k.
Arguments Await {St R} k.

Fixpoint bind {St A B} (m : Async St A) (f : A -> Async St B) : Async St B :=
  match m with
  | Return a => f a
  | Sync act k => Sync act (fun x => bind (k x) f)
  | Await k => Await (bind k f)
  end.

Notation "x <- m ;; k" := (bind m (fun x => k))
  (at level 63, m at next level, right associativity).
Notation "m ;;; k" := (bind m (fun _ => k))
  (at level 63, right associativity).

(** A request served alone: suspensions resume immediately. *)
Fixpoint run {St R} (m : Async St R) (s : St) : R * St :=
  match m with
  | Return r => (r, s)
  | Sync act k => let '(a, s') := act s in run (k a) s'
  | Await k => run k s
  end.

(** One scheduling quantum: run up to the next suspension or the end. *)
Fixpoint resume {St R} (m : Async St R) (s : St) : (R + Async St R) * St :=
  match m with
  | Return r => (inl r, s)
  | Sync act k => let '(a, s') := act s in resume (k a) s'
  | Await k => (inr k, s)
  end.

Definition gets {St A} (f : St -> A) : Async St A :=
  Sync (fun s => (f s, s)) Return.
Definition modify {St} (f : St -> St) : Async St unit :=
  Sync (fun s => (tt, f s)) Return.
(** An awaited network call: the exchange [io] happens, the coroutine is
    suspended until the answer is there. *)
Definition await_io {St A} (io : St -> A * St) : Async St A :=
  Sync io (fun a => Await (Return a)).

(** ** Python floats *)

Abbreviation float := spec_float.

Definition fadd : float -> float -> float := SFadd prec emax.
Definition fsub : float -> float -> float := SFsub prec emax.
Definition fmul : float -> float -> float := SFmul prec emax.
Definition fdiv : float -> float -> float := SFdiv prec emax.
Definition fabs : float -> float := SFabs.
Definition fltb : float -> float -> bool := SFltb.
Definition feqb : float -> float -> bool := SFeqb.

(** [float(n)] for an int: the nearest double. *)
Definition float_of_int (n : Z) : float := binary_normalize prec emax n 0 false.

Inductive PyExc : Type :=
| ZeroDivisionError
| OverflowError
| ValueError
| KeyError.

(** [x / y] on floats raises on a zero divisor of either sign. *)
Definition py_truediv (x y : float) : PyExc + float :=
  match y with
  | S754_zero _ => inl ZeroDivisionError
  | _ => inr (fdiv x y)
  end.

(** [a / b] on ints is the correctly rounded quotient. *)
Definition int_as_float (n : Z) : float :=
  match n with
  | Z0 => S754_zero false
  | Zpos p => S754_finite false p 0
  | Zneg p => S754_finite true p 0
  end.

Definition py_int_truediv (a b : Z) : PyExc + float :=
  if decide (b = 0) then inl ZeroDivisionError
  else match fdiv (int_as_float a) (int_as_float b) with
       | S754_infinity _ => inl OverflowError
       | q => inr q
       end.

(** [int(x)]: truncation toward zero; infinities and NaN raise. *)
Definition py_int (x : float) : PyExc + Z :=
  match x with
  | S754_zero _ => inr 0
  | S754_infinity _ => inl OverflowError
  | S754_nan => inl ValueError
  | S754_finite s m e =>
      let mag := match e with
                 | Zneg k => Z.shiftr (Zpos m) (Zpos k)
                 | _ => Z.shiftl (Zpos m) e
                 end in
      inr (if s then - mag else mag)
  end.

(** Exact scaling of a finite float by [10^nd], rounded half-even to an
    integer: the digit string [round] goes through. *)
Definition round_half_even_div (num den : Z) : Z :=
  let q := num / den in
  let r := num mod den in
  match 2 * r ?= den with
  | Lt => q
  | Gt => q + 1
  | Eq => if Z.even q then q else q + 1
  end.

(** [round(x, nd)] for [0 <= nd]: [x] is rounded half-even on its exact
    value to [nd] decimals, and the decimal is read back as the nearest
    double. *)
Definition py_round (x : float) (nd : Z) : float :=
  match x with
  | S754_finite s m e =>
      let scale := 10 ^ nd in
      let n := match e with
               | Zneg k => round_half_even_div (Zpos m * scale) (2 ^ Zpos k)
               | _ => Zpos m * 2 ^ e * scale
               end in
      match n with
      | Zpos p => fdiv (S754_finite s p 0) (int_as_float scale)
      | _ => S754_zero s
      end
  | _ => x
  end.

Definition f_1_0 : float := Eval vm_compute in Prim2SF 1.0%float.
Definition f_100 : float := Eval vm_compute in float_of_int 100.

(** The literals of [FALLBACK_RATES_TO_USD], each the double nearest to the
    decimal written in the source. *)
Definition f_1_08 : float := Eval vm_compute in Prim2SF 1.08%float.
Definition f_1_27 : float := Eval vm_compute in Prim2SF 1.27%float.
Definition f_0_01202 : float := Eval vm_compute in Prim2SF 0.01202%float.
Definition f_0_0066 : float := Eval vm_compute in Prim2SF 0.0066%float.
Definition f_0_74 : float := Eval vm_compute in Prim2SF 0.74%float.
Definition f_0_64 : float := Eval vm_compute in Prim2SF 0.64%float.
Definition f_0_138 : float := Eval vm_compute in Prim2SF 0.138%float.
Definition f_0_051 : float := Eval vm_compute in Prim2SF 0.051%float.

(** ** Strings: [str.lower] and [str.upper]

    A [str] is kept as the bytes of its UTF-8 encoding.  [bytes_lower] and
    [bytes_upper] are [bytes.lower] and [bytes.upper], which change the
    ASCII letters and nothing else.  [str.lower] and [str.upper] follow the
    Unicode character database of the interpreter ("ÉUR" becomes "éur");
    the development takes the two mappings as given and fixes only what
    they do to ASCII text, where they are the mappings of the bytes. *)

Definition ascii_lower (c : ascii) : ascii :=
  let n := nat_of_ascii c in
  if ((65 <=? n)%nat && (n <=? 90)%nat)%bool then ascii_of_nat (n + 32) else c.
Definition ascii_upper (c : ascii) : ascii :=
  let n := nat_of_ascii c in
  if ((97 <=? n)%nat && (n <=? 122)%nat)%bool then ascii_of_nat (n - 32) else c.

Fixpoint bytes_lower (s : string) : string :=
  match s with
  | EmptyString => EmptyString
  | String c r => String (ascii_lower c) (bytes_lower r)
  end.
Fixpoint bytes_upper (s : string) : string :=
  match s with
  | EmptyString => EmptyString
  | String c r => String (ascii_upper c) (bytes_upper r)
  end.

(** [s.isascii()] *)
Fixpoint isascii (s : string) : bool :=
  match s with
  | EmptyString => true
  | String c r => (nat_of_ascii c <? 128)%nat && isascii r
  end.

Class CaseMapping : Type := {
  (** [s.lower()] *)
  lower : string -> string;
  (** [s.upper()] *)
  upper : string -> string;
  lower_isascii : forall s, isascii s = true -> lower s = bytes_lower s;
  upper_isascii : forall s, isascii s = true -> upper s = bytes_upper s
}.

(** ** Entities ([models/schemas.py] and the dicts of the FX modules)

    Timestamps are integers of microseconds since the epoch; an ISO string
    kept in a dict is the timestamp it parses back to.  The free-form
    [metadata] of a collect is carried by no transition and is left out. *)

Module CollectResponse.
Record t : Type := mk {
  id : string;
  status : string;                      (* pending, approved, declined, expired *)
  amount : Z;
  currency : string;
  description : string;
  payee_account_id : string;
  payer_account_id : string;
  nessie_transfer_id : option string;
  expires_at : Z;
  created_at : Z;
  approved_at : option Z;
  declined_at : option Z
}.
Definition set_status (v : string) (c : t) : t :=
  mk (id c) v (amount c) (currency c) (description c) (payee_account_id c)
     (payer_account_id c) (nessie_transfer_id c) (expires_at c) (created_at c)
     (approved_at c) (declined_at c).
Definition set_nessie_transfer_id (v : option string) (c : t) : t :=
  mk (id c) (status c) (amount c) (currency c) (description c) (payee_account_id c)
     (payer_account_id c) v (expires_at c) (created_at c)
     (approved_at c) (declined_at c).
Definition set_approved_at (v : option Z) (c : t) : t :=
  mk (id c) (status c) (amount c) (currency c) (description c) (payee_account_id c)
     (payer_account_id c) (nessie_transfer_id c) (expires_at c) (created_at c)
     v (declined_at c).
Definition set_declined_at (v : option Z) (c : t) : t :=
  mk (id c) (status c) (amount c) (currency c) (description c) (payee_account_id c)
     (payer_account_id c) (nessie_transfer_id c) (expires_at c) (created_at c)
     (approved_at c) v.
End CollectResponse.

Module PoolResponse.
Record t : Type := mk {
  id : string;
  status : string;                      (* collecting, funded, cancelled, ... *)
  goal_amount : Z;
  collected_amount : Z;
  currency : string;
  description : string;
  organizer_account_id : string;
  payee_account_id : string;
  participant_count : Z;
  contributions_count : Z;
  deadline : Z;
  on_deadline_miss : string;
  created_at : Z;
  funded_at : option Z;
  nessie_transfer_ids : list string;
  refund_ids : option (list string)
}.
Definition set_status (v : string) (p : t) : t :=
  mk (id p) v (goal_amount p) (collected_amount p) (currency p) (description p)
     (organizer_account_id p) (payee_account_id p) (participant_count p)
     (contributions_count p) (deadline p) (on_deadline_miss p) (created_at p)
     (funded_at p) (nessie_transfer_ids p) (refund_ids p).
Definition set_collected_amount (v : Z) (p : t) : t :=
  mk (id p) (status p) (goal_amount p) v (currency p) (description p)
     (organizer_account_id p) (payee_account_id p) (participant_count p)
     (contributions_count p) (deadline p) (on_deadline_miss p) (created_at p)
     (funded_at p) (nessie_transfer_ids p) (refund_ids p).
Definition set_participant_count (v : Z) (p : t) : t :=
  mk (id p) (status p) (goal_amount p) (collected_amount p) (currency p) (description p)
     (organizer_account_id p) (payee_account_id p) v
     (contributions_count p) (deadline p) (on_deadline_miss p) (created_at p)
     (funded_at p) (nessie_transfer_ids p) (refund_ids p).
Definition set_contributions_count (v : Z) (p : t) : t :=
  mk (id p) (status p) (goal_amount p) (collected_amount p) (currency p) (description p)
     (organizer_account_id p) (payee_account_id p) (participant_count p)
     v (deadline p) (on_deadline_miss p) (created_at p)
     (funded_at p) (nessie_transfer_ids p) (refund_ids p).
Definition set_funded_at (v : option Z) (p : t) : t :=
  mk (id p) (status p) (goal_amount p) (collected_amount p) (currency p) (description p)
     (organizer_account_id p) (payee_account_id p) (participant_count p)
     (contributions_count p) (deadline p) (on_deadline_miss p) (created_at p)
     v (nessie_transfer_ids p) (refund_ids p).
Definition set_nessie_transfer_ids (v : list string) (p : t) : t :=
  mk (id p) (status p) (goal_amount p) (collected_amount p) (currency p) (description p)
     (organizer_account_id p) (payee_account_id p) (participant_count p)
     (contributions_count p) (deadline p) (on_deadline_miss p) (created_at p)
     (funded_at p) v (refund_ids p).
Definition set_refund_ids (v : option (list string)) (p : t) : t :=
  mk (id p) (status p) (goal_amount p) (collected_amount p) (currency p) (description p)
     (organizer_account_id p) (payee_account_id p) (participant_count p)
     (contributions_count p) (deadline p) (on_deadline_miss p) (created_at p)
     (funded_at p) (nessie_transfer_ids p) v.
End PoolResponse.

(** An entry of [fake_contributions_db[pool_id]]. *)
Module Contribution.
Record t : Type := mk {
  payer_account_id : string;
  amount : Z;
  nessie_transfer_id : string
}.
End Contribution.

(** A value of [rate_lock_store]. *)
Module RateLock.
Record t : Type := mk {
  id : string;
  source_currency : string;
  target_currency : string;
  rate : float;                         (* 1 source = rate target *)
  amount_target_cents : Z;
  amount_source_cents : Z;
  max_drift_pct : float;
  locked_at : Z;
  expires_at : Z;
  status : string                       (* active, used, expired, drifted *)
}.
End RateLock.

(** What [check_drift] returns: the short dict for an unknown lock, the
    full one otherwise. *)
Module Drift.
Record info : Type := mk {
  lock_id : string;
  locked_rate : float;
  current_rate : float;
  drift_pct : float;
  max_drift_pct : float;
  drifted : bool
}.
Inductive t : Type :=
| NotFound                              (* {"drifted": False, "error": "Lock not found"} *)
| Info (i : info).
(** [drift.get("drifted")] *)
Definition get_drifted (d : t) : bool :=
  match d with NotFound => false | Info i => drifted i end.
End Drift.

Module FXPool.
Record t : Type := mk {
  id : string;
  status : string;                      (* collecting, funded, cancelled, drift_refunded *)
  goal_amount_usd : Z;
  collected_usd : Z;
  organizer_account_id : string;
  payee_account_id : string;
  description : string;
  deadline : Z;
  max_rate_drift_pct : float;
  on_deadline_miss : string;
  contributions_count : Z;
  created_at : Z;
  funded_at : option Z;
  nessie_settlement_id : option string;
  currencies_collected : list string
}.
Definition set_status (v : string) (p : t) : t :=
  mk (id p) v (goal_amount_usd p) (collected_usd p) (organizer_account_id p)
     (payee_account_id p) (description p) (deadline p) (max_rate_drift_pct p)
     (on_deadline_miss p) (contributions_count p) (created_at p) (funded_at p)
     (nessie_settlement_id p) (currencies_collected p).
Definition set_collected_usd (v : Z) (p : t) : t :=
  mk (id p) (status p) (goal_amount_usd p) v (organizer_account_id p)
     (payee_account_id p) (description p) (deadline p) (max_rate_drift_pct p)
     (on_deadline_miss p) (contributions_count p) (created_at p) (funded_at p)
     (nessie_settlement_id p) (currencies_collected p).
Definition set_contributions_count (v : Z) (p : t) : t :=
  mk (id p) (status p) (goal_amount_usd p) (collected_usd p) (organizer_account_id p)
     (payee_account_id p) (description p) (deadline p) (max_rate_drift_pct p)
     (on_deadline_miss p) v (created_at p) (funded_at p)
     (nessie_settlement_id p) (currencies_collected p).
Definition set_funded_at (v : option Z) (p : t) : t :=
  mk (id p) (status p) (goal_amount_usd p) (collected_usd p) (organizer_account_id p)
     (payee_account_id p) (description p) (deadline p) (max_rate_drift_pct p)
     (on_deadline_miss p) (contributions_count p) (created_at p) v
     (nessie_settlement_id p) (currencies_collected p).
Definition set_nessie_settlement_id (v : option string) (p : t) : t :=
  mk (id p) (status p) (goal_amount_usd p) (collected_usd p) (organizer_account_id p)
     (payee_account_id p) (description p) (deadline p) (max_rate_drift_pct p)
     (on_deadline_miss p) (contributions_count p) (created_at p) (funded_at p)
     v (currencies_collected p).
Definition set_currencies_collected (v : list string) (p : t) : t :=
  mk (id p) (status p) (goal_amount_usd p) (collected_usd p) (organizer_account_id p)
     (payee_account_id p) (description p) (deadline p) (max_rate_drift_pct p)
     (on_deadline_miss p) (contributions_count p) (created_at p) (funded_at p)
     (nessie_settlement_id p) v.
End FXPool.

(** An entry of [fxpool_contributions_db[pool_id]]. *)
Module FXContribution.
Record t : Type := mk {
  id : string;
  payer_account_id : string;
  currency : string;
  amount_local : Z;
  amount_usd : Z;
  usd_rate : float;
  rate_lock_id : string;
  nessie_transfer_id : string;
  contributed_at : Z
}.
End FXContribution.

(** An entry of the [refunds] list built by the FX pool refund path. *)
Inductive Refund : Type :=
| Refunded (payer currency : string) (amount_refunded : Z) (nessie_id : string)
| RefundFailed (payer : string).          (* {"payer": ..., "error": "refund failed"} *)

(** The [data] of a dispatched event. *)
Inductive Snapshot : Type :=
| SnapCollect (c : CollectResponse.t)
| SnapPool (p : PoolResponse.t)
| SnapFXPool (p : FXPool.t)
| SnapFXPoolContribution (p : FXPool.t) (c : FXContribution.t)
| SnapFXPoolRefunds (p : FXPool.t) (refunds : list Refund) (reason : string).

Record Event : Type := {
  evt_id : string;
  evt_type : string;
  evt_data : Snapshot
}.

(** A registered webhook ([api/webhook.py]). *)
Record Hook : Type := {
  hook_id : string;
  hook_url : string;
  hook_events : list string
}.

(** The JSON payload of a ledger transfer request. *)
Record TransferReq : Type := {
  tr_payer_account_id : string;
  tr_payee_account_id : string;
  tr_amount : Z;
  tr_description : string
}.

Definition transfer_request (payer_account_id payee_account_id : string) (amount : Z)
    (description : string) : TransferReq :=
  {| tr_payer_account_id := payer_account_id;
     tr_payee_account_id := payee_account_id;
     tr_amount := amount;
     tr_description := description |}.

(** ** External collaborators

    The ledger (Nessie), the rate oracle (open.er-api.com), the webhook
    subscribers, the clock and the uuid source are black boxes: each call
    is a transition of an external state [Ext] chosen by the environment.
    [None] is a call that raised (network failure, error status). *)
Class ExternalServices : Type := {
  Ext : Type;
  (** POST /accounts/{payer}/transfers: the [_id] of [objectCreated], if any *)
  nessie_post_transfer : TransferReq -> Ext -> option (option string) * Ext;
  (** GET /accounts/{id}: the [balance] field of the account, if any *)
  nessie_get_account : string -> Ext -> option (option Z) * Ext;
  (** GET /v6/latest/{SRC} with status 200: the [rates] table *)
  er_api_latest : string -> Ext -> option (string -> option float) * Ext;
  (** POST of an event to a subscriber; its failure is only printed *)
  webhook_post : string -> Event -> Ext -> Ext;
  (** [uuid.uuid4().hex] *)
  uuid4_hex : Ext -> string * Ext;
  (** [datetime.now(timezone.utc)] *)
  datetime_now : Ext -> Z * Ext
}.

(** A value of [_idempotency_store]. *)
Record Cached : Type := {
  cached_body : string;                   (* bytes *)
  cached_status_code : Z
}.

Section Backend.
Context `{CM : CaseMapping} `{ES : ExternalServices}.

(** ** The process state: the module-level dicts and lists

    [ledger_requests] is a trace of the transfer requests sent to the
    ledger, oldest first; the program never reads it. *)
Record World : Type := mkWorld {
  ext : Ext;
  ledger_requests : list TransferReq;
  registered_webhooks : list Hook;
  rate_lock_store : gmap string RateLock.t;
  fake_collect_db : gmap string CollectResponse.t;
  fake_pool_db : gmap string PoolResponse.t;
  fake_contributions_db : gmap string (list Contribution.t);
  fxpool_db : gmap string FXPool.t;
  fxpool_contributions_db : gmap string (list FXContribution.t);
  _idempotency_store : gmap (string * string) Cached
}.

Definition set_ext (v : Ext) (w : World) : World :=
  mkWorld v (ledger_requests w) (registered_webhooks w) (rate_lock_store w)
    (fake_collect_db w) (fake_pool_db w) (fake_contributions_db w)
    (fxpool_db w) (fxpool_contributions_db w) (_idempotency_store w).
Definition set_ledger_requests (v : list TransferReq) (w : World) : World :=
  mkWorld (ext w) v (registered_webhooks w) (rate_lock_store w)
    (fake_collect_db w) (fake_pool_db w) (fake_contributions_db w)
    (fxpool_db w) (fxpool_contributions_db w) (_idempotency_store w).
Definition set_registered_webhooks (v : list Hook) (w : World) : World :=
  mkWorld (ext w) (ledger_requests w) v (rate_lock_store w)
    (fake_collect_db w) (fake_pool_db w) (fake_contributions_db w)
    (fxpool_db w) (fxpool_contributions_db w) (_idempotency_store w).
Definition set_rate_lock_store (v : gmap string RateLock.t) (w : World) : World :=
  mkWorld (ext w) (ledger_requests w) (registered_webhooks w) v
    (fake_collect_db w) (fake_pool_db w) (fake_contributions_db w)
    (fxpool_db w) (fxpool_contributions_db w) (_idempotency_store w).
Definition set_fake_collect_db (v : gmap string CollectResponse.t) (w : World) : World :=
  mkWorld (ext w) (ledger_requests w) (registered_webhooks w) (rate_lock_store w)
    v (fake_pool_db w) (fake_contributions_db w)
    (fxpool_db w) (fxpool_contributions_db w) (_idempotency_store w).
Definition set_fake_pool_db (v : gmap string PoolResponse.t) (w : World) : World :=
  mkWorld (ext w) (ledger_requests w) (registered_webhooks w) (rate_lock_store w)
    (fake_collect_db w) v (fake_contributions_db w)
    (fxpool_db w) (fxpool_contributions_db w) (_idempotency_store w).
Definition set_fake_contributions_db (v : gmap string (list Contribution.t)) (w : World) : World :=
  mkWorld (ext w) (ledger_requests w) (registered_webhooks w) (rate_lock_store w)
    (fake_collect_db w) (fake_pool_db w) v
    (fxpool_db w) (fxpool_contributions_db w) (_idempotency_store w).
Definition set_fxpool_db (v : gmap string FXPool.t) (w : World) : World :=
  mkWorld (ext w) (ledger_requests w) (registered_webhooks w) (rate_lock_store w)
    (fake_collect_db w) (fake_pool_db w) (fake_contributions_db w)
    v (fxpool_contributions_db w) (_idempotency_store w).
Definition set_fxpool_contributions_db (v : gmap string (list FXContribution.t)) (w : World) : World :=
  mkWorld (ext w) (ledger_requests w) (registered_webhooks w) (rate_lock_store w)
    (fake_collect_db w) (fake_pool_db w) (fake_contributions_db w)
    (fxpool_db w) v (_idempotency_store w).
Definition set_idempotency_store (v : gmap (string * string) Cached) (w : World) : World :=
  mkWorld (ext w) (ledger_requests w) (registered_webhooks w) (rate_lock_store w)
    (fake_collect_db w) (fake_pool_db w) (fake_contributions_db w)
    (fxpool_db w) (fxpool_contributions_db w) v.

(** A call of an external service from the process. *)
Definition ext_call {A} (f : Ext -> A * Ext) (w : World) : A * World :=
  let '(a, e) := f (ext w) in (a, set_ext e w).

Definition now : Async World Z := Sync (ext_call datetime_now) Return.
Definition uuid4 : Async World string := Sync (ext_call uuid4_hex) Return.
(** [s[:n]] *)
Definition prefix (n : nat) (s : string) : string := String.substring 0 n s.

(** ** [services/nessie.py] *)

(** The reported balance when it is positive, else (and on any failure of
    the call) the mock value 999999. *)
Definition get_balance (account_id : string) : Async World Z :=
  resp <- await_io (ext_call (nessie_get_account account_id));;
  match resp with
  | Some account =>
      let reported := default 0 account in        (* account.get("balance", 0) *)
      Return (if decide (reported > 0) then reported else 999999)
  | None => Return 999999
  end.

(** [None] when the call raised. *)
Definition transfer (payer_account_id payee_account_id : string) (amount : Z)
    (description : string) : Async World (option string) :=
  let payload := transfer_request payer_account_id payee_account_id amount description in
  resp <- await_io (fun w =>
            ext_call (nessie_post_transfer payload)
              (set_ledger_requests (ledger_requests w ++ [payload]) w));;
  match resp with
  | Some created => Return (Some (default "nessie_txn_mock" created))
  | None => Return None
  end.

(** ** [api/webhook.py] *)

Fixpoint post_to_hooks (hooks : list Hook) (payload : Event) : Async World unit :=
  match hooks with
  | [] => Return tt
  | hook :: rest =>
      (if bool_decide ("*" ∈ hook_events hook) || bool_decide (evt_type payload ∈ hook_events hook)
       then await_io (fun w => (tt, set_ext (webhook_post (hook_url hook) payload (ext w)) w))
       else Return tt);;;
      post_to_hooks rest payload
  end.

Definition dispatch_event (event_type : string) (data : Snapshot) : Async World unit :=
  hex <- uuid4;;
  let payload := {| evt_id := "evt_" +:+ prefix 8 hex;
                    evt_type := event_type;
                    evt_data := data |} in
  hooks <- gets registered_webhooks;;
  post_to_hooks hooks payload.

(** ** [services/fx.py] *)

Definition FALLBACK_RATES_TO_USD : gmap string float :=
  list_to_map
    [("usd", f_1_0); ("eur", f_1_08); ("gbp", f_1_27); ("inr", f_0_01202);
     ("jpy", f_0_0066); ("cad", f_0_74); ("aud", f_0_64); ("cny", f_0_138);
     ("sgd", f_0_74); ("mxn", f_0_051)].

(** Python truthiness of a float: anything but a zero. *)
Definition float_truthy (x : float) : bool :=
  match x with S754_zero _ => false | _ => true end.

(** The divisor of the fallback is an entry of the table or 1.0, never a
    zero, so the division cannot raise. *)
Definition fallback_rate (src tgt : string) : float :=
  let src_to_usd := default f_1_0 (FALLBACK_RATES_TO_USD !! src) in
  let tgt_to_usd := default f_1_0 (FALLBACK_RATES_TO_USD !! tgt) in
  fdiv src_to_usd tgt_to_usd.

Definition get_live_rate (source_currency target_currency : string) : Async World float :=
  let src := lower source_currency in
  let tgt := lower target_currency in
  if decide (src = tgt) then Return f_1_0
  else
    resp <- await_io (ext_call (er_api_latest (upper src)));;
    match resp ≫= (fun rates => rates (upper tgt)) with
    | Some rate => if float_truthy rate then Return rate
                   else Return (fallback_rate src tgt)
    | None => Return (fallback_rate src tgt)
    end.

(** [timedelta(minutes=n)], in microseconds.  A [timedelta] holds at most
    999999999 days either way; the constructor raises [OverflowError]
    beyond. *)
Definition minutes (n : Z) : PyExc + Z :=
  let microseconds := n * 60000000 in
  let days := microseconds `div` 86400000000 in
  if ((-999999999 <=? days) && (days <=? 999999999))%Z then inr microseconds
  else inl OverflowError.

(** [datetime.min] and [datetime.max], 0001-01-01T00:00:00 and
    9999-12-31T23:59:59.999999, in microseconds since the epoch. *)
Definition datetime_min : Z := -62135596800000000.
Definition datetime_max : Z := 253402300799999999.

(** [dt + delta]: a date out of the years 1 to 9999 raises
    [OverflowError]. *)
Definition datetime_add (dt delta : Z) : PyExc + Z :=
  let result := dt + delta in
  if ((datetime_min <=? result) && (result <=? datetime_max))%Z then inr result
  else inl OverflowError.

(** [lock_rate] from the line after [rate = await get_live_rate(...)] on,
    as a function of the rate fetched. *)
Definition lock_fetched_rate (rate : float) (source_currency target_currency : string)
    (amount_target : Z) (lock_duration_minutes : Z) (max_drift_pct : float)
  : Async World (PyExc + RateLock.t) :=
  let rate := if feqb rate (S754_zero false) then f_1_0 else rate in
  match py_int_truediv amount_target 100 with
  | inl e => Return (inl e)
  | inr amount_target_decimal =>
  match py_truediv amount_target_decimal rate with
  | inl e => Return (inl e)
  | inr source_decimal =>
  match py_int (fmul source_decimal f_100) with
  | inl e => Return (inl e)
  | inr amount_source_cents =>
      hex <- uuid4;;
      let lock_id := "rate_" +:+ prefix 12 hex in
      t <- now;;
      match minutes lock_duration_minutes with
      | inl e => Return (inl e)
      | inr delta =>
      match datetime_add t delta with
      | inl e => Return (inl e)
      | inr expires_at =>
      locked_at <- now;;
      let lock := RateLock.mk lock_id (lower source_currency) (lower target_currency)
                    rate amount_target amount_source_cents max_drift_pct
                    locked_at expires_at "active" in
      modify (fun w => set_rate_lock_store (<[lock_id := lock]> (rate_lock_store w)) w);;;
      Return (inr lock)
      end end
  end end end.

Definition lock_rate (source_currency target_currency : string) (amount_target : Z)
    (lock_duration_minutes : Z) (max_drift_pct : float)
  : Async World (PyExc + RateLock.t) :=
  rate <- get_live_rate source_currency target_currency;;
  lock_fetched_rate rate source_currency target_currency amount_target
    lock_duration_minutes max_drift_pct.

Definition check_drift (lock_id : string) : Async World (PyExc + Drift.t) :=
  lock <- gets (fun w => rate_lock_store w !! lock_id);;
  match lock with
  | None => Return (inr Drift.NotFound)
  | Some lock =>
      current_rate <- get_live_rate (RateLock.source_currency lock)
                        (RateLock.target_currency lock);;
      let locked_rate := RateLock.rate lock in
      match py_truediv (fsub current_rate locked_rate) locked_rate with
      | inl e => Return (inl e)
      | inr q =>
          let drift_pct := fmul (fabs q) f_100 in
          let drifted := fltb (RateLock.max_drift_pct lock) drift_pct in
          Return (inr (Drift.Info
            (Drift.mk lock_id locked_rate current_rate (py_round drift_pct 4)
               (RateLock.max_drift_pct lock) drifted)))
      end
  end.

(** ** HTTP results

    A handler returns its value or raises [HTTPException].  The detail is
    a text or an [{"error": {...}}] dict, of which the type, the code and
    the integer context are kept (the human-readable message is not). *)
Inductive Detail : Type :=
| DetailText (s : string)
| DetailError (type : option string) (code : string) (context : list (string * Z)).

Record HTTPException : Type := {
  exc_status_code : Z;
  exc_detail : Detail
}.

Definition raise {A} (status_code : Z) (detail : Detail)
  : Async World (HTTPException + A) :=
  Return (inl {| exc_status_code := status_code; exc_detail := detail |}).

(** An exception that no handler catches: the framework answers 500. *)
Definition internal_server_error {A} : Async World (HTTPException + A) :=
  raise 500 (DetailText "Internal Server Error").

(** ** [api/collect.py] *)

Record CollectCreateRequest : Type := {
  ccr_payee_account_id : string;
  ccr_payer_account_id : string;
  ccr_amount : Z;
  ccr_currency : string;
  ccr_description : string;
  ccr_expires_at : Z
}.

(** In-place mutation of the object stored under [collect_id]. *)
Definition update_collect (collect_id : string) (f : CollectResponse.t -> CollectResponse.t)
  : Async World unit :=
  modify (fun w => set_fake_collect_db (alter f collect_id (fake_collect_db w)) w).
(** The object as it is now ([collect] is the value read at the start). *)
Definition the_collect (collect_id : string) (collect : CollectResponse.t)
  : Async World CollectResponse.t :=
  gets (fun w => default collect (fake_collect_db w !! collect_id)).

Definition create_collect (request : CollectCreateRequest)
  : Async World (HTTPException + CollectResponse.t) :=
  hex <- uuid4;;
  let collect_id := "clct_" +:+ prefix 12 hex in
  t <- now;;
  let collect := CollectResponse.mk collect_id "pending" (ccr_amount request)
                   (ccr_currency request) (ccr_description request)
                   (ccr_payee_account_id request) (ccr_payer_account_id request)
                   None (ccr_expires_at request) t None None in
  modify (fun w => set_fake_collect_db (<[collect_id := collect]> (fake_collect_db w)) w);;;
  Return (inr collect).

Definition approve_collect (collect_id : string)
  : Async World (HTTPException + CollectResponse.t) :=
  found <- gets (fun w => fake_collect_db w !! collect_id);;
  match found with
  | None => raise 404 (DetailText "Collect request not found")
  | Some collect =>
  if decide (CollectResponse.status collect ≠ "pending") then
    raise 400 (DetailText ("Cannot approve collect in " +:+ CollectResponse.status collect
                           +:+ " status"))
  else
  (* 1. Check expiration *)
  t <- now;;
  if decide (t > CollectResponse.expires_at collect) then
    update_collect collect_id (CollectResponse.set_status "expired");;;
    snapshot <- the_collect collect_id collect;;
    dispatch_event "collect.expired" (SnapCollect snapshot);;;
    raise 410 (DetailError (Some "invalid_request_error") "collect_expired"
                 [("expired_at", CollectResponse.expires_at collect)])
  else
  (* 2. Check Nessie balance *)
  balance <- get_balance (CollectResponse.payer_account_id collect);;
  if decide (balance < CollectResponse.amount collect) then
    raise 402 (DetailError (Some "payment_error") "insufficient_funds"
                 [("nessie_balance", balance);
                  ("required_amount", CollectResponse.amount collect)])
  else
  (* 3. Execute Transfer *)
  sent <- transfer (CollectResponse.payer_account_id collect)
            (CollectResponse.payee_account_id collect)
            (CollectResponse.amount collect)
            ("FlowPay collect " +:+ CollectResponse.id collect);;
  match sent with
  | None => raise 500 (DetailText "Nessie transfer failed")
  | Some transfer_id =>
      update_collect collect_id (CollectResponse.set_status "approved");;;
      t' <- now;;
      update_collect collect_id (CollectResponse.set_approved_at (Some t'));;;
      update_collect collect_id (CollectResponse.set_nessie_transfer_id (Some transfer_id));;;
      snapshot <- the_collect collect_id collect;;
      dispatch_event "collect.approved" (SnapCollect snapshot);;;
      result <- the_collect collect_id collect;;
      Return (inr result)
  end
  end.

Definition decline_collect (collect_id : string)
  : Async World (HTTPException + CollectResponse.t) :=
  found <- gets (fun w => fake_collect_db w !! collect_id);;
  match found with
  | None => raise 404 (DetailText "Collect request not found")
  | Some collect =>
  if decide (CollectResponse.status collect ≠ "pending") then
    raise 400 (DetailText ("Cannot decline collect in " +:+ CollectResponse.status collect
                           +:+ " status"))
  else
    update_collect collect_id (CollectResponse.set_status "declined");;;
    t <- now;;
    update_collect collect_id (CollectResponse.set_declined_at (Some t));;;
    snapshot <- the_collect collect_id collect;;
    dispatch_event "collect.declined" (SnapCollect snapshot);;;
    result <- the_collect collect_id collect;;
    Return (inr result)
  end.

(** ** [api/pool.py] *)

Record PoolCreateRequest : Type := {
  pcr_goal_amount : Z;
  pcr_currency : string;
  pcr_description : string;
  pcr_organizer_account_id : string;
  pcr_payee_account_id : string;
  pcr_deadline : Z;
  pcr_on_deadline_miss : string
}.

Record PoolContributeRequest : Type := {
  pq_payer_account_id : string;
  pq_amount : Z
}.

Definition update_pool (pool_id : string) (f : PoolResponse.t -> PoolResponse.t)
  : Async World unit :=
  modify (fun w => set_fake_pool_db (alter f pool_id (fake_pool_db w)) w).
Definition the_pool (pool_id : string) (pool : PoolResponse.t)
  : Async World PoolResponse.t :=
  gets (fun w => default pool (fake_pool_db w !! pool_id)).

(** [len(set([c["payer_account_id"] for c in contributions]))] *)
Definition distinct_payers (contributions : list Contribution.t) : Z :=
  Z.of_nat (size (list_to_set (Contribution.payer_account_id <$> contributions) : gset string)).

Definition create_pool (request : PoolCreateRequest)
  : Async World (HTTPException + PoolResponse.t) :=
  hex <- uuid4;;
  let pool_id := "pool_" +:+ prefix 12 hex in
  t <- now;;
  let pool := PoolResponse.mk pool_id "collecting" (pcr_goal_amount request) 0
                (pcr_currency request) (pcr_description request)
                (pcr_organizer_account_id request) (pcr_payee_account_id request)
                0 0 (pcr_deadline request) (pcr_on_deadline_miss request) t
                None [] None in
  modify (fun w => set_fake_pool_db (<[pool_id := pool]> (fake_pool_db w)) w);;;
  modify (fun w => set_fake_contributions_db (<[pool_id := []]> (fake_contributions_db w)) w);;;
  Return (inr pool).

Definition contribute_to_pool (pool_id : string) (request : PoolContributeRequest)
  : Async World (HTTPException + PoolResponse.t) :=
  found <- gets (fun w => fake_pool_db w !! pool_id);;
  match found with
  | None => raise 404 (DetailText "Pool not found")
  | Some pool =>
  if decide (PoolResponse.status pool = "funded") then
    raise 409 (DetailText ("Pool " +:+ pool_id +:+
      " reached its goal and has been settled. No further contributions accepted."))
  else
  (* 1. Check expiration *)
  t <- now;;
  if decide (t > PoolResponse.deadline pool) then
    raise 422 (DetailError (Some "pool_error") "pool_expired" [])
  else
  (* 2. Check Nessie balance *)
  balance <- get_balance (pq_payer_account_id request);;
  if decide (balance < pq_amount request) then
    raise 402 (DetailError (Some "payment_error") "insufficient_funds"
                 [("nessie_balance", balance); ("required_amount", pq_amount request)])
  else
  (* 3. Execute Transfer to Pool Holding (the organizer account) *)
  sent <- transfer (pq_payer_account_id request) (PoolResponse.organizer_account_id pool)
            (pq_amount request) ("FlowPay pool contribution " +:+ PoolResponse.id pool);;
  match sent with
  | None => raise 500 (DetailText "Nessie transfer failed")
  | Some transfer_id =>
  recorded <- gets (fun w => fake_contributions_db w !! pool_id);;
  match recorded with
  | None => internal_server_error                      (* KeyError *)
  | Some contributions =>
      let contributions' :=
        contributions ++ [Contribution.mk (pq_payer_account_id request)
                            (pq_amount request) transfer_id] in
      modify (fun w => set_fake_contributions_db
                         (<[pool_id := contributions']> (fake_contributions_db w)) w);;;
      update_pool pool_id (fun p =>
        PoolResponse.set_collected_amount (PoolResponse.collected_amount p + pq_amount request) p);;;
      update_pool pool_id (PoolResponse.set_participant_count (distinct_payers contributions'));;;
      update_pool pool_id (fun p =>
        PoolResponse.set_contributions_count (PoolResponse.contributions_count p + 1) p);;;
      (* Check if goal reached *)
      current <- the_pool pool_id pool;;
      if decide (PoolResponse.collected_amount current >= PoolResponse.goal_amount current) then
        update_pool pool_id (PoolResponse.set_status "funded");;;
        t' <- now;;
        update_pool pool_id (PoolResponse.set_funded_at (Some t'));;;
        (* 4. Execute settlement transfer from holding to final payee *)
        current <- the_pool pool_id pool;;
        settled <- transfer (PoolResponse.organizer_account_id current)
                     (PoolResponse.payee_account_id current)
                     (PoolResponse.collected_amount current)
                     ("FlowPay pool settlement " +:+ PoolResponse.id current);;
        match settled with
        | Some settle_txn =>
            update_pool pool_id (fun p =>
              PoolResponse.set_nessie_transfer_ids (PoolResponse.nessie_transfer_ids p ++ [settle_txn]) p)
        | None => Return tt                              (* except Exception: pass *)
        end;;;
        snapshot <- the_pool pool_id pool;;
        dispatch_event "pool.goal_reached" (SnapPool snapshot);;;
        result <- the_pool pool_id pool;;
        Return (inr result)
      else
        dispatch_event "pool.contribution_received" (SnapPool current);;;
        result <- the_pool pool_id pool;;
        Return (inr result)
  end
  end
  end.

(** The refund loop of [cancel_pool] over the contributions recorded when
    the loop starts. *)
Fixpoint refund_contributions (pool_id : string) (pool : PoolResponse.t)
    (contributions : list Contribution.t) : Async World unit :=
  match contributions with
  | [] => Return tt
  | c :: rest =>
      sent <- transfer (PoolResponse.organizer_account_id pool)
                (Contribution.payer_account_id c) (Contribution.amount c)
                ("FlowPay refund for pool " +:+ PoolResponse.id pool);;
      match sent with
      | Some refund_txn =>
          update_pool pool_id (fun p =>
            PoolResponse.set_refund_ids
              (Some (default [] (PoolResponse.refund_ids p) ++ [refund_txn])) p)
      | None =>
          hex <- uuid4;;
          update_pool pool_id (fun p =>
            PoolResponse.set_refund_ids
              (Some (default [] (PoolResponse.refund_ids p) ++ ["failed_ref_" +:+ prefix 6 hex])) p)
      end;;;
      refund_contributions pool_id pool rest
  end.

Definition cancel_pool (pool_id : string)
  : Async World (HTTPException + PoolResponse.t) :=
  found <- gets (fun w => fake_pool_db w !! pool_id);;
  match found with
  | None => raise 404 (DetailText "Pool not found")
  | Some pool =>
  if decide (PoolResponse.status pool ≠ "collecting") then
    raise 400 (DetailText ("Cannot cancel pool in " +:+ PoolResponse.status pool +:+ " status"))
  else
    update_pool pool_id (PoolResponse.set_status "cancelled");;;
    (* Refund loop using Nessie *)
    update_pool pool_id (PoolResponse.set_refund_ids (Some []));;;
    recorded <- gets (fun w => fake_contributions_db w !! pool_id);;
    match recorded with
    | None => internal_server_error                    (* KeyError *)
    | Some contributions =>
        refund_contributions pool_id pool contributions;;;
        snapshot <- the_pool pool_id pool;;
        dispatch_event "pool.cancelled" (SnapPool snapshot);;;
        result <- the_pool pool_id pool;;
        Return (inr result)
    end
  end.

(** ** [api/fxpool.py] *)

Record FXPoolCreateRequest : Type := {
  fcr_goal_amount_usd : Z;
  fcr_organizer_account_id : string;
  fcr_payee_account_id : string;
  fcr_description : string;
  fcr_deadline : Z;
  fcr_max_rate_drift_pct : float;
  fcr_on_deadline_miss : string
}.

Record FXPoolContributeRequest : Type := {
  fq_payer_account_id : string;
  fq_currency : string;
  fq_amount_local : Z
}.

Definition update_fxpool (pool_id : string) (f : FXPool.t -> FXPool.t) : Async World unit :=
  modify (fun w => set_fxpool_db (alter f pool_id (fxpool_db w)) w).
Definition the_fxpool (pool_id : string) (pool : FXPool.t) : Async World FXPool.t :=
  gets (fun w => default pool (fxpool_db w !! pool_id)).

Definition create_fxpool (request : FXPoolCreateRequest)
  : Async World (HTTPException + Snapshot) :=
  hex <- uuid4;;
  let pool_id := "fxpool_" +:+ prefix 10 hex in
  t <- now;;
  let pool := FXPool.mk pool_id "collecting" (fcr_goal_amount_usd request) 0
                (fcr_organizer_account_id request) (fcr_payee_account_id request)
                (fcr_description request) (fcr_deadline request)
                (fcr_max_rate_drift_pct request) (fcr_on_deadline_miss request)
                0 t None None [] in
  modify (fun w => set_fxpool_db (<[pool_id := pool]> (fxpool_db w)) w);;;
  modify (fun w => set_fxpool_contributions_db
                     (<[pool_id := []]> (fxpool_contributions_db w)) w);;;
  Return (inr (SnapFXPool pool)).

(** The refund loop: one reverse transfer per contribution, for its
    [amount_local]; a failed transfer is recorded and the loop goes on. *)
Fixpoint refund_fx_contributions (pool_id reason : string) (pool : FXPool.t)
    (contributions : list FXContribution.t) (refunds : list Refund)
  : Async World (list Refund) :=
  match contributions with
  | [] => Return refunds
  | contrib :: rest =>
      sent <- transfer (FXPool.organizer_account_id pool)
                (FXContribution.payer_account_id contrib)
                (FXContribution.amount_local contrib)
                ("FlowBridge FX Pool " +:+ pool_id +:+ " refund (" +:+ reason +:+ ")");;
      refund_fx_contributions pool_id reason pool rest
        (refunds ++
         [match sent with
          | Some ref_txn =>
              Refunded (FXContribution.payer_account_id contrib)
                (FXContribution.currency contrib)
                (FXContribution.amount_local contrib) ref_txn
          | None => RefundFailed (FXContribution.payer_account_id contrib)
          end])
  end.

(** ["drift" in reason] *)
Definition contains (needle hay : string) : bool :=
  match String.index 0 needle hay with Some _ => true | None => false end.

Definition _trigger_fxpool_refund (pool_id reason : string)
  : Async World (HTTPException + Snapshot) :=
  found <- gets (fun w => fxpool_db w !! pool_id);;
  match found with
  | None => internal_server_error                      (* KeyError *)
  | Some pool =>
      update_fxpool pool_id
        (FXPool.set_status (if decide (reason = "organizer_cancelled")
                            then "cancelled" else "drift_refunded"));;;
      contributions <- gets (fun w => default [] (fxpool_contributions_db w !! pool_id));;
      refunds <- refund_fx_contributions pool_id reason pool contributions [];;
      let event := if contains "drift" reason then "fxpool.rate_drifted"
                   else "fxpool.cancelled" in
      snapshot <- the_fxpool pool_id pool;;
      dispatch_event event (SnapFXPoolRefunds snapshot refunds reason);;;
      result <- the_fxpool pool_id pool;;
      Return (inr (SnapFXPoolRefunds result refunds reason))
  end.

(** The drift scan of a pool that reached its goal: stops at the first
    contribution whose lock has drifted. *)
Fixpoint any_drift (contributions : list FXContribution.t) : Async World (PyExc + bool) :=
  match contributions with
  | [] => Return (inr false)
  | contrib :: rest =>
      drift <- check_drift (FXContribution.rate_lock_id contrib);;
      match drift with
      | inl e => Return (inl e)
      | inr d => if Drift.get_drifted d then Return (inr true) else any_drift rest
      end
  end.

Definition contribute_to_fxpool (pool_id : string) (request : FXPoolContributeRequest)
  : Async World (HTTPException + Snapshot) :=
  found <- gets (fun w => fxpool_db w !! pool_id);;
  match found with
  | None => raise 404 (DetailText "FX Pool not found")
  | Some pool =>
  if decide (FXPool.status pool ≠ "collecting") then
    raise 400 (DetailText ("Cannot contribute to fxpool in " +:+ FXPool.status pool
                           +:+ " status"))
  else
  t <- now;;
  if decide (t > FXPool.deadline pool) then
    raise 422 (DetailError None "fxpool_expired" [])
  else
  (* Get live rate and convert to USD *)
  let src_currency := lower (fq_currency request) in
  usd_rate <- get_live_rate src_currency "usd";;
  match py_int_truediv (fq_amount_local request) 100 with
  | inl _ => internal_server_error
  | inr local_decimal =>
  match py_int (fmul (fmul local_decimal usd_rate) f_100) with
  | inl _ => internal_server_error
  | inr amount_usd =>
  (* Lock the rate for this contribution *)
  locked <- lock_rate src_currency "usd" amount_usd (60 * 24)
              (FXPool.max_rate_drift_pct pool);;
  match locked with
  | inl _ => internal_server_error
  | inr rate_lock =>
  (* Execute Nessie transfer from payer to organizer holding account *)
  sent <- transfer (fq_payer_account_id request) (FXPool.organizer_account_id pool)
            (fq_amount_local request)
            ("FlowBridge FX Pool " +:+ pool_id +:+ " contribution — "
             +:+ upper src_currency +:+ " → USD");;
  match sent with
  | None => raise 500 (DetailText "Nessie transfer failed")
  | Some txn_id =>
  hex <- uuid4;;
  t' <- now;;
  let contribution :=
    FXContribution.mk ("fxc_" +:+ prefix 8 hex) (fq_payer_account_id request)
      src_currency (fq_amount_local request) amount_usd usd_rate
      (RateLock.id rate_lock) txn_id t' in
  recorded <- gets (fun w => fxpool_contributions_db w !! pool_id);;
  match recorded with
  | None => internal_server_error                      (* KeyError *)
  | Some contributions =>
  modify (fun w => set_fxpool_contributions_db
                     (<[pool_id := contributions ++ [contribution]]>
                        (fxpool_contributions_db w)) w);;;
  update_fxpool pool_id (fun p =>
    FXPool.set_collected_usd (FXPool.collected_usd p + amount_usd) p);;;
  update_fxpool pool_id (fun p =>
    FXPool.set_contributions_count (FXPool.contributions_count p + 1) p);;;
  update_fxpool pool_id (fun p =>
    if bool_decide (src_currency ∈ FXPool.currencies_collected p) then p
    else FXPool.set_currencies_collected (FXPool.currencies_collected p ++ [src_currency]) p);;;
  snapshot <- the_fxpool pool_id pool;;
  dispatch_event "fxpool.contribution_received"
    (SnapFXPoolContribution snapshot contribution);;;
  (* Check if goal reached *)
  current <- the_fxpool pool_id pool;;
  if decide (FXPool.collected_usd current >= FXPool.goal_amount_usd current) then
    (* First check for drift on any locked rates *)
    all <- gets (fun w => default [] (fxpool_contributions_db w !! pool_id));;
    scanned <- any_drift all;;
    match scanned with
    | inl _ => internal_server_error
    | inr true => _trigger_fxpool_refund pool_id "rate_drift"
    | inr false =>
        (* Settle to payee *)
        current <- the_fxpool pool_id pool;;
        settled <- transfer (FXPool.organizer_account_id current)
                     (FXPool.payee_account_id current) (FXPool.collected_usd current)
                     ("FlowBridge FX Pool " +:+ pool_id +:+ " settlement");;
        settle_txn <- match settled with
                      | Some settle_txn => Return settle_txn
                      | None => hex <- uuid4;; Return ("mock_settle_" +:+ prefix 8 hex)
                      end;;
        update_fxpool pool_id (FXPool.set_status "funded");;;
        t'' <- now;;
        update_fxpool pool_id (FXPool.set_funded_at (Some t''));;;
        update_fxpool pool_id (FXPool.set_nessie_settlement_id (Some settle_txn));;;
        snapshot <- the_fxpool pool_id pool;;
        dispatch_event "fxpool.goal_reached" (SnapFXPool snapshot);;;
        result <- the_fxpool pool_id pool;;
        Return (inr (SnapFXPoolContribution result contribution))
    end
  else
    result <- the_fxpool pool_id pool;;
    Return (inr (SnapFXPoolContribution result contribution))
  end end end end end
  end.

Definition simulate_rate_drift (pool_id : string) : Async World (HTTPException + Snapshot) :=
  found <- gets (fun w => fxpool_db w !! pool_id);;
  match found with
  | None => raise 404 (DetailText "FX Pool not found")
  | Some _ => _trigger_fxpool_refund pool_id "rate_drift_simulated"
  end.

Definition cancel_fxpool (pool_id : string) : Async World (HTTPException + Snapshot) :=
  found <- gets (fun w => fxpool_db w !! pool_id);;
  match found with
  | None => raise 404 (DetailText "FX Pool not found")
  | Some _ => _trigger_fxpool_refund pool_id "organizer_cancelled"
  end.

(** ** [middleware/idempotency.py] *)

Record Request : Type := {
  method : string;
  path : string;                          (* request.url.path *)
  headers : list (string * string)
}.

Record Response : Type := {
  status_code : Z;
  resp_headers : list (string * string);
  body_iterator : list string             (* the chunks of the body *)
}.

(** [Response(content=..., status_code=..., headers=...)] *)
Definition mkResponse (content : string) (status_code : Z)
    (headers : list (string * string)) : Response :=
  {| status_code := status_code; resp_headers := headers; body_iterator := [content] |}.

(** [request.headers.get(name)]: header names are bytes and compare
    without the case of their ASCII letters. *)
Fixpoint headers_get (name : string) (hs : list (string * string)) : option string :=
  match hs with
  | [] => None
  | (k, v) :: rest =>
      if decide (bytes_lower k = bytes_lower name) then Some v else headers_get name rest
  end.

(** [a or b] on optional strings: [None] and the empty string are falsy. *)
Definition str_truthy (o : option string) : bool :=
  match o with Some (String _ _) => true | _ => false end.
Definition py_or (a b : option string) : option string :=
  if str_truthy a then a else b.

(** [d | e] on header dicts: the entries of [e] win. *)
Definition dict_union (d e : list (string * string)) : list (string * string) :=
  filter (fun kv => fst kv ∉ (fst <$> e)) d ++ e.

(** [async for chunk in response.body_iterator: body += chunk], from the
    empty bytes *)
Definition read_body (chunks : list string) : string := foldl String.append EmptyString chunks.

Definition dispatch (call_next : Request -> Async World Response) (request : Request)
  : Async World Response :=
  (* Only apply to POST requests *)
  if decide (method request ≠ "POST") then call_next request
  else
  let idempotency_key := py_or (headers_get "Idempotency-Key" (headers request))
                               (headers_get "idempotency-key" (headers request)) in
  match idempotency_key with
  | None | Some EmptyString => call_next request
  | Some idempotency_key =>
  let cache_key := (idempotency_key, path request) in
  hit <- gets (fun w => _idempotency_store w !! cache_key);;
  match hit with
  | Some cached =>
      Return (mkResponse (cached_body cached) (cached_status_code cached)
                [("Content-Type", "application/json");
                 ("X-Idempotency-Key", idempotency_key);
                 ("X-Idempotency-Replayed", "true")])
  | None =>
      response <- call_next request;;
      (* Cache successful POST responses (2xx) *)
      if decide (200 <= status_code response < 300) then
        let body := read_body (body_iterator response) in
        modify (fun w => set_idempotency_store
                  (<[cache_key := {| cached_body := body;
                                     cached_status_code := status_code response |}]>
                     (_idempotency_store w)) w);;;
        Return (mkResponse body (status_code response)
                  (dict_union (resp_headers response)
                     [("X-Idempotency-Key", idempotency_key);
                      ("X-Idempotency-Replayed", "false")]))
      else Return response
  end
  end.

(** ** Requests served concurrently

    The tasks of the event loop: a task is a suspended coroutine or its
    result.  [step i] resumes task [i] up to its next suspension. *)
Definition Tasks (R : Type) : Type := list (R + Async World R).

Definition step {R} (i : nat) (st : Tasks R * World) : Tasks R * World :=
  let '(tasks, w) := st in
  match tasks !! i with
  | Some (inr m) => let '(r, w') := resume m w in (<[i := r]> tasks, w')
  | _ => st
  end.

(** The event loop following a schedule, a list of task indices. *)
Definition event_loop {R} (schedule : list nat) (st : Tasks R * World) : Tasks R * World :=
  foldl (fun st i => step i st) st schedule.

(** A route as the middleware sees it: the framework encodes the
    handler's value with the route's status code, an [HTTPException] with
    its own; [encode] is the JSON encoding of either. *)
Definition endpoint {A} (encode : HTTPException + A -> string) (success_code : Z)
    (handler : Async World (HTTPException + A)) (request : Request)
  : Async World Response :=
  r <- handler;;
  Return (mkResponse (encode r)
            (match r with inl e => exc_status_code e | inr _ => success_code end)
            [("content-type", "application/json")]).

End Backend.

(** ** The rate-lock amount as the specification words it

    [round(amount_target / rate)]: the quotient of the target amount by the
    rate, rounded to the nearest integer (half to even, as [round] does). *)
Definition py_round_int (x : float) : PyExc + Z :=
  match x with
  | S754_zero _ => inr 0
  | S754_infinity _ => inl OverflowError
  | S754_nan => inl ValueError
  | S754_finite s m e =>
      let mag := match e with
                 | Zneg k => round_half_even_div (Zpos m) (2 ^ Zpos k)
                 | _ => Zpos m * 2 ^ e
                 end in
      inr (if s then - mag else mag)
  end.

Definition spec_amount_source (amount_target : Z) (rate : float) : PyExc + Z :=
  match py_truediv (float_of_int amount_target) rate with
  | inl e => inl e
  | inr q => py_round_int q
  end.

(** ** A sandbox environment

    A deterministic instance of the external services, used to run the
    handlers on concrete inputs: a fixed clock, numbered ids, a table of
    account answers, a ledger that accepts or refuses each request, and an
    oracle answer. *)
Record Sandbox : Type := {
  sb_clock : Z;
  sb_counter : nat;
  sb_accounts : string -> option (option Z);
  sb_ledger : TransferReq -> bool;
  sb_oracle : option (string -> option float)
}.

Definition sb_tick (e : Sandbox) : Sandbox :=
  {| sb_clock := sb_clock e; sb_counter := S (sb_counter e);
     sb_accounts := sb_accounts e; sb_ledger := sb_ledger e; sb_oracle := sb_oracle e |}.

(** Case mappings that touch the ASCII letters only; the sandbox is run
    on ASCII text. *)
#[export] Instance ascii_case : CaseMapping :=
  {| lower := bytes_lower; upper := bytes_upper;
     lower_isascii := fun _ _ => eq_refl; upper_isascii := fun _ _ => eq_refl |}.

#[export] Instance SandboxServices : ExternalServices := {|
  Ext := Sandbox;
  nessie_post_transfer req e :=
    (if sb_ledger e req then Some (Some ("txn" +:+ pretty (sb_counter e))) else None,
     sb_tick e);
  nessie_get_account account_id e := (sb_accounts e account_id, e);
  er_api_latest src e := (sb_oracle e, e);
  webhook_post url payload e := e;
  uuid4_hex e := ("id" +:+ pretty (sb_counter e), sb_tick e);
  datetime_now e := (sb_clock e, e)
|}.

(** A fresh process: every store empty. *)
Definition boot `{ES : ExternalServices} (e : Ext) : World :=
  mkWorld e [] [] ∅ ∅ ∅ ∅ ∅ ∅ ∅.

Definition f_2_0 : float := Eval vm_compute in Prim2SF 2.0%float.
Definition f_3_0 : float := Eval vm_compute in Prim2SF 3.0%float.

(** Ledger and oracle unreachable, every account reporting 500.00. *)
Definition offline : Sandbox :=
  {| sb_clock := 1000; sb_counter := 0;
     sb_accounts := fun _ => Some (Some 50000);
     sb_ledger := fun _ => false;
     sb_oracle := None |}.

(** Ledger reachable, oracle down (fallback rates), accounts at 500.00. *)
Definition online : Sandbox :=
  {| sb_clock := 1000; sb_counter := 0;
     sb_accounts := fun _ => Some (Some 50000);
     sb_ledger := fun _ => true;
     sb_oracle := None |}.

(** Every account reporting a balance of zero, ledger reachable. *)
Definition broke : Sandbox :=
  {| sb_clock := 1000; sb_counter := 0;
     sb_accounts := fun _ => Some (Some 0);
     sb_ledger := fun _ => true;
     sb_oracle := None |}.

(** ** Vocabulary of the statements *)

(** The amounts recorded for a pool. *)
Definition total_contributed (contributions : list Contribution.t) : Z :=
  foldr (fun c acc => Contribution.amount c + acc) 0 contributions.

(** The commands of the pool state machine. *)
Inductive PoolCommand : Type :=
| CreatePool (request : PoolCreateRequest)
| Contribute (pool_id : string) (request : PoolContributeRequest)
| CancelPool (pool_id : string).

(** A transition of one pool that keeps its goal and its total. *)
Definition pool_step (p p' : PoolResponse.t) : Prop :=
  PoolResponse.collected_amount p' = PoolResponse.collected_amount p /\
  PoolResponse.goal_amount p' = PoolResponse.goal_amount p /\
  (PoolResponse.status p' = PoolResponse.status p \/
   (PoolResponse.status p = "collecting" /\ PoolResponse.status p' = "cancelled")).

(** What the refund loop leaves of a pool: everything but [refund_ids]. *)
Definition pool_core (p : PoolResponse.t) : string * Z * Z :=
  (PoolResponse.status p, PoolResponse.goal_amount p, PoolResponse.collected_amount p).

(** The reverse transfer the refund path owes a contribution. *)
Definition refund_request (organizer_account_id pool_id reason : string)
    (contrib : FXContribution.t) : TransferReq :=
  transfer_request organizer_account_id
    (FXContribution.payer_account_id contrib)
    (FXContribution.amount_local contrib)
    ("FlowBridge FX Pool " +:+ pool_id +:+ " refund (" +:+ reason +:+ ")").

(** The entry of [refunds] a contribution may get. *)
Definition refund_of (contrib : FXContribution.t) (r : Refund) : Prop :=
  r = RefundFailed (FXContribution.payer_account_id contrib) \/
  exists ref_txn,
    r = Refunded (FXContribution.payer_account_id contrib)
          (FXContribution.currency contrib) (FXContribution.amount_local contrib) ref_txn.

(** The idempotency key a request carries, if any (an empty one is none). *)
Definition request_key (request : Request) : option string :=
  match py_or (headers_get "Idempotency-Key" (headers request))
              (headers_get "idempotency-key" (headers request)) with
  | Some (String c k) => Some (String c k)
  | _ => None
  end.

(** The bytes of a response body. *)
Definition body_of (r : Response) : string := read_body (body_iterator r).

Definition success (r : Response) : Prop := 200 <= status_code r < 300.

Definition replay_tag (v : string) (r : Response) : Prop :=
  ("X-Idempotency-Replayed", v) ∈ resp_headers r.

(** [InvalidStateError]: the operation is not valid for the current
    status; the handlers raise it as a 400 naming the status. *)
Definition InvalidStateError (operation entity current_status : string)
    (exc : HTTPException) : Prop :=
  exc = {| exc_status_code := 400;
           exc_detail := DetailText ("Cannot " +:+ operation +:+ " " +:+ entity +:+ " in "
                                     +:+ current_status +:+ " status") |}.

(** The transfer an approved collect moves. *)
Definition collect_transfer (collect : CollectResponse.t) : TransferReq :=
  transfer_request (CollectResponse.payer_account_id collect)
    (CollectResponse.payee_account_id collect) (CollectResponse.amount collect)
    ("FlowPay collect " +:+ CollectResponse.id collect).

Section Vocabulary.
Context `{CM : CaseMapping} `{ES : ExternalServices}.

(** A computation that touches nothing but the external services. *)
Definition ext_only {A} (m : Async World A) : Prop :=
  forall w, exists a e, run m w = (a, set_ext e w).

Definition serve_pool (cmd : PoolCommand) : Async World (HTTPException + PoolResponse.t) :=
  match cmd with
  | CreatePool request => create_pool request
  | Contribute pool_id request => contribute_to_pool pool_id request
  | CancelPool pool_id => cancel_pool pool_id
  end.

(** The commands served one after the other. *)
Definition serve_pool_all (cmds : list PoolCommand) (w : World) : World :=
  foldl (fun w cmd => (run (serve_pool cmd) w).2) w cmds.

(** A pool agrees with its recorded contributions, and is funded once a
    positive goal is met. *)
Definition pool_ok (w : World) (pool_id : string) : Prop :=
  forall pool, fake_pool_db w !! pool_id = Some pool ->
    exists contributions,
      fake_contributions_db w !! pool_id = Some contributions /\
      PoolResponse.collected_amount pool = total_contributed contributions /\
      (0 < PoolResponse.goal_amount pool ->
       PoolResponse.collected_amount pool >= PoolResponse.goal_amount pool ->
       PoolResponse.status pool = "funded").

(** The stores an FX pool request can be judged on. *)
Definition fx_view (w : World)
  : gmap string FXPool.t * gmap string (list FXContribution.t) * list TransferReq :=
  (fxpool_db w, fxpool_contributions_db w, ledger_requests w).

(** The middleware passed the request on: its answer is the handler's
    ([response], leaving [w1]), and the store gained at most the entry of
    this request. *)
Definition executes (call_next : Request -> Async World Response) (request : Request)
    (cache_key : string * string) (w : World) (returned : Response) (w' : World) : Prop :=
  exists response w1,
    run (call_next request) w = (response, w1) /\
    status_code returned = status_code response /\
    body_of returned = body_of response /\
    (success response ->
       replay_tag "false" returned /\
       w' = set_idempotency_store
              (<[cache_key := {| cached_body := body_of response;
                                 cached_status_code := status_code response |}]>
                 (_idempotency_store w1)) w1) /\
    (~ success response -> returned = response /\ w' = w1).

(** [n] further identical requests, each served after the previous one
    has completed. *)
Fixpoint serve_again (n : nat) (handler : Async World Response) (w : World)
  : list Response * World :=
  match n with
  | O => ([], w)
  | S n' => let '(r, w1) := run handler w in
            let '(rs, w2) := serve_again n' handler w1 in
            (r :: rs, w2)
  end.

End Vocabulary.

(** ** Sample requests *)

Definition demo_pool (goal : Z) : PoolCreateRequest :=
  {| pcr_goal_amount := goal; pcr_currency := "usd"; pcr_description := "dinner";
     pcr_organizer_account_id := "org"; pcr_payee_account_id := "venue";
     pcr_deadline := 2000; pcr_on_deadline_miss := "refund_all" |}.

Definition chip_in (payer : string) (amount : Z) : PoolContributeRequest :=
  {| pq_payer_account_id := payer; pq_amount := amount |}.

Definition invoice : CollectCreateRequest :=
  {| ccr_payee_account_id := "shop"; ccr_payer_account_id := "jordan";
     ccr_amount := 4900; ccr_currency := "usd"; ccr_description := "Invoice";
     ccr_expires_at := 2000 |}.

Definition trip (goal_usd : Z) : FXPoolCreateRequest :=
  {| fcr_goal_amount_usd := goal_usd; fcr_organizer_account_id := "org";
     fcr_payee_account_id := "villa"; fcr_description := "rental";
     fcr_deadline := 2000; fcr_max_rate_drift_pct := f_3_0;
     fcr_on_deadline_miss := "refund_all" |}.

Definition pay_in (payer currency : string) (amount_local : Z) : FXPoolContributeRequest :=
  {| fq_payer_account_id := payer; fq_currency := currency; fq_amount_local := amount_local |}.

(** A stand-in for the JSON encoder: the status and the transfer id. *)
Definition encode_collect (r : HTTPException + CollectResponse.t) : string :=
  match r with
  | inl _ => "error"
  | inr c => CollectResponse.status c +:+ ":"
             +:+ default "none" (CollectResponse.nessie_transfer_id c)
  end.

Definition approve_request (key : string) : Request :=
  {| method := "POST"; path := "/v1/collects/clct_id0/approve";
     headers := [("Idempotency-Key", key)] |}.

Definition create_request (key : string) : Request :=
  {| method := "POST"; path := "/v1/collects";
     headers := [("Idempotency-Key", key)] |}.

(** The process after [invoice] was created: one pending collect. *)
Definition pending_world (e : Sandbox) : World := (run (create_collect invoice) (boot e)).2.

(** One approve request of the pending collect, through the middleware. *)
Definition approve_task : Async World Response :=
  dispatch (endpoint encode_collect 200 (approve_collect "clct_id0")) (approve_request "k1").

(** * Further vocabulary: the remaining paths of the handlers *)

(** An entry of [FALLBACK_RATES_TO_USD], or the default 1.0 of its [get]. *)
Definition fallback_to_usd (currency : string) : float :=
  default f_1_0 (FALLBACK_RATES_TO_USD !! currency).

(** The reverse transfer [cancel_pool] sends for a contribution. *)
Definition pool_refund_request (pool : PoolResponse.t) (c : Contribution.t) : TransferReq :=
  transfer_request (PoolResponse.organizer_account_id pool) (Contribution.payer_account_id c)
    (Contribution.amount c) ("FlowPay refund for pool " +:+ PoolResponse.id pool).

(** The transfer a contribution sends to the organizer's holding account,
    and the settlement of a pool to its payee. *)
Definition pool_contribution_request (pool : PoolResponse.t) (request : PoolContributeRequest)
  : TransferReq :=
  transfer_request (pq_payer_account_id request) (PoolResponse.organizer_account_id pool)
    (pq_amount request) ("FlowPay pool contribution " +:+ PoolResponse.id pool).
Definition pool_settlement_request (pool : PoolResponse.t) : TransferReq :=
  transfer_request (PoolResponse.organizer_account_id pool) (PoolResponse.payee_account_id pool)
    (PoolResponse.collected_amount pool) ("FlowPay pool settlement " +:+ PoolResponse.id pool).

(** [ids] appended to the [refund_ids] of a pool, one [append] each. *)
Definition add_refunds (ids : list string) (p : PoolResponse.t) : PoolResponse.t :=
  match ids with
  | [] => p
  | _ => PoolResponse.set_refund_ids (Some (default [] (PoolResponse.refund_ids p) ++ ids)) p
  end.

Definition is_create (cmd : PoolCommand) : bool :=
  match cmd with CreatePool _ => true | _ => false end.

(** Clock past the expiry and the deadline of the sample requests. *)
Definition late : Sandbox :=
  {| sb_clock := 3000; sb_counter := 0;
     sb_accounts := fun _ => Some (Some 50000);
     sb_ledger := fun _ => true;
     sb_oracle := None |}.

(** Every account reporting 1.00. *)
Definition poor : Sandbox :=
  {| sb_clock := 1000; sb_counter := 0;
     sb_accounts := fun _ => Some (Some 100);
     sb_ledger := fun _ => true;
     sb_oracle := None |}.

(** The commands of the FX pool state machine. *)
Inductive FXCommand : Type :=
| CreateFX (request : FXPoolCreateRequest)
| ContributeFX (pool_id : string) (request : FXPoolContributeRequest)
| CancelFX (pool_id : string)
| ForceDrift (pool_id : string).

(** The transfer an FX contribution sends to the organizer's holding
    account, and the settlement of an FX pool to its payee. *)
Definition fx_contribution_request `{CM : CaseMapping} (pool_id : string) (pool : FXPool.t)
    (request : FXPoolContributeRequest) : TransferReq :=
  transfer_request (fq_payer_account_id request) (FXPool.organizer_account_id pool)
    (fq_amount_local request)
    ("FlowBridge FX Pool " +:+ pool_id +:+ " contribution — "
     +:+ upper (lower (fq_currency request)) +:+ " → USD").
Definition fx_settlement_request (pool_id : string) (pool : FXPool.t) : TransferReq :=
  transfer_request (FXPool.organizer_account_id pool) (FXPool.payee_account_id pool)
    (FXPool.collected_usd pool) ("FlowBridge FX Pool " +:+ pool_id +:+ " settlement").

(** [sum(c["amount_usd"] for c in contributions)] *)
Definition total_usd (contributions : list FXContribution.t) : Z :=
  foldr (fun c acc => FXContribution.amount_usd c + acc) 0 contributions.

Section MoreVocabulary.
Context `{CM : CaseMapping} `{ES : ExternalServices}.

(** The counters of a pool agree with its recorded contributions. *)
Definition pool_counts_ok (w : World) (pool_id : string) : Prop :=
  forall pool, fake_pool_db w !! pool_id = Some pool ->
    exists contributions,
      fake_contributions_db w !! pool_id = Some contributions /\
      PoolResponse.contributions_count pool = Z.of_nat (length contributions) /\
      PoolResponse.participant_count pool = distinct_payers contributions.

Definition serve_fx (cmd : FXCommand) (w : World) : World :=
  match cmd with
  | CreateFX request => (run (create_fxpool request) w).2
  | ContributeFX pool_id request => (run (contribute_to_fxpool pool_id request) w).2
  | CancelFX pool_id => (run (cancel_fxpool pool_id) w).2
  | ForceDrift pool_id => (run (simulate_rate_drift pool_id) w).2
  end.

Definition serve_fx_all (cmds : list FXCommand) (w : World) : World :=
  foldl (fun w cmd => serve_fx cmd w) w cmds.

(** An FX pool agrees with its recorded contributions. *)
Definition fxpool_ok (w : World) (pool_id : string) : Prop :=
  forall pool, fxpool_db w !! pool_id = Some pool ->
    exists contributions,
      fxpool_contributions_db w !! pool_id = Some contributions /\
      FXPool.collected_usd pool = total_usd contributions /\
      FXPool.contributions_count pool = Z.of_nat (length contributions) /\
      NoDup (FXPool.currencies_collected pool) /\
      forall currency, currency ∈ FXPool.currencies_collected pool <->
                       currency ∈ (FXContribution.currency <$> contributions).

End MoreVocabulary.

(** * The remaining routers

    [api/webhook.py] (registration), [api/recurring.py], [api/corridor.py]
    and [api/analytics.py].  Their module-level dicts are iterated by the
    list and analytics routes, so they are kept in insertion order. *)

(** ** Insertion-ordered dicts *)

Definition PyDict (V : Type) : Type := list (string * V).

(** [d.get(k)] *)
Fixpoint dict_get {V} (k : string) (d : PyDict V) : option V :=
  match d with
  | [] => None
  | (k', v) :: rest => if decide (k' = k) then Some v else dict_get k rest
  end.

(** [d[k] = v]: an existing key keeps its place, a new one goes last. *)
Fixpoint dict_set {V} (k : string) (v : V) (d : PyDict V) : PyDict V :=
  match d with
  | [] => [(k, v)]
  | (k', v') :: rest =>
      if decide (k' = k) then (k, v) :: rest else (k', v') :: dict_set k v rest
  end.

(** In-place mutation of the object stored under [k]. *)
Fixpoint dict_alter {V} (f : V -> V) (k : string) (d : PyDict V) : PyDict V :=
  match d with
  | [] => []
  | (k', v) :: rest =>
      if decide (k' = k) then (k', f v) :: rest else (k', v) :: dict_alter f k rest
  end.

(** [d.values()] *)
Definition dict_values {V} (d : PyDict V) : list V := snd <$> d.

(** [sum(1 for x in xs if p(x))] and [sum(f(x) for x in xs)] *)
Definition count_where {A} (p : A -> bool) (xs : list A) : Z :=
  Z.of_nat (length (List.filter p xs)).
Definition sum_of {A} (f : A -> Z) (xs : list A) : Z :=
  foldr (fun x acc => f x + acc) 0 xs.

(** Python truthiness of an optional int: [None] and 0 are falsy. *)
Definition int_truthy (o : option Z) : bool :=
  match o with Some n => negb (Z.eqb n 0) | None => false end.

(** ** [api/recurring.py]: the objects *)

Module Recurring.
Record t : Type := mk {
  id : string;
  status : string;                      (* active, paused, cancelled, completed *)
  payee_account_id : string;
  payer_account_id : string;
  amount : Z;
  currency : string;
  description : string;
  interval : string;
  occurrences_count : Z;
  max_occurrences : option Z;
  pre_approved : bool;
  created_at : Z;
  next_collect_at : option Z
}.
Definition set_status (v : string) (r : t) : t :=
  mk (id r) v (payee_account_id r) (payer_account_id r) (amount r) (currency r)
     (description r) (interval r) (occurrences_count r) (max_occurrences r)
     (pre_approved r) (created_at r) (next_collect_at r).
Definition set_occurrences_count (v : Z) (r : t) : t :=
  mk (id r) (status r) (payee_account_id r) (payer_account_id r) (amount r) (currency r)
     (description r) (interval r) v (max_occurrences r)
     (pre_approved r) (created_at r) (next_collect_at r).
End Recurring.

Record RecurringCollectRequest : Type := {
  rcr_payee_account_id : string;
  rcr_payer_account_id : string;
  rcr_amount : Z;
  rcr_currency : string;
  rcr_description : string;
  rcr_interval : string;
  rcr_max_occurrences : option Z;
  rcr_pre_approved : bool
}.

(** What [trigger_recurring_collect] returns. *)
Inductive Triggered : Type :=
| Completed                             (* {"status": "completed", ...} *)
| Executed (recurring_id : string) (occurrence : Z) (nessie_transfer_id : string)
           (amount : Z).                (* {..., "status": "executed"} *)

(** ** [api/corridor.py]: the objects

    The request's free-form [metadata] is carried along untouched and is
    left out. *)

Module Corridor.
Record t : Type := mk {
  id : string;
  status : string;          (* rate_locked, remitted, expired, drift_cancelled *)
  description : string;
  source_currency : string;
  target_currency : string;
  source_account_id : string;
  target_account_id : string;
  amount_target_cents : Z;
  amount_source_cents : Z;
  rate_lock : RateLock.t;
  nessie_transfer_id : option string;
  created_at : Z;
  remitted_at : option Z
}.
Definition set_status (v : string) (c : t) : t :=
  mk (id c) v (description c) (source_currency c) (target_currency c)
     (source_account_id c) (target_account_id c) (amount_target_cents c)
     (amount_source_cents c) (rate_lock c) (nessie_transfer_id c) (created_at c)
     (remitted_at c).
Definition set_rate_lock (v : RateLock.t) (c : t) : t :=
  mk (id c) (status c) (description c) (source_currency c) (target_currency c)
     (source_account_id c) (target_account_id c) (amount_target_cents c)
     (amount_source_cents c) v (nessie_transfer_id c) (created_at c)
     (remitted_at c).
Definition set_nessie_transfer_id (v : option string) (c : t) : t :=
  mk (id c) (status c) (description c) (source_currency c) (target_currency c)
     (source_account_id c) (target_account_id c) (amount_target_cents c)
     (amount_source_cents c) (rate_lock c) v (created_at c)
     (remitted_at c).
Definition set_remitted_at (v : option Z) (c : t) : t :=
  mk (id c) (status c) (description c) (source_currency c) (target_currency c)
     (source_account_id c) (target_account_id c) (amount_target_cents c)
     (amount_source_cents c) (rate_lock c) (nessie_transfer_id c) (created_at c)
     v.
End Corridor.

Record CorridorCreateRequest : Type := {
  kcr_source_currency : string;
  kcr_target_currency : string;
  kcr_source_account_id : string;
  kcr_target_account_id : string;
  kcr_amount_target : Z;
  kcr_description : string;
  kcr_lock_duration_minutes : Z;
  kcr_max_rate_drift_pct : float
}.

(** [lock["status"] = "used"] *)
Definition rate_lock_used (l : RateLock.t) : RateLock.t :=
  RateLock.mk (RateLock.id l) (RateLock.source_currency l) (RateLock.target_currency l)
    (RateLock.rate l) (RateLock.amount_target_cents l) (RateLock.amount_source_cents l)
    (RateLock.max_drift_pct l) (RateLock.locked_at l) (RateLock.expires_at l) "used".

(** ** Events of these routers

    [dispatch_event] is the function of [api/webhook.py] above; its [data]
    here is a recurring collect or a corridor. *)
Inductive BridgeSnapshot : Type :=
| SnapRecurring (r : Recurring.t)
| SnapRecurringExecuted (r : Recurring.t) (nessie_transfer_id : string)
| SnapCorridor (c : Corridor.t)
| SnapCorridorDrift (c : Corridor.t) (drift_info : Drift.t).

Record BridgeEvent : Type := {
  bevt_id : string;
  bevt_type : string;
  bevt_data : BridgeSnapshot
}.

(** The subscribers receive these events as they receive the others. *)
Class BridgeSubscribers `{ES : ExternalServices} : Type := {
  webhook_post' : string -> BridgeEvent -> Ext -> Ext
}.

#[export] Instance SandboxSubscribers : @BridgeSubscribers SandboxServices :=
  {| webhook_post' := fun _ _ e => e |}.

(** What [get_analytics] returns. *)
Record Analytics : Type := {
  generated_at : Z;
  collects_total : Z;
  collects_pending : Z;
  collects_approved : Z;
  collects_declined : Z;
  collects_expired : Z;
  collects_volume_settled_cents : Z;
  pools_total : Z;
  pools_collecting : Z;
  pools_funded : Z;
  pools_cancelled : Z;
  pools_volume_settled_cents : Z;
  pools_volume_refunded_cents : Z;
  recurring_total : Z;
  recurring_active : Z;
  recurring_paused : Z;
  recurring_total_executions : Z;
  combined_total_volume_settled_cents : Z;
  combined_total_transactions : Z
}.

Record WebhookRegistration : Type := {
  wr_url : string;
  wr_events : list string
}.

Section Routers.
Context `{CM : CaseMapping} `{BS : BridgeSubscribers}.

(** ** [api/webhook.py]: registration *)

Definition register_webhook (request : WebhookRegistration) : Async World Hook :=
  hex <- uuid4;;
  let hook := {| hook_id := "webhook_" +:+ prefix 8 hex;
                 hook_url := wr_url request;
                 hook_events := wr_events request |} in
  modify (fun w => set_registered_webhooks (registered_webhooks w ++ [hook]) w);;;
  Return hook.

Definition list_webhooks : Async World (list Hook) := gets registered_webhooks.

(** [if "*" in hook["events"] or event_type in hook["events"]] *)
Definition subscribed (event_type : string) (hook : Hook) : bool :=
  bool_decide ("*" ∈ hook_events hook) || bool_decide (event_type ∈ hook_events hook).

Fixpoint post_to_hooks' (hooks : list Hook) (payload : BridgeEvent) : Async World unit :=
  match hooks with
  | [] => Return tt
  | hook :: rest =>
      (if bool_decide ("*" ∈ hook_events hook) || bool_decide (bevt_type payload ∈ hook_events hook)
       then await_io (fun w => (tt, set_ext (webhook_post' (hook_url hook) payload (ext w)) w))
       else Return tt);;;
      post_to_hooks' rest payload
  end.

Definition dispatch_event' (event_type : string) (data : BridgeSnapshot) : Async World unit :=
  hex <- uuid4;;
  let payload := {| bevt_id := "evt_" +:+ prefix 8 hex;
                    bevt_type := event_type;
                    bevt_data := data |} in
  hooks <- gets registered_webhooks;;
  post_to_hooks' hooks payload.

(** ** The whole process state *)

Record App : Type := mkApp {
  world : World;
  corridor_db : PyDict Corridor.t;
  recurring_db : PyDict Recurring.t
}.

Definition set_world (v : World) (s : App) : App :=
  mkApp v (corridor_db s) (recurring_db s).
Definition set_corridor_db (v : PyDict Corridor.t) (s : App) : App :=
  mkApp (world s) v (recurring_db s).
Definition set_recurring_db (v : PyDict Recurring.t) (s : App) : App :=
  mkApp (world s) (corridor_db s) v.

(** A coroutine of the modules above, called from these routers. *)
Fixpoint lift {A} (m : Async World A) : Async App A :=
  match m with
  | Return a => Return a
  | Sync act k =>
      Sync (fun s => let '(a, w) := act (world s) in (a, set_world w s)) (fun a => lift (k a))
  | Await k => Await (lift k)
  end.

(** ** [api/recurring.py] *)

Definition update_recurring (recurring_id : string) (f : Recurring.t -> Recurring.t)
  : Async App unit :=
  modify (fun s => set_recurring_db (dict_alter f recurring_id (recurring_db s)) s).
Definition the_recurring (recurring_id : string) (rec : Recurring.t) : Async App Recurring.t :=
  gets (fun s => default rec (dict_get recurring_id (recurring_db s))).

Definition create_recurring_collect (request : RecurringCollectRequest)
  : Async App (HTTPException + Recurring.t) :=
  hex <- lift uuid4;;
  let recurring_id := "rec_" +:+ prefix 12 hex in
  t <- lift now;;
  let rec := Recurring.mk recurring_id "active" (rcr_payee_account_id request)
               (rcr_payer_account_id request) (rcr_amount request) (rcr_currency request)
               (rcr_description request) (rcr_interval request) 0
               (rcr_max_occurrences request) (rcr_pre_approved request) t (Some t) in
  modify (fun s => set_recurring_db (dict_set recurring_id rec (recurring_db s)) s);;;
  Return (inr rec).

Definition pause_recurring (recurring_id : string)
  : Async App (HTTPException + Recurring.t) :=
  found <- gets (fun s => dict_get recurring_id (recurring_db s));;
  match found with
  | None => lift (raise 404 (DetailText "Recurring collect not found"))
  | Some rec =>
      update_recurring recurring_id (Recurring.set_status "paused");;;
      result <- the_recurring recurring_id rec;;
      Return (inr result)
  end.

Definition cancel_recurring (recurring_id : string)
  : Async App (HTTPException + Recurring.t) :=
  found <- gets (fun s => dict_get recurring_id (recurring_db s));;
  match found with
  | None => lift (raise 404 (DetailText "Recurring collect not found"))
  | Some rec =>
      update_recurring recurring_id (Recurring.set_status "cancelled");;;
      snapshot <- the_recurring recurring_id rec;;
      lift (dispatch_event' "recurring.cancelled" (SnapRecurring snapshot));;;
      result <- the_recurring recurring_id rec;;
      Return (inr result)
  end.

Definition trigger_recurring_collect (recurring_id : string)
  : Async App (HTTPException + Triggered) :=
  found <- gets (fun s => dict_get recurring_id (recurring_db s));;
  match found with
  | None => lift (raise 404 (DetailText "Recurring collect not found"))
  | Some rec =>
  if decide (Recurring.status rec ≠ "active") then
    lift (raise 400 (DetailText ("Cannot trigger recurring collect in "
                                 +:+ Recurring.status rec +:+ " status")))
  else
  if int_truthy (Recurring.max_occurrences rec)
     && bool_decide (Recurring.occurrences_count rec
                     >= default 0 (Recurring.max_occurrences rec)) then
    update_recurring recurring_id (Recurring.set_status "completed");;;
    Return (inr Completed)
  else
  sent <- lift (transfer (Recurring.payer_account_id rec) (Recurring.payee_account_id rec)
                  (Recurring.amount rec)
                  ("FlowPay recurring " +:+ Recurring.id rec +:+ " — occurrence "
                   +:+ pretty (Recurring.occurrences_count rec + 1)));;
  match sent with
  | None => lift (raise 500 (DetailText "Transfer failed"))
  | Some transfer_id =>
      update_recurring recurring_id (fun r =>
        Recurring.set_occurrences_count (Recurring.occurrences_count r + 1) r);;;
      snapshot <- the_recurring recurring_id rec;;
      lift (dispatch_event' "recurring.collect_executed"
              (SnapRecurringExecuted snapshot transfer_id));;;
      current <- the_recurring recurring_id rec;;
      Return (inr (Executed (Recurring.id current) (Recurring.occurrences_count current)
                     transfer_id (Recurring.amount current)))
  end
  end.

(** [if payee_id and rec.payee_account_id == payee_id: ... elif payer_id
    and rec.payer_account_id == payer_id: ...] *)
Definition recurring_matches (payee_id payer_id : option string) (rec : Recurring.t) : bool :=
  (str_truthy payee_id && bool_decide (Some (Recurring.payee_account_id rec) = payee_id))
  || (str_truthy payer_id && bool_decide (Some (Recurring.payer_account_id rec) = payer_id)).

Definition list_recurring (payee_id payer_id : option string)
  : Async App (list Recurring.t) :=
  gets (fun s => List.filter (recurring_matches payee_id payer_id)
                   (dict_values (recurring_db s))).

(** ** [api/corridor.py]

    [corridor["rate_lock"]] is the dict that [lock_rate] put into
    [rate_lock_store] under its id: the one object is reachable from both,
    and the write of its status at the end of [remit_corridor] is made to
    the corridor's field and to the entry of the store. *)

Definition update_corridor (corridor_id : string) (f : Corridor.t -> Corridor.t)
  : Async App unit :=
  modify (fun s => set_corridor_db (dict_alter f corridor_id (corridor_db s)) s).
Definition the_corridor (corridor_id : string) (corridor : Corridor.t)
  : Async App Corridor.t :=
  gets (fun s => default corridor (dict_get corridor_id (corridor_db s))).

Definition create_corridor (request : CorridorCreateRequest)
  : Async App (HTTPException + Corridor.t) :=
  locked <- lift (lock_rate (kcr_source_currency request) (kcr_target_currency request)
                    (kcr_amount_target request) (kcr_lock_duration_minutes request)
                    (kcr_max_rate_drift_pct request));;
  match locked with
  | inl _ => lift internal_server_error
  | inr rate_lock =>
      hex <- lift uuid4;;
      let corridor_id := "crdr_" +:+ prefix 12 hex in
      t <- lift now;;
      let corridor :=
        Corridor.mk corridor_id "rate_locked" (kcr_description request)
          (lower (kcr_source_currency request)) (lower (kcr_target_currency request))
          (kcr_source_account_id request) (kcr_target_account_id request)
          (kcr_amount_target request) (RateLock.amount_source_cents rate_lock)
          rate_lock None t None in
      modify (fun s => set_corridor_db (dict_set corridor_id corridor (corridor_db s)) s);;;
      lift (dispatch_event' "corridor.rate_locked" (SnapCorridor corridor));;;
      result <- the_corridor corridor_id corridor;;
      Return (inr result)
  end.

Definition get_corridor (corridor_id : string) : Async App (HTTPException + Corridor.t) :=
  found <- gets (fun s => dict_get corridor_id (corridor_db s));;
  match found with
  | None => lift (raise 404 (DetailText "Corridor not found"))
  | Some corridor => Return (inr corridor)
  end.

Definition check_corridor_rate (corridor_id : string)
  : Async App (HTTPException + Drift.t) :=
  found <- gets (fun s => dict_get corridor_id (corridor_db s));;
  match found with
  | None => lift (raise 404 (DetailText "Corridor not found"))
  | Some corridor =>
      drift_info <- lift (check_drift (RateLock.id (Corridor.rate_lock corridor)));;
      match drift_info with
      | inl _ => lift internal_server_error
      | inr d => Return (inr d)
      end
  end.

Definition remit_corridor (corridor_id : string)
  : Async App (HTTPException + Corridor.t) :=
  found <- gets (fun s => dict_get corridor_id (corridor_db s));;
  match found with
  | None => lift (raise 404 (DetailText "Corridor not found"))
  | Some corridor =>
  if decide (Corridor.status corridor ≠ "rate_locked") then
    lift (raise 400 (DetailText ("Cannot remit corridor in " +:+ Corridor.status corridor
                                 +:+ " status")))
  else
  (* Check expiry *)
  let expires_at := RateLock.expires_at (Corridor.rate_lock corridor) in
  t <- lift now;;
  if decide (t > expires_at) then
    update_corridor corridor_id (Corridor.set_status "expired");;;
    snapshot <- the_corridor corridor_id corridor;;
    lift (dispatch_event' "corridor.rate_expired" (SnapCorridor snapshot));;;
    lift (raise 410 (DetailError (Some "corridor_error") "rate_lock_expired"
                       [("expired_at", expires_at)]))
  else
  (* Check rate drift *)
  checked <- lift (check_drift (RateLock.id (Corridor.rate_lock corridor)));;
  match checked with
  | inl _ => lift internal_server_error
  | inr drift =>
  if Drift.get_drifted drift then
    update_corridor corridor_id (Corridor.set_status "drift_cancelled");;;
    snapshot <- the_corridor corridor_id corridor;;
    lift (dispatch_event' "corridor.drift_cancelled" (SnapCorridorDrift snapshot drift));;;
    lift (raise 422 (DetailError (Some "corridor_error") "rate_drift_exceeded" []))
  else
  (* Execute Nessie transfers: source debit *)
  sent <- lift (transfer (Corridor.source_account_id corridor)
                  (Corridor.target_account_id corridor)
                  (Corridor.amount_source_cents corridor)
                  ("FlowBridge corridor " +:+ corridor_id +:+ " — "
                   +:+ upper (Corridor.source_currency corridor) +:+ " → "
                   +:+ upper (Corridor.target_currency corridor)));;
  match sent with
  | None => lift (raise 500 (DetailText "Nessie transfer failed"))
  | Some txn_id =>
      update_corridor corridor_id (Corridor.set_status "remitted");;;
      update_corridor corridor_id (Corridor.set_nessie_transfer_id (Some txn_id));;;
      t' <- lift now;;
      update_corridor corridor_id (Corridor.set_remitted_at (Some t'));;;
      update_corridor corridor_id (fun c =>
        Corridor.set_rate_lock (rate_lock_used (Corridor.rate_lock c)) c);;;
      lift (modify (fun w => set_rate_lock_store
                      (alter rate_lock_used (RateLock.id (Corridor.rate_lock corridor))
                         (rate_lock_store w)) w));;;
      snapshot <- the_corridor corridor_id corridor;;
      lift (dispatch_event' "corridor.settled" (SnapCorridor snapshot));;;
      result <- the_corridor corridor_id corridor;;
      Return (inr result)
  end
  end
  end.

Definition list_corridors : Async App (list Corridor.t) :=
  gets (fun s => dict_values (corridor_db s)).

(** ** [api/analytics.py] *)

Definition collect_is (status : string) (c : CollectResponse.t) : bool :=
  bool_decide (CollectResponse.status c = status).
Definition pool_is (status : string) (p : PoolResponse.t) : bool :=
  bool_decide (PoolResponse.status p = status).
Definition recurring_is (status : string) (r : Recurring.t) : bool :=
  bool_decide (Recurring.status r = status).

Definition get_analytics : Async App Analytics :=
  collects <- gets (fun s => (map_to_list (fake_collect_db (world s))).*2);;
  pools <- gets (fun s => (map_to_list (fake_pool_db (world s))).*2);;
  recurring <- gets (fun s => dict_values (recurring_db s));;
  contributions <- gets (fun s => fake_contributions_db (world s));;
  let total_collect_volume :=
    sum_of CollectResponse.amount (List.filter (collect_is "approved") collects) in
  let total_pool_volume :=
    sum_of PoolResponse.collected_amount (List.filter (pool_is "funded") pools) in
  let total_refunded :=
    sum_of (fun p => sum_of Contribution.amount
                       (default [] (contributions !! PoolResponse.id p)))
      (List.filter (pool_is "cancelled") pools) in
  t <- lift now;;
  Return {| generated_at := t;
            collects_total := Z.of_nat (length collects);
            collects_pending := count_where (collect_is "pending") collects;
            collects_approved := count_where (collect_is "approved") collects;
            collects_declined := count_where (collect_is "declined") collects;
            collects_expired := count_where (collect_is "expired") collects;
            collects_volume_settled_cents := total_collect_volume;
            pools_total := Z.of_nat (length pools);
            pools_collecting := count_where (pool_is "collecting") pools;
            pools_funded := count_where (pool_is "funded") pools;
            pools_cancelled := count_where (pool_is "cancelled") pools;
            pools_volume_settled_cents := total_pool_volume;
            pools_volume_refunded_cents := total_refunded;
            recurring_total := Z.of_nat (length recurring);
            recurring_active := count_where (recurring_is "active") recurring;
            recurring_paused := count_where (recurring_is "paused") recurring;
            recurring_total_executions := sum_of Recurring.occurrences_count recurring;
            combined_total_volume_settled_cents := total_collect_volume + total_pool_volume;
            combined_total_transactions :=
              Z.of_nat (length collects) + Z.of_nat (length pools) |}.

(** ** The request streams of the statements *)

Inductive RecurringCommand : Type :=
| CreateRecurring (request : RecurringCollectRequest)
| Pause (recurring_id : string)
| CancelRecurring (recurring_id : string)
| Trigger (recurring_id : string).

Definition serve_recurring (cmd : RecurringCommand) (s : App) : App :=
  match cmd with
  | CreateRecurring request => (run (create_recurring_collect request) s).2
  | Pause recurring_id => (run (pause_recurring recurring_id) s).2
  | CancelRecurring recurring_id => (run (cancel_recurring recurring_id) s).2
  | Trigger recurring_id => (run (trigger_recurring_collect recurring_id) s).2
  end.

Definition serve_recurring_all (cmds : list RecurringCommand) (s : App) : App :=
  foldl (fun s cmd => serve_recurring cmd s) s cmds.

Definition creates (cmd : RecurringCommand) : bool :=
  match cmd with CreateRecurring _ => true | _ => false end.

Inductive CollectCommand : Type :=
| CreateCollect (request : CollectCreateRequest)
| Approve (collect_id : string)
| Decline (collect_id : string).

Definition serve_collect (cmd : CollectCommand) (w : World) : World :=
  match cmd with
  | CreateCollect request => (run (create_collect request) w).2
  | Approve collect_id => (run (approve_collect collect_id) w).2
  | Decline collect_id => (run (decline_collect collect_id) w).2
  end.

Definition serve_collect_all (cmds : list CollectCommand) (w : World) : World :=
  foldl (fun w cmd => serve_collect cmd w) w cmds.

(** The transfer a trigger sends for a plan. *)
Definition recurring_transfer (rec : Recurring.t) : TransferReq :=
  transfer_request (Recurring.payer_account_id rec) (Recurring.payee_account_id rec)
    (Recurring.amount rec)
    ("FlowPay recurring " +:+ Recurring.id rec +:+ " — occurrence "
     +:+ pretty (Recurring.occurrences_count rec + 1)).

(** The transfer a remit sends for a corridor stored under [corridor_id]. *)
Definition corridor_transfer (corridor_id : string) (corridor : Corridor.t) : TransferReq :=
  transfer_request (Corridor.source_account_id corridor) (Corridor.target_account_id corridor)
    (Corridor.amount_source_cents corridor)
    ("FlowBridge corridor " +:+ corridor_id +:+ " — "
     +:+ upper (Corridor.source_currency corridor) +:+ " → "
     +:+ upper (Corridor.target_currency corridor)).

(** The executed collects of a plan stay within its positive
    [max_occurrences]. *)
Definition occurrences_ok (rec : Recurring.t) : Prop :=
  0 <= Recurring.occurrences_count rec /\
  forall n, Recurring.max_occurrences rec = Some n -> 0 < n ->
            Recurring.occurrences_count rec <= n.

(** The statuses the collect and pool routes assign. *)
Definition collect_status_known (c : CollectResponse.t) : Prop :=
  CollectResponse.status c ∈ ["pending"; "approved"; "declined"; "expired"].
Definition pool_status_known (p : PoolResponse.t) : Prop :=
  PoolResponse.status p ∈ ["collecting"; "funded"; "cancelled"].

(** Requests of the three routers, in any order. *)
Inductive Command : Type :=
| OnCollects (cmd : CollectCommand)
| OnPools (cmd : PoolCommand)
| OnRecurring (cmd : RecurringCommand).

Definition serve (cmd : Command) (s : App) : App :=
  match cmd with
  | OnCollects cmd => set_world (serve_collect cmd (world s)) s
  | OnPools cmd => set_world (run (serve_pool cmd) (world s)).2 s
  | OnRecurring cmd => serve_recurring cmd s
  end.

Definition serve_all (cmds : list Command) (s : App) : App :=
  foldl (fun s cmd => serve cmd s) s cmds.

Definition statuses_known (s : App) : Prop :=
  map_Forall (fun _ => collect_status_known) (fake_collect_db (world s)) /\
  map_Forall (fun _ => pool_status_known) (fake_pool_db (world s)).

(** A fresh process. *)
Definition start (e : Ext) : App := mkApp (boot e) [] [].

End Routers.

Definition monthly (max_occurrences : option Z) : RecurringCollectRequest :=
  {| rcr_payee_account_id := "gym"; rcr_payer_account_id := "sam"; rcr_amount := 2500;
     rcr_currency := "usd"; rcr_description := "membership"; rcr_interval := "monthly";
     rcr_max_occurrences := max_occurrences; rcr_pre_approved := true |}.

Definition remittance : CorridorCreateRequest :=
  {| kcr_source_currency := "INR"; kcr_target_currency := "USD";
     kcr_source_account_id := "priya"; kcr_target_account_id := "school";
     kcr_amount_target := 10000; kcr_description := "tuition";
     kcr_lock_duration_minutes := 30; kcr_max_rate_drift_pct := f_2_0 |}.

(** The sandbox process after [monthly] was created: one active plan,
    [rec_id0]; after [remittance] was created: one rate-locked corridor,
    [crdr_id1], on the lock [rate_id0]. *)
Definition plan_world (max_occurrences : option Z) (e : Sandbox) : App :=
  (run (create_recurring_collect (monthly max_occurrences)) (start e)).2.
Definition corridor_world (e : Sandbox) : App :=
  (run (create_corridor remittance) (start e)).2.

(** The oracle back up, quoting every pair at 2.0. *)
Definition repriced (e : Sandbox) : Sandbox :=
  {| sb_clock := sb_clock e; sb_counter := sb_counter e;
     sb_accounts := sb_accounts e; sb_ledger := sb_ledger e;
     sb_oracle := Some (fun _ => Some f_2_0) |}.

(** [corridor_world] once the rate has moved away from the locked one. *)
Definition repriced_corridor_world (e : Sandbox) : App :=
  let s := corridor_world e in
  set_world (set_ext (repriced (ext (world s))) (world s)) s.

(** * Properties *)

(** ** Running computations *)

Lemma run_bind {St A B} (m : Async St A) (f : A -> Async St B) (s : St) :
  run (bind m f) s = let '(a, s') := run m s in run (f a) s'.
Proof.
  revert s. induction m as [r | X act k IH | k IH]; intros s; simpl.
  - reflexivity.
  - destruct (act s) as [a s']. apply IH.
  - apply IH.
Qed.

Lemma run_bind_assoc {St A B C} (m : Async St A) (f : A -> Async St B)
    (g : B -> Async St C) (s : St) :
  run (bind (bind m f) g) s = run (bind m (fun x => bind (f x) g)) s.
Proof.
  revert s. induction m as [r | X act k IH | k IH]; intros s; simpl.
  - reflexivity.
  - destruct (act s) as [a s']. apply IH.
  - apply IH.
Qed.

Lemma run_gets_bind {St A B} (f : St -> A) (k : A -> Async St B) (s : St) :
  run (bind (gets f) k) s = run (k (f s)) s.
Proof. reflexivity. Qed.

Lemma run_modify_bind {St B} (f : St -> St) (k : unit -> Async St B) (s : St) :
  run (bind (modify f) k) s = run (k tt) (f s).
Proof. reflexivity. Qed.

Lemma run_ret {St A} (a : A) (s : St) : run (Return a) s = (a, s).
Proof. reflexivity. Qed.

Lemma run_modify {St} (f : St -> St) (s : St) : run (modify f) s = (tt, f s).
Proof. reflexivity. Qed.

(** A served request and its first scheduling quanta agree: resuming a
    computation until it ends is running it. *)
Lemma run_resume {St R} (m : Async St R) (s : St) :
  run m s = match resume m s with
            | (inl r, s') => (r, s')
            | (inr k, s') => run k s'
            end.
Proof.
  revert s. induction m as [r | X act k IH | k IH]; intros s; simpl.
  - reflexivity.
  - destruct (act s) as [a s']. apply IH.
  - reflexivity.
Qed.

(** ** Floats *)

Lemma binary_round_aux_abs p em s m e l :
  SFabs (binary_round_aux p em s m e l) = binary_round_aux p em false m e l.
Proof.
  unfold binary_round_aux.
  destruct (shr_fexp p em m e l) as [mrs' e'].
  destruct (shr_fexp p em _ e' loc_Exact) as [mrs'' e''].
  destruct (shr_m mrs''); simpl; try reflexivity.
  destruct (e'' <=? em - p)%Z; reflexivity.
Qed.

(** The magnitude of a quotient is the quotient of the magnitudes. *)
Lemma fabs_fdiv (x y : float) : fabs (fdiv x y) = fdiv (fabs x) (fabs y).
Proof.
  unfold fabs, fdiv.
  destruct x as [sx | sx | | sx mx ex], y as [sy | sy | | sy my ey]; try reflexivity.
  cbn [SFabs]. unfold SFdiv.
  destruct (SFdiv_core_binary prec emax (Z.pos mx) ex (Z.pos my) ey) as [[mz ez] lz].
  rewrite binary_round_aux_abs. reflexivity.
Qed.

Lemma fabs_pos (y : float) : fltb (S754_zero false) y = true -> fabs y = y.
Proof.
  destruct y as [[]|[]| |[] m e]; simpl; intros H; try discriminate H; reflexivity.
Qed.

Lemma SFcompare_Eq_sym (x y : float) :
  SFcompare x y = Some Eq -> SFcompare y x = Some Eq.
Proof.
  destruct x as [[]|[]| |[] mx ex], y as [[]|[]| |[] my ey]; simpl; intros H;
    try discriminate H; try reflexivity.
  - destruct (ex ?= ey)%Z eqn:He; try discriminate H.
    apply Z.compare_eq in He; subst. rewrite Z.compare_refl.
    destruct (Pos.compare_cont Eq mx my) eqn:Hm; try discriminate H.
    apply Pos.compare_eq in Hm; subst. rewrite Pos.compare_cont_refl. reflexivity.
  - destruct (ex ?= ey)%Z eqn:He; try discriminate H.
    apply Z.compare_eq in He; subst. rewrite Z.compare_refl.
    destruct (Pos.compare_cont Eq mx my) eqn:Hm; try discriminate H.
    apply Pos.compare_eq in Hm; subst. rewrite Pos.compare_cont_refl. reflexivity.
Qed.

Lemma feqb_zero_false (r : float) :
  feqb r (S754_zero false) = false -> float_truthy r = true.
Proof. destruct r as [[]|[]| |[] m e]; simpl; try discriminate; auto. Qed.

Lemma py_truediv_truthy (x y : float) :
  float_truthy y = true -> py_truediv x y = inr (fdiv x y).
Proof. destruct y; simpl; try discriminate; reflexivity. Qed.

(** ** Frames: what the service calls leave untouched *)

Ltac world_simpl :=
  cbn [ext ledger_requests registered_webhooks rate_lock_store fake_collect_db
       fake_pool_db fake_contributions_db fxpool_db fxpool_contributions_db
       _idempotency_store set_ext set_ledger_requests set_registered_webhooks
       set_rate_lock_store set_fake_collect_db set_fake_pool_db
       set_fake_contributions_db set_fxpool_db set_fxpool_contributions_db
       set_idempotency_store fst snd].

Ltac world_simpl_in H :=
  cbn [ext ledger_requests registered_webhooks rate_lock_store fake_collect_db
       fake_pool_db fake_contributions_db fxpool_db fxpool_contributions_db
       _idempotency_store set_ext set_ledger_requests set_registered_webhooks
       set_rate_lock_store set_fake_collect_db set_fake_pool_db
       set_fake_contributions_db set_fxpool_db set_fxpool_contributions_db
       set_idempotency_store fst snd] in H.

Ltac goal_decide H :=
  match goal with |- context [decide ?P] => destruct (decide P) as [H|H] end.

Section Frames.
Context `{CM : CaseMapping} `{ES : ExternalServices}.

Lemma ext_only_ret {A} (a : A) : ext_only (Return a).
Proof. intros w. exists a, (ext w). destruct w; reflexivity. Qed.

Lemma ext_only_bind {A B} (m : Async World A) (f : A -> Async World B) :
  ext_only m -> (forall a, ext_only (f a)) -> ext_only (bind m f).
Proof.
  intros Hm Hf w. rewrite run_bind.
  destruct (Hm w) as (a & e & ->). destruct (Hf a (set_ext e w)) as (b & e' & ->).
  exists b, e'. reflexivity.
Qed.

Lemma ext_only_call {A} (f : Ext -> A * Ext) : ext_only (Sync (ext_call f) Return).
Proof.
  intros w. simpl. unfold ext_call. destruct (f (ext w)) as [a e]. exists a, e. reflexivity.
Qed.

Lemma ext_only_await_call {A} (f : Ext -> A * Ext) : ext_only (await_io (ext_call f)).
Proof.
  intros w. simpl. unfold ext_call. destruct (f (ext w)) as [a e]. exists a, e. reflexivity.
Qed.

Lemma ext_only_gets {A} (f : World -> A) : ext_only (gets f).
Proof. intros w. exists (f w), (ext w). destruct w; reflexivity. Qed.

Lemma ext_only_now : ext_only now.
Proof. apply ext_only_call. Qed.

Lemma ext_only_uuid4 : ext_only uuid4.
Proof. apply ext_only_call. Qed.

Lemma ext_only_get_balance account_id : ext_only (get_balance account_id).
Proof.
  unfold get_balance. apply ext_only_bind; [apply ext_only_await_call|].
  intros [account|]; apply ext_only_ret.
Qed.

Lemma ext_only_post_to_hooks hooks payload : ext_only (post_to_hooks hooks payload).
Proof.
  induction hooks as [|hook rest IH]; simpl; [apply ext_only_ret|].
  apply ext_only_bind; [|intros _; exact IH].
  destruct (_ || _); [|apply ext_only_ret].
  intros w. simpl. eexists tt, _. reflexivity.
Qed.

Lemma ext_only_dispatch_event event_type data : ext_only (dispatch_event event_type data).
Proof.
  unfold dispatch_event. apply ext_only_bind; [apply ext_only_uuid4|]. intros hex.
  apply ext_only_bind; [apply ext_only_gets|]. intros hooks. apply ext_only_post_to_hooks.
Qed.

Lemma ext_only_get_live_rate src tgt : ext_only (get_live_rate src tgt).
Proof.
  unfold get_live_rate. case_decide; [apply ext_only_ret|].
  apply ext_only_bind; [apply ext_only_await_call|]. intros resp.
  destruct (resp ≫= _) as [rate|]; [destruct (float_truthy rate)|]; apply ext_only_ret.
Qed.

Lemma ext_only_check_drift lock_id : ext_only (check_drift lock_id).
Proof.
  unfold check_drift. apply ext_only_bind; [apply ext_only_gets|].
  intros [lock|]; [|apply ext_only_ret].
  apply ext_only_bind; [apply ext_only_get_live_rate|]. intros current_rate.
  destruct (py_truediv _ _); apply ext_only_ret.
Qed.

Lemma ext_only_any_drift contributions : ext_only (any_drift contributions).
Proof.
  induction contributions as [|c rest IH]; [apply ext_only_ret|].
  cbn [any_drift]. apply ext_only_bind; [apply ext_only_check_drift|].
  intros [exc|d]; [apply ext_only_ret|]. destruct (Drift.get_drifted d); [apply ext_only_ret|done].
Qed.

Lemma run_transfer payer payee amount description (w : World) :
  exists r e, run (transfer payer payee amount description) w =
    (r, set_ext e (set_ledger_requests
                     (ledger_requests w ++ [transfer_request payer payee amount description]) w)).
Proof.
  unfold transfer. simpl. unfold ext_call. simpl.
  destruct (nessie_post_transfer _ (ext w)) as [[created|] e]; simpl; eexists _, _; reflexivity.
Qed.

Lemma run_get_balance (w : World) account_id :
  run (get_balance account_id) w =
    let '(resp, e) := nessie_get_account account_id (ext w) in
    (match resp with
     | Some account => if decide (default 0 account > 0) then default 0 account else 999999
     | None => 999999
     end, set_ext e w).
Proof.
  unfold get_balance. cbn. unfold ext_call.
  destruct (nessie_get_account account_id (ext w)) as [[account|] e]; reflexivity.
Qed.

End Frames.

(** One step of a handler run: the leading call is replaced by its
    outcome. *)
Ltac run_step :=
  lazymatch goal with
  | |- context [run (bind (bind ?m ?f) ?g) ?w] => rewrite (run_bind_assoc m f g w)
  | |- context [run (bind (Return ?a) ?k) ?w] =>
      change (run (bind (Return a) k) w) with (run (k a) w)
  | |- context [run (bind (gets ?f) ?k) ?w] => rewrite (run_gets_bind f k w)
  | |- context [run (bind (modify ?f) ?k) ?w] => rewrite (run_modify_bind f k w)
  | |- context [run (bind now ?k) ?w] =>
      rewrite (run_bind now k w);
      let t := fresh "t" in let e := fresh "e" in
      destruct (ext_only_now w) as (t & e & ->)
  | |- context [run (bind uuid4 ?k) ?w] =>
      rewrite (run_bind uuid4 k w);
      let hex := fresh "hex" in let e := fresh "e" in
      destruct (ext_only_uuid4 w) as (hex & e & ->)
  | |- context [run (bind (get_balance ?a) ?k) ?w] =>
      rewrite (run_bind (get_balance a) k w);
      let balance := fresh "balance" in let e := fresh "e" in
      destruct (ext_only_get_balance a w) as (balance & e & ->)
  | |- context [run (bind (dispatch_event ?a ?b) ?k) ?w] =>
      rewrite (run_bind (dispatch_event a b) k w);
      let u := fresh "u" in let e := fresh "e" in
      destruct (ext_only_dispatch_event a b w) as (u & e & ->)
  | |- context [run (bind (transfer ?a ?b ?c ?d) ?k) ?w] =>
      rewrite (run_bind (transfer a b c d) k w);
      let sent := fresh "sent" in let e := fresh "e" in
      destruct (run_transfer a b c d w) as (sent & e & ->)
  end; cbv beta iota; world_simpl.

(** ** The rate-lock manager *)

Section Fx.
Context `{CM : CaseMapping} `{ES : ExternalServices}.

(** A lock that [lock_rate] returns never carries a zero rate. *)
Lemma lock_rate_rate_nonzero src tgt amount_target duration max_drift (w : World) lock w' :
  run (lock_rate src tgt amount_target duration max_drift) w = (inr lock, w') ->
  float_truthy (RateLock.rate lock) = true.
Proof.
  unfold lock_rate, lock_fetched_rate. rewrite run_bind.
  destruct (run (get_live_rate src tgt) w) as [r w1].
  destruct (py_int_truediv amount_target 100) as [exc|d]; [discriminate|].
  destruct (py_truediv d _) as [exc|q]; [discriminate|].
  destruct (py_int _) as [exc|n]; [discriminate|].
  do 2 run_step.
  destruct (minutes duration) as [exc|delta]; [discriminate|].
  destruct (datetime_add _ delta) as [exc|expires_at]; [discriminate|].
  repeat run_step. rewrite run_ret. intros [= <- _]. cbn.
  destruct (feqb r (S754_zero false)) eqn:Hz; [reflexivity|]. by apply feqb_zero_false.
Qed.

(** C3. For a stored lock with a non-zero locked rate R and max_drift_pct M,
    and the current rate R' the oracle gives, [check_drift] answers
    drifted exactly when |R' - R| / |R| * 100 is strictly above M (for a
    positive R that is |R' - R| / R * 100), so a drift equal to M is not
    drifted; drift_pct is that percentage rounded to 4 decimals; and
    nothing of the process state changes, the stored lock included. *)
Theorem check_drift_decision (w : World) (lock_id : string) (lock : RateLock.t) :
  rate_lock_store w !! lock_id = Some lock ->
  float_truthy (RateLock.rate lock) = true ->
  match run (get_live_rate (RateLock.source_currency lock)
               (RateLock.target_currency lock)) w with
  | (R', w') =>
      let R := RateLock.rate lock in
      let M := RateLock.max_drift_pct lock in
      let pct := fmul (fdiv (fabs (fsub R' R)) (fabs R)) f_100 in
      exists i,
        run (check_drift lock_id) w = (inr (Drift.Info i), w') /\
        (Drift.drifted i = true <-> fltb M pct = true) /\
        (fltb (S754_zero false) R = true ->
           pct = fmul (fdiv (fabs (fsub R' R)) R) f_100) /\
        (feqb pct M = true -> Drift.drifted i = false) /\
        Drift.drift_pct i = py_round pct 4 /\
        Drift.locked_rate i = R /\ Drift.current_rate i = R' /\
        w' = set_ext (ext w') w /\
        rate_lock_store w' !! lock_id = Some lock
  end.
Proof.
  intros Hlock Hnz.
  unfold check_drift. run_step. rewrite Hlock. rewrite run_bind.
  destruct (ext_only_get_live_rate (RateLock.source_currency lock)
              (RateLock.target_currency lock) w) as (R' & e & ->).
  cbv beta iota zeta. rewrite (py_truediv_truthy _ _ Hnz), run_ret.
  eexists. split; [reflexivity|]. cbn [Drift.drifted Drift.drift_pct Drift.locked_rate
                                        Drift.current_rate].
  rewrite fabs_fdiv. split; [tauto|]. split.
  { intros Hpos. by rewrite (fabs_pos _ Hpos). }
  split.
  { intros Heq. unfold feqb, SFeqb in Heq. unfold fltb, SFltb.
    destruct (SFcompare _ (RateLock.max_drift_pct lock)) as [[]|] eqn:Hc; try discriminate.
    apply SFcompare_Eq_sym in Hc. by rewrite Hc. }
  repeat split; done.
Qed.

(** C5, as the code has it. [lock_rate] fetches the rate and runs the rest
    of its body on it. For a rate r handed to that body, with the
    conversions raising nothing: when the timedelta of D minutes and the
    date it gives from the clock reading are representable, the stored
    lock has amount_source equal to int((A / 100) / r * 100), the float
    product truncated toward zero, expires_at equal to the clock reading
    plus D minutes, status active, and the rate 1.0 in place of an r equal
    to 0; when they are not, OverflowError is raised and no lock is
    stored. *)
Theorem lock_rate_truncates (w : World) (src tgt : string) (A D : Z)
    (max_drift r d : float) (n : Z) :
  let rate := if feqb r (S754_zero false) then f_1_0 else r in
  py_int_truediv A 100 = inr d ->
  py_int (fmul (fdiv d rate) f_100) = inr n ->
  let t := (datetime_now (uuid4_hex (ext w)).2).1 in
  (run (lock_rate src tgt A D max_drift) w =
     let '(r0, w0) := run (get_live_rate src tgt) w in
     run (lock_fetched_rate r0 src tgt A D max_drift) w0) /\
  if decide (-999999999 <= (D * 60000000) `div` 86400000000 <= 999999999 /\
             datetime_min <= t + D * 60000000 <= datetime_max)
  then
    exists lock w',
      run (lock_fetched_rate r src tgt A D max_drift) w = (inr lock, w') /\
      RateLock.amount_source_cents lock = n /\
      RateLock.expires_at lock = t + D * 60000000 /\
      RateLock.status lock = "active" /\
      RateLock.rate lock = rate /\
      (feqb r (S754_zero false) = true -> RateLock.rate lock = f_1_0) /\
      rate_lock_store w' !! RateLock.id lock = Some lock
  else
    exists w',
      run (lock_fetched_rate r src tgt A D max_drift) w = (inl OverflowError, w') /\
      rate_lock_store w' = rate_lock_store w.
Proof.
  intros rate Hd Hn t. split.
  { unfold lock_rate. rewrite run_bind. by destruct (run (get_live_rate src tgt) w). }
  unfold lock_fetched_rate. fold rate. rewrite Hd.
  assert (Hq : py_truediv d rate = inr (fdiv d rate)).
  { apply py_truediv_truthy. unfold rate.
    destruct (feqb r (S754_zero false)) eqn:Hz; [reflexivity|]. by apply feqb_zero_false. }
  rewrite Hq, Hn. subst t.
  simpl. unfold ext_call.
  destruct (uuid4_hex (ext w)) as [hex e2] eqn:Hu. simpl.
  destruct (datetime_now e2) as [t e3] eqn:Ht. simpl.
  unfold minutes, datetime_add.
  case_decide as Hrange.
  - destruct Hrange as [[Hd1 Hd2] [Hr1 Hr2]].
    apply Z.leb_le in Hd1, Hd2, Hr1, Hr2. rewrite Hd1, Hd2. cbn [andb]. cbv beta iota.
    rewrite Hr1, Hr2. simpl.
    destruct (datetime_now e3) as [t' e4].
    simpl. eexists _, _. split; [reflexivity|]. simpl.
    repeat split; try reflexivity.
    + intros Hz. unfold rate. rewrite Hz. reflexivity.
    + apply lookup_insert_eq.
  - destruct ((-999999999 <=? (D * 60000000) `div` 86400000000)
              && ((D * 60000000) `div` 86400000000 <=? 999999999))%Z eqn:Hdays;
      [|simpl; eexists; split; reflexivity].
    cbv beta iota.
    destruct ((datetime_min <=? t + D * 60000000)
              && (t + D * 60000000 <=? datetime_max))%Z eqn:Hdate;
      [|simpl; eexists; split; reflexivity].
    apply andb_prop in Hdays as [Hd1 Hd2]. apply andb_prop in Hdate as [Hr1 Hr2].
    apply Z.leb_le in Hd1, Hd2, Hr1, Hr2. tauto.
Qed.

End Fx.

(** C5 does not hold as worded: with the oracle down, locking 1.00 USD
    from EUR uses the fallback rate 1.08 and stores 92 source cents, where
    round(100 / 1.08) is 93. *)
Lemma lock_rate_not_rounded :
  exists lock w',
    run (lock_rate "eur" "usd" 100 30 f_2_0) (boot online) = (inr lock, w') /\
    RateLock.amount_source_cents lock = 92 /\
    spec_amount_source 100 (RateLock.rate lock) = inr 93 /\
    inr (RateLock.amount_source_cents lock) <> spec_amount_source 100 (RateLock.rate lock).
Proof.
  eexists _, _. split; [vm_compute; reflexivity|].
  split; [reflexivity|]. split; [vm_compute; reflexivity|].
  vm_compute. discriminate.
Qed.

Lemma lock_rate_truncates_witness :
  (py_int_truediv 100 100 = inr f_1_0 /\
   py_int (fmul (fdiv f_1_0 f_1_0) f_100) = inr 100 /\
   exists lock w',
     run (lock_fetched_rate (S754_zero false) "eur" "usd" 100 30 f_2_0) (boot online)
       = (inr lock, w') /\
     RateLock.amount_source_cents lock = 100 /\
     RateLock.expires_at lock = 1000 + 30 * 60000000 /\
     RateLock.status lock = "active" /\
     RateLock.rate lock = f_1_0 /\
     (feqb (S754_zero false) (S754_zero false) = true -> RateLock.rate lock = f_1_0) /\
     rate_lock_store w' !! RateLock.id lock = Some lock) /\
  (py_int (fmul (fdiv f_1_0 f_1_08) f_100) = inr 92 /\
   exists w',
     run (lock_fetched_rate f_1_08 "eur" "usd" 100 5000000000 f_2_0) (boot online)
       = (inl OverflowError, w') /\
     rate_lock_store w' = rate_lock_store (boot online)) /\
  (run (get_live_rate "eur" "usd") (boot online) = (f_1_08, boot online) /\
   exists lock w',
     run (lock_rate "eur" "usd" 100 30 f_2_0) (boot online) = (inr lock, w') /\
     RateLock.amount_source_cents lock = 92 /\
     RateLock.expires_at lock = 1000 + 30 * 60000000 /\
     RateLock.rate lock = f_1_08).
Proof.
  split; [|split].
  - split; [reflexivity|]. split; [reflexivity|].
    exact (proj2 (lock_rate_truncates (boot online) "eur" "usd" 100 30 f_2_0
                    (S754_zero false) f_1_0 100 eq_refl eq_refl)).
  - split; [reflexivity|].
    exact (proj2 (lock_rate_truncates (boot online) "eur" "usd" 100 5000000000 f_2_0
                    f_1_08 f_1_0 92 eq_refl eq_refl)).
  - assert (Hfetch : run (get_live_rate "eur" "usd") (boot online) = (f_1_08, boot online))
      by (vm_compute; reflexivity).
    split; [exact Hfetch|].
    destruct (@lock_rate_truncates ascii_case SandboxServices (@boot SandboxServices online)
                "eur" "usd" 100 30 f_2_0 f_1_08 f_1_0 92 eq_refl eq_refl) as [Hlink Hbody].
    rewrite Hfetch in Hlink.
    destruct Hbody as (lock & w' & Hrun & Hamount & Hexpires & _ & Hrate & _).
    exists lock, w'. split; [by rewrite Hlink|]. by repeat split.
Defined.

Lemma check_drift_decision_witness :
  let w := (run (lock_rate "eur" "usd" 100 30 f_2_0) (boot online)).2 in
  let lock := RateLock.mk "rate_id0" "eur" "usd" f_1_08 100 92 f_2_0 1000 1800001000
                "active" in
  rate_lock_store w !! "rate_id0" = Some lock /\
  float_truthy (RateLock.rate lock) = true /\
  exists i w',
    run (check_drift "rate_id0") w = (inr (Drift.Info i), w') /\
    (Drift.drifted i = true <->
     fltb f_2_0 (fmul (fdiv (fabs (fsub f_1_08 f_1_08)) (fabs f_1_08)) f_100) = true) /\
    Drift.drift_pct i = S754_zero false /\
    rate_lock_store w' !! "rate_id0" = Some lock.
Proof.
  intros w lock.
  assert (Hlock : rate_lock_store w !! "rate_id0" = Some lock) by (vm_compute; reflexivity).
  split; [exact Hlock|]. split; [reflexivity|].
  pose proof (check_drift_decision w "rate_id0" lock Hlock eq_refl) as H.
  destruct (run (get_live_rate (RateLock.source_currency lock)
                   (RateLock.target_currency lock)) w) as [R' w'] eqn:E.
  vm_compute in E. injection E as <- <-.
  destruct H as (i & Hrun & Hd & _ & _ & Hp & _ & _ & _ & Hkeep).
  exists i. eexists. split; [exact Hrun|]. split; [exact Hd|]. split; [exact Hp|exact Hkeep].
Defined.

(** ** The pool state machine *)

Lemma total_contributed_app cs c :
  total_contributed (cs ++ [c]) = total_contributed cs + Contribution.amount c.
Proof. induction cs as [|x cs IH]; simpl; lia. Qed.



Section Pool.
Context `{CM : CaseMapping} `{ES : ExternalServices}.

Lemma contribute_to_pool_others pool_id request (w : World) j :
  j <> pool_id ->
  fake_pool_db (run (contribute_to_pool pool_id request) w).2 !! j = fake_pool_db w !! j /\
  fake_contributions_db (run (contribute_to_pool pool_id request) w).2 !! j
    = fake_contributions_db w !! j.
Proof.
  intros Hj.
  unfold contribute_to_pool, internal_server_error, raise, update_pool, the_pool.
  run_step.
  destruct (fake_pool_db w !! pool_id) as [pool|] eqn:Hpool; [|done].
  case_decide as Hfunded; [done|].
  run_step. case_decide as Hdead; [done|].
  run_step. case_decide as Hbal; [done|].
  run_step. destruct sent as [transfer_id|]; [|done].
  run_step. destruct (fake_contributions_db w !! pool_id) as [cs|] eqn:Hcs; [|done].
  do 5 run_step.
  case_decide as Hgoal.
  - do 5 run_step.
    destruct sent as [settle_txn|]; repeat run_step; rewrite run_ret; world_simpl;
      rewrite ?lookup_alter_ne, ?lookup_insert_ne by done; done.
  - repeat run_step. rewrite run_ret; world_simpl.
    rewrite ?lookup_alter_ne, ?lookup_insert_ne by done; done.
Qed.

Lemma contribute_to_pool_ok pool_id request (w : World) :
  pool_ok w pool_id -> pool_ok (run (contribute_to_pool pool_id request) w).2 pool_id.
Proof.
  intros Hok.
  unfold contribute_to_pool, internal_server_error, raise, update_pool, the_pool.
  run_step.
  destruct (fake_pool_db w !! pool_id) as [pool|] eqn:Hpool; [|done].
  destruct (Hok pool Hpool) as (cs & Hcs & Hsum & Hgoal0).
  case_decide as Hfunded; [done|].
  run_step. case_decide as Hdead; [rewrite run_ret; exact Hok|].
  run_step. case_decide as Hbal; [rewrite run_ret; exact Hok|].
  run_step. destruct sent as [transfer_id|]; [|rewrite run_ret; exact Hok].
  run_step. rewrite Hcs.
  do 5 run_step.
  rewrite !lookup_alter_eq, Hpool. cbn [fmap option_fmap option_map default].
  cbn [PoolResponse.collected_amount PoolResponse.goal_amount
       PoolResponse.set_contributions_count PoolResponse.set_participant_count
       PoolResponse.set_collected_amount].
  set (c := Contribution.mk _ _ _).
  case_decide as Hgoal.
  - do 5 run_step.
    assert (Hfinal : forall w' : World,
      fake_contributions_db w' !! pool_id = Some (cs ++ [c]) ->
      (exists p, fake_pool_db w' !! pool_id = Some p /\
         PoolResponse.collected_amount p = PoolResponse.collected_amount pool + pq_amount request /\
         PoolResponse.status p = "funded") ->
      pool_ok w' pool_id).
    { intros w' Hc (p & Hp & Hcol & Hst) p' Hp'. rewrite Hp in Hp'. injection Hp' as <-.
      exists (cs ++ [c]). split; [done|]. split; [|done].
      rewrite total_contributed_app, Hcol, Hsum. reflexivity. }
    destruct sent as [settle_txn|]; repeat run_step; rewrite run_ret; world_simpl;
      apply Hfinal; world_simpl; rewrite ?lookup_insert_eq; try done;
      rewrite !lookup_alter_eq, Hpool; eexists; (split; [reflexivity|]); done.
  - repeat run_step. rewrite run_ret; world_simpl.
    intros p Hp. world_simpl_in Hp. rewrite !lookup_alter_eq, Hpool in Hp.
    injection Hp as <-. exists (cs ++ [c]). world_simpl. rewrite lookup_insert_eq.
    split; [done|]. cbn. rewrite total_contributed_app, Hsum. split; [done|].
    intros _ Hge. cbn in Hgoal. lia.
Qed.

Lemma contribute_to_pool_funded pool_id request (w : World) pool :
  fake_pool_db w !! pool_id = Some pool ->
  PoolResponse.status pool = "funded" ->
  exists exc, run (contribute_to_pool pool_id request) w = (inl exc, w) /\
              exc_status_code exc = 409.
Proof.
  intros Hpool Hst. unfold contribute_to_pool, raise. run_step. rewrite Hpool.
  case_decide; [|done]. rewrite run_ret. eexists. split; reflexivity.
Qed.


(** Past the deadline a contribute is rejected (422); only the clock was
    read. *)
Lemma contribute_to_pool_expired pool_id request (w : World) pool :
  fake_pool_db w !! pool_id = Some pool ->
  PoolResponse.status pool <> "funded" ->
  let '(t, e) := datetime_now (ext w) in
  t > PoolResponse.deadline pool ->
  exists exc, run (contribute_to_pool pool_id request) w = (inl exc, set_ext e w) /\
              exc_status_code exc = 422.
Proof.
  intros Hpool Hst. destruct (datetime_now (ext w)) as [t e] eqn:Hclock. intros Hlate.
  unfold contribute_to_pool, raise. run_step. rewrite Hpool.
  goal_decide Hf; [done|]. rewrite run_bind. unfold now at 1. cbn [run]. unfold ext_call.
  rewrite Hclock. cbv beta iota. goal_decide Hd; [|done]. rewrite run_ret.
  eexists. split; reflexivity.
Qed.

Lemma pool_ok_step (w w' : World) pool_id :
  fake_contributions_db w' !! pool_id = fake_contributions_db w !! pool_id ->
  (forall p', fake_pool_db w' !! pool_id = Some p' ->
     exists p, fake_pool_db w !! pool_id = Some p /\ pool_step p p') ->
  pool_ok w pool_id -> pool_ok w' pool_id.
Proof.
  intros Hcs Hstep Hok p' Hp'. destruct (Hstep p' Hp') as (p & Hp & Hcol & Hgoal & Hst).
  destruct (Hok p Hp) as (cs & Hc & Hsum & Hfunded).
  exists cs. rewrite Hcs, Hcol, Hgoal. split; [done|]. split; [done|].
  intros Hpos Hge. specialize (Hfunded Hpos Hge).
  destruct Hst as [->|[Hcoll _]]; [done|]. rewrite Hfunded in Hcoll. discriminate.
Qed.


Lemma pool_core_alter (f : PoolResponse.t -> PoolResponse.t) (db : gmap string PoolResponse.t) i j :
  (forall p, pool_core (f p) = pool_core p) ->
  pool_core <$> alter f i db !! j = pool_core <$> db !! j.
Proof.
  intros Hf. destruct (decide (i = j)) as [->|Hne].
  - rewrite lookup_alter_eq. destruct (db !! j) as [p|]; [|done]. simpl. by rewrite Hf.
  - by rewrite lookup_alter_ne.
Qed.

Lemma refund_contributions_frame pool_id pool cs (w : World) j :
  fake_contributions_db (run (refund_contributions pool_id pool cs) w).2 !! j
    = fake_contributions_db w !! j /\
  pool_core <$> fake_pool_db (run (refund_contributions pool_id pool cs) w).2 !! j
    = pool_core <$> fake_pool_db w !! j.
Proof.
  revert w. induction cs as [|c rest IH]; intros w; [split; reflexivity|].
  cbn [refund_contributions]. unfold update_pool. run_step.
  destruct sent as [refund_txn|].
  - run_step. destruct (IH (set_fake_pool_db
      (alter (fun p => PoolResponse.set_refund_ids
                (Some (default [] (PoolResponse.refund_ids p) ++ [refund_txn])) p)
         pool_id (fake_pool_db w))
      (set_ext e (set_ledger_requests
         (ledger_requests w ++
          [transfer_request (PoolResponse.organizer_account_id pool)
             (Contribution.payer_account_id c) (Contribution.amount c)
             ("FlowPay refund for pool " +:+ PoolResponse.id pool)]) w)))) as [IH1 IH2].
    world_simpl_in IH1. world_simpl_in IH2.
    split; [exact IH1|]. rewrite IH2. by apply pool_core_alter.
  - rewrite run_bind.
    match goal with |- context [run (bind uuid4 ?k) ?w0] =>
      rewrite (run_bind uuid4 k w0); destruct (ext_only_uuid4 w0) as (hex & e' & ->) end.
    cbv beta iota. rewrite run_modify. cbv beta iota. world_simpl.
    match goal with |- context [run (refund_contributions _ _ _) ?w0] =>
      destruct (IH w0) as [IH1 IH2] end.
    world_simpl_in IH1. world_simpl_in IH2.
    split; [exact IH1|]. rewrite IH2. by apply pool_core_alter.
Qed.

Lemma cancelled_step (db : gmap string PoolResponse.t) pool_id pool j p' :
  db !! pool_id = Some pool ->
  PoolResponse.status pool = "collecting" ->
  pool_core <$> alter (PoolResponse.set_status "cancelled") pool_id db !! j
    = Some (pool_core p') ->
  exists p, db !! j = Some p /\ pool_step p p'.
Proof.
  intros Hpool Hst. destruct (decide (pool_id = j)) as [<-|Hj].
  - rewrite lookup_alter_eq, Hpool. intros [= H1 H2 H3]. exists pool.
    split; [done|]. repeat split; auto.
  - rewrite lookup_alter_ne by done. destruct (db !! j) as [p|]; [|discriminate].
    intros [= H1 H2 H3]. exists p. split; [done|]. repeat split; auto.
Qed.

Lemma cancel_pool_effect pool_id (w : World) j :
  fake_contributions_db (run (cancel_pool pool_id) w).2 !! j = fake_contributions_db w !! j /\
  (forall p', fake_pool_db (run (cancel_pool pool_id) w).2 !! j = Some p' ->
     exists p, fake_pool_db w !! j = Some p /\ pool_step p p').
Proof.
  assert (Hsame : forall p : PoolResponse.t, pool_step p p) by (intros p; repeat split; auto).
  unfold cancel_pool, internal_server_error, raise, update_pool, the_pool. run_step.
  destruct (fake_pool_db w !! pool_id) as [pool|] eqn:Hpool;
    [|rewrite run_ret; split; [done|]; intros p' Hp'; eauto].
  case_decide as Hst; [rewrite run_ret; split; [done|]; intros p' Hp'; eauto|].
  do 3 run_step.
  destruct (fake_contributions_db w !! pool_id) as [cs|] eqn:Hcs.
  2:{ rewrite run_ret. world_simpl. split; [done|]. intros p' Hp'.
      apply (f_equal (fmap pool_core)) in Hp'. rewrite pool_core_alter in Hp' by done.
      by eapply cancelled_step. }
  rewrite run_bind.
  match goal with |- context [run (refund_contributions ?a ?b ?c) ?w0] =>
    destruct (refund_contributions_frame a b c w0 j) as [F1 F2];
    destruct (run (refund_contributions a b c) w0) as [[] w1] end.
  cbv beta iota. repeat run_step. rewrite run_ret. world_simpl.
  world_simpl_in F1. world_simpl_in F2. split; [exact F1|].
  intros p' Hp'. rewrite Hp', pool_core_alter in F2 by done.
  symmetry in F2. by eapply cancelled_step.
Qed.

Lemma create_pool_ok request (w : World) j :
  pool_ok w j -> pool_ok (run (create_pool request) w).2 j.
Proof.
  intros Hok. unfold create_pool. repeat run_step. rewrite run_ret.
  unfold pool_ok. world_simpl. intros p.
  match goal with |- <[?i := _]> _ !! _ = _ -> _ => destruct (decide (i = j)) as [<-|Hj] end.
  - rewrite !lookup_insert_eq. intros [= <-]. exists [].
    split; [done|]. split; [done|]. cbn. lia.
  - rewrite !lookup_insert_ne by done. apply Hok.
Qed.

Lemma serve_pool_ok cmd (w : World) :
  (forall j, pool_ok w j) -> forall j, pool_ok (run (serve_pool cmd) w).2 j.
Proof.
  intros Hok j. destruct cmd as [request|pool_id request|pool_id]; cbn [serve_pool].
  - by apply create_pool_ok.
  - destruct (decide (j = pool_id)) as [->|Hj]; [by apply contribute_to_pool_ok|].
    destruct (contribute_to_pool_others pool_id request w j Hj) as [H1 H2].
    intros p. rewrite H1, H2. apply Hok.
  - destruct (cancel_pool_effect pool_id w j) as [H1 H2].
    by eapply pool_ok_step.
Qed.

Lemma serve_pool_all_ok cmds (w : World) :
  (forall j, pool_ok w j) -> forall j, pool_ok (serve_pool_all cmds w) j.
Proof.
  revert w. induction cmds as [|cmd rest IH]; intros w Hok; [exact Hok|].
  cbn [serve_pool_all foldl]. apply IH. by apply serve_pool_ok.
Qed.

(** C1, as the code has it. After any sequence of create, contribute and
    cancel commands served one after the other on a fresh process, every
    pool's collected_amount is the sum of the amounts of its recorded
    contributions; and for a pool whose goal_amount is positive, once
    collected_amount >= goal_amount the status is funded and a further
    contribute is rejected (409) leaving the whole state as it was, so no
    contribution is appended and collected_amount does not move. *)
Theorem pool_total_and_funded (e : Ext) (cmds : list PoolCommand)
    (pool_id : string) (pool : PoolResponse.t) :
  let w := serve_pool_all cmds (boot e) in
  fake_pool_db w !! pool_id = Some pool ->
  exists contributions,
    fake_contributions_db w !! pool_id = Some contributions /\
    PoolResponse.collected_amount pool = total_contributed contributions /\
    (0 < PoolResponse.goal_amount pool ->
     PoolResponse.collected_amount pool >= PoolResponse.goal_amount pool ->
     PoolResponse.status pool = "funded" /\
     forall request, exists exc,
       run (contribute_to_pool pool_id request) w = (inl exc, w) /\
       exc_status_code exc = 409).
Proof.
  intros w Hpool.
  assert (Hok : pool_ok w pool_id).
  { apply serve_pool_all_ok. intros j p Hp. cbn in Hp. by rewrite lookup_empty in Hp. }
  destruct (Hok pool Hpool) as (cs & Hcs & Hsum & Hfunded).
  exists cs. split; [done|]. split; [done|]. intros Hpos Hge.
  specialize (Hfunded Hpos Hge). split; [done|].
  intros request. by eapply contribute_to_pool_funded.
Qed.
End Pool.

(** C1 does not hold as worded: a pool created with goal_amount 0 has
    collected_amount 0 >= goal_amount while its status is collecting, and
    a contribute on it is accepted and recorded. *)
Lemma zero_goal_pool_stays_open :
  let w := serve_pool_all [CreatePool (demo_pool 0)] (boot online) in
  exists pool,
    fake_pool_db w !! "pool_id0" = Some pool /\
    PoolResponse.collected_amount pool >= PoolResponse.goal_amount pool /\
    PoolResponse.status pool <> "funded" /\
    exists pool' w',
      run (contribute_to_pool "pool_id0" (chip_in "ana" 500)) w = (inr pool', w') /\
      PoolResponse.collected_amount pool' = 500 /\
      fake_contributions_db w' !! "pool_id0"
        = Some [Contribution.mk "ana" 500 "txn1"].
Proof.
  eexists. split; [vm_compute; reflexivity|].
  split; [vm_compute; discriminate|]. split; [vm_compute; discriminate|].
  eexists _, _. split; [vm_compute; reflexivity|]. split; vm_compute; reflexivity.
Qed.

Lemma pool_total_and_funded_witness :
  let w := serve_pool_all
             [CreatePool (demo_pool 1000); Contribute "pool_id0" (chip_in "ana" 600);
              Contribute "pool_id0" (chip_in "bo" 400)] (boot online) in
  exists pool,
    fake_pool_db w !! "pool_id0" = Some pool /\
    exists contributions,
    fake_contributions_db w !! "pool_id0" = Some contributions /\
    PoolResponse.collected_amount pool = total_contributed contributions /\
    (0 < PoolResponse.goal_amount pool ->
     PoolResponse.collected_amount pool >= PoolResponse.goal_amount pool ->
     PoolResponse.status pool = "funded" /\
     forall request, exists exc,
       run (contribute_to_pool "pool_id0" request) w = (inl exc, w) /\
       exc_status_code exc = 409).
Proof.
  eexists. split; [vm_compute; reflexivity|].
  apply (@pool_total_and_funded SandboxServices online
           [CreatePool (demo_pool 1000); Contribute "pool_id0" (chip_in "ana" 600);
            Contribute "pool_id0" (chip_in "bo" 400)] "pool_id0").
  vm_compute. reflexivity.
Defined.

(** C4 fails on a cancelled pool: after create and cancel, a contribute
    before the deadline is not rejected; the transfer is sent to the
    ledger, the contribution is recorded and collected_amount grows. *)
Theorem cancelled_pool_accepts_contribution :
  let w := serve_pool_all [CreatePool (demo_pool 1000); CancelPool "pool_id0"] (boot online) in
  exists pool,
    fake_pool_db w !! "pool_id0" = Some pool /\
    PoolResponse.status pool = "cancelled" /\
    exists pool' w',
      run (contribute_to_pool "pool_id0" (chip_in "ana" 500)) w = (inr pool', w') /\
      PoolResponse.collected_amount pool' = 500 /\
      fake_contributions_db w' !! "pool_id0" = Some [Contribution.mk "ana" 500 "txn2"] /\
      ledger_requests w' = [transfer_request "ana" "org" 500 "FlowPay pool contribution pool_id0"].
Proof.
  eexists. split; [vm_compute; reflexivity|]. split; [reflexivity|].
  eexists _, _. split; [vm_compute; reflexivity|].
  repeat split; vm_compute; reflexivity.
Qed.

(** ** The collect state machine *)

Section Collect.
Context `{CM : CaseMapping} `{ES : ExternalServices}.

Lemma approve_collect_not_pending (w : World) collect_id collect :
  fake_collect_db w !! collect_id = Some collect ->
  CollectResponse.status collect <> "pending" ->
  exists exc, run (approve_collect collect_id) w = (inl exc, w) /\
    InvalidStateError "approve" "collect" (CollectResponse.status collect) exc.
Proof.
  intros Hc Hst. unfold approve_collect, raise. run_step. rewrite Hc.
  case_decide; [|done]. rewrite run_ret. eexists. split; reflexivity.
Qed.

Lemma decline_collect_not_pending (w : World) collect_id collect :
  fake_collect_db w !! collect_id = Some collect ->
  CollectResponse.status collect <> "pending" ->
  exists exc, run (decline_collect collect_id) w = (inl exc, w) /\
    InvalidStateError "decline" "collect" (CollectResponse.status collect) exc.
Proof.
  intros Hc Hst. unfold decline_collect, raise. run_step. rewrite Hc.
  case_decide; [|done]. rewrite run_ret. eexists. split; reflexivity.
Qed.

Lemma approve_collect_outcome (w : World) collect_id collect :
  fake_collect_db w !! collect_id = Some collect ->
  match run (approve_collect collect_id) w with
  | (inr approved, w') =>
      CollectResponse.status collect = "pending" /\
      CollectResponse.status approved = "approved" /\
      is_Some (CollectResponse.nessie_transfer_id approved) /\
      fake_collect_db w' !! collect_id = Some approved /\
      ledger_requests w' = ledger_requests w ++ [collect_transfer collect]
  | (inl exc, w') => exc_status_code exc <> 200
  end.
Proof.
  intros Hc.
  unfold approve_collect, raise, update_collect, the_collect. run_step. rewrite Hc.
  case_decide as Hst; [done|].
  run_step. case_decide as Hexp.
  { repeat run_step. by rewrite run_ret. }
  run_step. case_decide as Hbal; [done|].
  run_step. destruct sent as [transfer_id|]; [|done].
  repeat run_step. rewrite run_ret. world_simpl.
  rewrite !lookup_alter_eq, Hc. cbn.
  split; [|eauto]. by destruct (decide (CollectResponse.status collect = "pending")).
Qed.

(** C7. For a collect whose status is not pending, approve and decline
    fail with InvalidStateError and leave the whole state as it was; and
    after an approve that succeeded the collect is approved with a
    transfer id recorded, and a second approve fails with
    InvalidStateError. *)
Theorem collect_transitions_only_from_pending (w : World) collect_id collect :
  fake_collect_db w !! collect_id = Some collect ->
  (CollectResponse.status collect <> "pending" ->
   (exists exc, run (approve_collect collect_id) w = (inl exc, w) /\
      InvalidStateError "approve" "collect" (CollectResponse.status collect) exc) /\
   (exists exc, run (decline_collect collect_id) w = (inl exc, w) /\
      InvalidStateError "decline" "collect" (CollectResponse.status collect) exc)) /\
  (forall approved w',
     run (approve_collect collect_id) w = (inr approved, w') ->
     CollectResponse.status approved = "approved" /\
     is_Some (CollectResponse.nessie_transfer_id approved) /\
     fake_collect_db w' !! collect_id = Some approved /\
     exists exc, run (approve_collect collect_id) w' = (inl exc, w') /\
       InvalidStateError "approve" "collect" "approved" exc).
Proof.
  intros Hc. split.
  - intros Hst. split.
    + by apply approve_collect_not_pending.
    + by apply decline_collect_not_pending.
  - intros approved w' Hrun. pose proof (approve_collect_outcome w collect_id collect Hc) as H.
    rewrite Hrun in H. destruct H as (_ & Hst & Htid & Hdb & _).
    repeat split; try done.
    destruct (approve_collect_not_pending w' collect_id approved Hdb) as (exc & Hr & He).
    { rewrite Hst. discriminate. }
    exists exc. split; [done|]. by rewrite Hst in He.
Qed.
End Collect.

Lemma collect_transitions_only_from_pending_witness :
  let w := pending_world online in
  let w1 := (run (approve_collect "clct_id0") w).2 in
  (exists collect, fake_collect_db w !! "clct_id0" = Some collect) /\
  (exists approved,
     fake_collect_db w1 !! "clct_id0" = Some approved /\
     CollectResponse.status approved = "approved" /\
     is_Some (CollectResponse.nessie_transfer_id approved) /\
     (exists exc, run (approve_collect "clct_id0") w1 = (inl exc, w1) /\
        InvalidStateError "approve" "collect" "approved" exc) /\
     (exists exc, run (decline_collect "clct_id0") w1 = (inl exc, w1) /\
        InvalidStateError "decline" "collect" "approved" exc)).
Proof.
  intros w w1.
  assert (Hc : exists collect, fake_collect_db w !! "clct_id0" = Some collect)
    by (eexists; vm_compute; reflexivity).
  split; [exact Hc|]. destruct Hc as (collect & Hc).
  destruct (run (approve_collect "clct_id0") w) as [r w1'] eqn:Hrun.
  assert (Hr : exists approved, r = inr approved).
  { vm_compute in Hrun. injection Hrun as <- _. eauto. }
  destruct Hr as (approved & ->).
  destruct (proj2 (collect_transitions_only_from_pending w "clct_id0" collect Hc)
              approved w1' Hrun) as (Hst & Htid & Hdb & Hagain).
  subst w1. cbn [snd]. exists approved. repeat split; try done.
  destruct (proj1 (collect_transitions_only_from_pending w1' "clct_id0" approved Hdb))
    as [_ Hdecline]; [rewrite Hst; discriminate|].
  by rewrite Hst in Hdecline.
Defined.

(** ** The FX pool refund path *)

Section FXPoolRefund.
Context `{CM : CaseMapping} `{ES : ExternalServices}.

Lemma set_ledger_requests_app (w : World) e e' l1 l2 :
  set_ext e' (set_ledger_requests
     (ledger_requests (set_ext e (set_ledger_requests (ledger_requests w ++ l1) w)) ++ l2)
     (set_ext e (set_ledger_requests (ledger_requests w ++ l1) w)))
  = set_ext e' (set_ledger_requests (ledger_requests w ++ l1 ++ l2) w).
Proof. destruct w; cbn. by rewrite app_assoc. Qed.

Lemma refund_fx_contributions_spec pool_id reason pool cs refunds (w : World) :
  exists new e,
    run (refund_fx_contributions pool_id reason pool cs refunds) w =
      (refunds ++ new,
       set_ext e (set_ledger_requests
                    (ledger_requests w ++
                     map (refund_request (FXPool.organizer_account_id pool) pool_id reason) cs)
                    w)) /\
    Forall2 refund_of cs new.
Proof.
  revert refunds w. induction cs as [|c rest IH]; intros refunds w.
  - exists [], (ext w). split; [|constructor]. cbn. rewrite !app_nil_r. by destruct w.
  - cbn [refund_fx_contributions map]. run_step.
    match goal with |- context [run (refund_fx_contributions _ _ _ _ ?acc) ?w0] =>
      destruct (IH acc w0) as (new & e' & -> & Hall) end.
    eexists (_ :: new), e'. split.
    + rewrite <- app_assoc. f_equal. apply set_ledger_requests_app.
    + constructor; [|done]. destruct sent as [ref_txn|]; [right; eauto|by left].
Qed.

Lemma trigger_fxpool_refund_spec (w : World) (pool_id reason : string) (pool : FXPool.t) :
  fxpool_db w !! pool_id = Some pool ->
  let contributions := default [] (fxpool_contributions_db w !! pool_id) in
  exists pool' refunds w',
    run (_trigger_fxpool_refund pool_id reason) w
      = (inr (SnapFXPoolRefunds pool' refunds reason), w') /\
    ledger_requests w' =
      ledger_requests w ++
      map (refund_request (FXPool.organizer_account_id pool) pool_id reason) contributions /\
    Forall2 refund_of contributions refunds /\
    fxpool_contributions_db w' = fxpool_contributions_db w.
Proof.
  intros Hpool contributions.
  unfold _trigger_fxpool_refund, update_fxpool, the_fxpool. run_step. rewrite Hpool.
  do 2 run_step. rewrite run_bind.
  match goal with |- context [run (refund_fx_contributions ?a ?b ?c ?d ?r) ?w0] =>
    destruct (refund_fx_contributions_spec a b c d r w0) as (new & e & -> & Hall) end.
  cbv beta iota. world_simpl. repeat run_step. rewrite run_ret.
  eexists _, _, _. split; [reflexivity|]. world_simpl. split; [reflexivity|]. by split.
Qed.


Lemma ext_only_view {A} (m : Async World A) (w : World) :
  ext_only m -> fx_view (run m w).2 = fx_view w.
Proof. intros Hm. by destruct (Hm w) as (a & e & ->). Qed.

Lemma lock_rate_view src tgt amount_target duration max_drift (w : World) :
  fx_view (run (lock_rate src tgt amount_target duration max_drift) w).2 = fx_view w.
Proof.
  unfold lock_rate, lock_fetched_rate. rewrite run_bind.
  destruct (ext_only_get_live_rate src tgt w) as (rate & e & ->). cbv beta iota.
  destruct (py_int_truediv amount_target 100) as [exc|d]; [done|].
  destruct (py_truediv d _) as [exc|q]; [done|].
  destruct (py_int _) as [exc|n]; [done|].
  do 2 run_step.
  destruct (minutes duration) as [exc|delta]; [done|].
  destruct (datetime_add _ delta) as [exc|expires_at]; [done|].
  repeat run_step. by rewrite run_ret.
Qed.



Lemma contribute_to_fxpool_refund_path (w : World) pool_id request :
  match run (contribute_to_fxpool pool_id request) w with
  | (inr (SnapFXPoolRefunds pool' refunds reason), w') =>
      exists pool before,
        fxpool_db w !! pool_id = Some pool /\
        reason = "rate_drift" /\
        ledger_requests w' =
          before ++ map (refund_request (FXPool.organizer_account_id pool) pool_id reason)
                      (default [] (fxpool_contributions_db w' !! pool_id)) /\
        Forall2 refund_of (default [] (fxpool_contributions_db w' !! pool_id)) refunds
  | _ => True
  end.
Proof.
  unfold contribute_to_fxpool, internal_server_error, raise, update_fxpool, the_fxpool.
  run_step. destruct (fxpool_db w !! pool_id) as [pool|] eqn:Hpool; [|done].
  case_decide as Hst; [done|].
  run_step. case_decide as Hdead; [done|].
  rewrite run_bind.
  match goal with |- context [run (get_live_rate ?a ?b) ?w0] =>
    destruct (ext_only_get_live_rate a b w0) as (usd_rate & e1 & ->) end.
  cbv beta iota.
  destruct (py_int_truediv _ 100) as [exc|local_decimal]; [done|].
  destruct (py_int _) as [exc|amount_usd]; [done|].
  rewrite run_bind.
  match goal with |- context [run (lock_rate ?a ?b ?c ?d ?f) ?w0] =>
    pose proof (lock_rate_view a b c d f w0) as Hview;
    destruct (run (lock_rate a b c d f) w0) as [locked w1] end.
  cbn [snd] in Hview. injection Hview as Hv1 Hv2 Hv3. world_simpl_in Hv1.
  world_simpl_in Hv2. world_simpl_in Hv3.
  destruct locked as [exc|rate_lock]; [done|].
  run_step. destruct sent as [txn_id|]; [|done].
  do 3 run_step. rewrite Hv2.
  destruct (fxpool_contributions_db w !! pool_id) as [cs|] eqn:Hcs; [|done].
  do 7 run_step. rewrite !lookup_alter_eq, Hv1, Hpool.
  cbn [fmap option_fmap option_map default].
  case_decide as Hgoal; [|by repeat run_step].
  run_step. rewrite lookup_insert_eq. cbn [default].
  rewrite run_bind.
  match goal with |- context [run (any_drift ?l) ?w0] =>
    destruct (ext_only_any_drift l w0) as (scanned & e' & ->) end.
  cbv beta iota. destruct scanned as [exc|[|]]; [done| |].
  2:{ repeat run_step. destruct sent as [settle_txn|]; repeat run_step; by rewrite run_ret. }
  match goal with |- context [run (_trigger_fxpool_refund ?a ?b) ?w0] =>
    edestruct (trigger_fxpool_refund_spec w0 a b) as (pool' & refunds & w' & -> & Hl & Hall & Hc)
  end.
  { world_simpl. rewrite !lookup_alter_eq, ?Hv1, Hpool. reflexivity. }
  world_simpl_in Hl. world_simpl_in Hall. world_simpl_in Hc.
  rewrite lookup_insert_eq in Hl, Hall. cbn [default] in Hl, Hall.
  rewrite Hc, lookup_insert_eq. cbn [default].
  eexists pool, _. split; [done|]. split; [done|]. split; [|exact Hall].
  rewrite Hl. f_equal. f_equal.
  by destruct (bool_decide _).
Qed.

(** C2. Whenever the refund path of an FX pool runs, whatever the ledger
    and the rate oracle answer, the transfers it sends are, in order, one
    per recorded contribution, from the organizer to the contributor, for
    exactly the contribution's amount_local; each entry of the refund list
    is either that amount in the contribution's own currency or a
    recorded failure, and a failure stops none of the later transfers.
    Explicit cancel, forced drift and the drift found when the goal is
    reached all run this path. *)
Theorem fxpool_refunds_amount_local (w : World) (pool_id : string) (pool : FXPool.t) :
  fxpool_db w !! pool_id = Some pool ->
  let organizer := FXPool.organizer_account_id pool in
  (forall reason,
   exists pool' refunds w',
     run (_trigger_fxpool_refund pool_id reason) w
       = (inr (SnapFXPoolRefunds pool' refunds reason), w') /\
     ledger_requests w' =
       ledger_requests w ++
       map (refund_request organizer pool_id reason)
         (default [] (fxpool_contributions_db w !! pool_id)) /\
     Forall2 refund_of (default [] (fxpool_contributions_db w !! pool_id)) refunds) /\
  run (cancel_fxpool pool_id) w = run (_trigger_fxpool_refund pool_id "organizer_cancelled") w /\
  run (simulate_rate_drift pool_id) w
    = run (_trigger_fxpool_refund pool_id "rate_drift_simulated") w /\
  (forall request pool' refunds reason w',
     run (contribute_to_fxpool pool_id request) w
       = (inr (SnapFXPoolRefunds pool' refunds reason), w') ->
     reason = "rate_drift" /\
     Forall2 refund_of (default [] (fxpool_contributions_db w' !! pool_id)) refunds /\
     exists before,
       ledger_requests w' =
         before ++ map (refund_request organizer pool_id reason)
                     (default [] (fxpool_contributions_db w' !! pool_id))).
Proof.
  intros Hpool organizer. split; [|split; [|split]].
  - intros reason.
    destruct (trigger_fxpool_refund_spec w pool_id reason pool Hpool)
      as (pool' & refunds & w' & Hrun & Hl & Hall & _).
    by exists pool', refunds, w'.
  - unfold cancel_fxpool. run_step. by rewrite Hpool.
  - unfold simulate_rate_drift. run_step. by rewrite Hpool.
  - intros request pool' refunds reason w' Hrun.
    pose proof (contribute_to_fxpool_refund_path w pool_id request) as H.
    rewrite Hrun in H. destruct H as (pool0 & before & Hp & Hr & Hl & Hall).
    rewrite Hpool in Hp. injection Hp as <-. eauto.
Qed.
End FXPoolRefund.

Lemma fxpool_refunds_amount_local_witness :
  let w := (run (contribute_to_fxpool "fxpool_id0" (pay_in "lena" "EUR" 1000))
              (run (create_fxpool (trip 5000)) (boot online)).2).2 in
  (exists pool, fxpool_db w !! "fxpool_id0" = Some pool /\
                FXPool.status pool = "collecting") /\
  exists contribution pool' refunds w',
    fxpool_contributions_db w !! "fxpool_id0" = Some [contribution] /\
    FXContribution.amount_local contribution = 1000 /\
    FXContribution.amount_usd contribution = 1080 /\
    run (cancel_fxpool "fxpool_id0") w
      = (inr (SnapFXPoolRefunds pool' refunds "organizer_cancelled"), w') /\
    ledger_requests w' =
      ledger_requests w ++
      [transfer_request "org" "lena" 1000
         "FlowBridge FX Pool fxpool_id0 refund (organizer_cancelled)"] /\
    Forall2 refund_of [contribution] refunds.
Proof.
  intros w.
  assert (Hp : exists pool, fxpool_db w !! "fxpool_id0" = Some pool /\
                            FXPool.status pool = "collecting")
    by (eexists; split; vm_compute; reflexivity).
  split; [exact Hp|]. destruct Hp as (pool & Hp & _).
  assert (Hc : exists contribution,
             fxpool_contributions_db w !! "fxpool_id0" = Some [contribution] /\
             FXContribution.amount_local contribution = 1000 /\
             FXContribution.amount_usd contribution = 1080 /\
             refund_request (FXPool.organizer_account_id pool) "fxpool_id0"
               "organizer_cancelled" contribution
             = transfer_request "org" "lena" 1000
                 "FlowBridge FX Pool fxpool_id0 refund (organizer_cancelled)").
  { vm_compute in Hp. injection Hp as <-.
    eexists. split; [vm_compute; reflexivity|]. repeat split; reflexivity. }
  destruct Hc as (contribution & Hc & Hlocal & Husd & Hreq).
  destruct (fxpool_refunds_amount_local w "fxpool_id0" pool Hp) as (Htrigger & Hcancel & _).
  destruct (Htrigger "organizer_cancelled") as (pool' & refunds & w' & Hrun & Hledger & Hall).
  rewrite Hc in Hledger, Hall. cbv zeta in Hledger.
  change (default [] (Some [contribution])) with [contribution] in Hledger, Hall.
  cbn [map] in Hledger. rewrite Hreq in Hledger.
  exists contribution, pool', refunds, w'. rewrite Hcancel.
  split; [exact Hc|]. split; [exact Hlocal|]. split; [exact Husd|].
  split; [exact Hrun|]. split; [exact Hledger|exact Hall].
Defined.

(** C8 fails: nothing guards the refund path. A pool that reached its
    goal and was settled (funded) is moved to cancelled by a cancel, which
    also sends a refund transfer; a force-drift on the cancelled pool
    moves it to drift_refunded and sends the refund a second time. *)
Theorem settled_fxpool_refunded_again :
  let w := (run (contribute_to_fxpool "fxpool_id0" (pay_in "lena" "EUR" 1000))
              (run (create_fxpool (trip 1000)) (boot online)).2).2 in
  let refund reason :=
    transfer_request "org" "lena" 1000
      ("FlowBridge FX Pool fxpool_id0 refund (" +:+ reason +:+ ")") in
  (exists pool, fxpool_db w !! "fxpool_id0" = Some pool /\ FXPool.status pool = "funded") /\
  exists snapshot w',
    run (cancel_fxpool "fxpool_id0") w = (inr snapshot, w') /\
    (exists pool', fxpool_db w' !! "fxpool_id0" = Some pool' /\
                   FXPool.status pool' = "cancelled") /\
    ledger_requests w' = ledger_requests w ++ [refund "organizer_cancelled"] /\
    exists snapshot' w'',
      run (simulate_rate_drift "fxpool_id0") w' = (inr snapshot', w'') /\
      (exists pool'', fxpool_db w'' !! "fxpool_id0" = Some pool'' /\
                      FXPool.status pool'' = "drift_refunded") /\
      ledger_requests w'' = ledger_requests w' ++ [refund "rate_drift_simulated"].
Proof.
  split; [eexists; split; vm_compute; reflexivity|].
  eexists _, _. split; [vm_compute; reflexivity|].
  split; [eexists; split; vm_compute; reflexivity|].
  split; [vm_compute; reflexivity|].
  eexists _, _. split; [vm_compute; reflexivity|].
  split; [eexists; split; vm_compute; reflexivity|].
  vm_compute; reflexivity.
Qed.

(** ** The idempotency cache *)

Section Idempotency.
Context `{CM : CaseMapping} `{ES : ExternalServices}.

Lemma body_of_mkResponse content code hs : body_of (mkResponse content code hs) = content.
Proof. reflexivity. Qed.

Lemma dispatch_no_key call_next request (w : World) :
  request_key request = None ->
  run (dispatch call_next request) w = run (call_next request) w.
Proof.
  unfold request_key, dispatch. intros Hk. case_decide; [done|].
  destruct (py_or _ _) as [[|c k]|]; done.
Qed.

Lemma dispatch_miss call_next request key (w : World) :
  method request = "POST" ->
  request_key request = Some key ->
  _idempotency_store w !! (key, path request) = None ->
  executes call_next request (key, path request) w
    (run (dispatch call_next request) w).1 (run (dispatch call_next request) w).2.
Proof.
  unfold request_key, dispatch. intros Hm Hk Hmiss. case_decide; [done|].
  destruct (py_or _ _) as [[|c k]|]; try done. injection Hk as <-.
  run_step. rewrite Hmiss. rewrite run_bind.
  destruct (run (call_next request) w) as [response w1] eqn:Hrun. cbv beta iota.
  exists response, w1. split; [done|].
  destruct (decide (200 <= status_code response < 300)) as [Hs|Hs].
  - run_step. rewrite run_ret. cbn [fst snd]. split; [done|]. split; [done|].
    split; [|done]. intros _. split; [|done].
    unfold replay_tag, dict_union. cbn [resp_headers mkResponse].
    apply elem_of_app. right. apply list_elem_of_In. cbn. auto.
  - rewrite run_ret. cbn [fst snd]. split; [done|]. split; [done|]. split; [done|]. done.
Qed.

Lemma dispatch_hit call_next request key cached (w : World) :
  method request = "POST" ->
  request_key request = Some key ->
  _idempotency_store w !! (key, path request) = Some cached ->
  exists replayed,
    run (dispatch call_next request) w = (replayed, w) /\
    status_code replayed = cached_status_code cached /\
    body_of replayed = cached_body cached /\
    replay_tag "true" replayed.
Proof.
  unfold request_key, dispatch. intros Hm Hk Hhit. case_decide; [done|].
  destruct (py_or _ _) as [[|c k]|]; try done. injection Hk as <-.
  run_step. rewrite Hhit, run_ret. eexists. split; [done|].
  split; [done|]. split; [done|]. unfold replay_tag. apply list_elem_of_In. cbn. auto.
Qed.

(** C6. For a POST carrying an idempotency key: when the (key, path) pair
    is not cached the handler runs, and its result is cached exactly when
    its status is 2xx; a repeat of a cached pair gets the cached status
    code and the same body bytes, tagged as a replay, with no handler run
    (whatever the handler, the state is as it was); a request without a
    key always runs the handler; and with a handler that leaves the cache
    alone, two calls with different keys on a path both run it. *)
Theorem idempotency_cache_contract (call_next : Request -> Async World Response)
    (request : Request) (key : string) (w : World) :
  method request = "POST" ->
  request_key request = Some key ->
  let cache_key := (key, path request) in
  (* first call: the handler runs, a success is cached; the repeat replays it *)
  (_idempotency_store w !! cache_key = None ->
   forall returned w', run (dispatch call_next request) w = (returned, w') ->
     executes call_next request cache_key w returned w' /\
     (success returned ->
      forall other_handler, exists replayed,
        run (dispatch other_handler request) w' = (replayed, w') /\
        status_code replayed = status_code returned /\
        body_of replayed = body_of returned /\
        replay_tag "true" replayed)) /\
  (* any call that finds the pair cached *)
  (forall cached, _idempotency_store w !! cache_key = Some cached ->
   exists replayed,
     run (dispatch call_next request) w = (replayed, w) /\
     status_code replayed = cached_status_code cached /\
     body_of replayed = cached_body cached /\
     replay_tag "true" replayed) /\
  (* no key *)
  (forall unkeyed, request_key unkeyed = None ->
     run (dispatch call_next unkeyed) w = run (call_next unkeyed) w) /\
  (* another key on the same path *)
  (forall request2 key2 returned w',
     method request2 = "POST" -> request_key request2 = Some key2 ->
     path request2 = path request -> key2 <> key ->
     (forall r v, _idempotency_store (run (call_next r) v).2 = _idempotency_store v) ->
     _idempotency_store w !! cache_key = None ->
     _idempotency_store w !! (key2, path request) = None ->
     run (dispatch call_next request) w = (returned, w') ->
     executes call_next request cache_key w returned w' /\
     executes call_next request2 (key2, path request) w'
       (run (dispatch call_next request2) w').1 (run (dispatch call_next request2) w').2).
Proof.
  intros Hm Hk cache_key. split; [|split; [|split]].
  - intros Hmiss returned w' Hrun.
    pose proof (dispatch_miss call_next request key w Hm Hk Hmiss) as Hex.
    rewrite Hrun in Hex. split; [exact Hex|].
    intros Hs other_handler.
    destruct Hex as (response & w1 & Hnext & Hst & Hbody & Hok & _).
    assert (Hs' : success response) by (unfold success in *; by rewrite <- Hst).
    destruct (Hok Hs') as [_ Hw']. cbn [snd] in Hw'. subst w'.
    destruct (dispatch_hit other_handler request key
                {| cached_body := body_of response; cached_status_code := status_code response |}
                (set_idempotency_store
                   (<[(key, path request) := {| cached_body := body_of response;
                                                cached_status_code := status_code response |}]>
                      (_idempotency_store w1)) w1) Hm Hk)
      as (replayed & Hr & Hc & Hb & Ht).
    { world_simpl. apply lookup_insert_eq. }
    exists replayed. cbn in Hc, Hb. cbn [fst] in Hst, Hbody. rewrite Hst, Hbody. done.
  - intros cached Hhit. by apply (dispatch_hit call_next request key).
  - intros unkeyed Hnone. by apply dispatch_no_key.
  - intros request2 key2 returned w' Hm2 Hk2 Hpath Hne Hkeep Hmiss Hmiss2 Hrun.
    pose proof (dispatch_miss call_next request key w Hm Hk Hmiss) as Hex.
    rewrite Hrun in Hex. split; [exact Hex|].
    rewrite <- Hpath. apply (dispatch_miss call_next request2 key2); [done|done|].
    destruct Hex as (response & w1 & Hnext & Hst & Hbody & Hok & Hfail).
    assert (Hw1 : _idempotency_store w1 = _idempotency_store w).
    { specialize (Hkeep request w). by rewrite Hnext in Hkeep. }
    rewrite Hpath. cbn [snd] in Hok, Hfail.
    destruct (decide (success response)) as [Hs|Hs].
    + destruct (Hok Hs) as [_ ->]. world_simpl. rewrite lookup_insert_ne, Hw1; [done|].
      intros [= E]. by apply Hne.
    + destruct (Hfail Hs) as [_ ->]. by rewrite Hw1.
Qed.

Lemma serve_again_replays (handler : Request -> Async World Response) request key
    cached (w : World) (n : nat) :
  method request = "POST" ->
  request_key request = Some key ->
  _idempotency_store w !! (key, path request) = Some cached ->
  exists answers,
    serve_again n (dispatch handler request) w = (answers, w) /\
    length answers = n /\
    Forall (fun r => status_code r = cached_status_code cached /\
                     body_of r = cached_body cached /\ replay_tag "true" r) answers.
Proof.
  intros Hm Hk Hhit. induction n as [|n (answers & IH & Hlen & Hall)].
  - exists []. split; [done|]. split; [done|]. constructor.
  - destruct (dispatch_hit handler request key cached w Hm Hk Hhit) as (r & Hr & Hprops).
    exists (r :: answers). cbn [serve_again]. rewrite Hr, IH. split; [done|].
    split; [cbn; by rewrite Hlen|]. by constructor.
Qed.

(** C9, as the code has it. When requests sharing an idempotency key on
    the approve of one collect are served one after the other and the
    first succeeds: exactly one ledger transfer is sent and the collect is
    approved; every later request with that key gets the first one's
    status and body as a replay and changes nothing; and an approve that
    reaches the handler again fails with InvalidStateError. *)
Theorem sequential_approvals_transfer_once
    (encode : HTTPException + CollectResponse.t -> string)
    (collect_id : string) (collect : CollectResponse.t)
    (request : Request) (key : string) (w : World) :
  method request = "POST" ->
  request_key request = Some key ->
  _idempotency_store w !! (key, path request) = None ->
  fake_collect_db w !! collect_id = Some collect ->
  let handler := endpoint encode 200 (approve_collect collect_id) in
  forall first w1,
    run (dispatch handler request) w = (first, w1) ->
    status_code first = 200 ->
    ledger_requests w1 = ledger_requests w ++ [collect_transfer collect] /\
    (exists approved,
       fake_collect_db w1 !! collect_id = Some approved /\
       CollectResponse.status approved = "approved") /\
    (forall n, exists answers,
       serve_again n (dispatch handler request) w1 = (answers, w1) /\
       length answers = n /\
       Forall (fun r => status_code r = status_code first /\
                        body_of r = body_of first /\ replay_tag "true" r) answers) /\
    (exists exc, run (approve_collect collect_id) w1 = (inl exc, w1) /\
                 InvalidStateError "approve" "collect" "approved" exc).
Proof.
  intros Hm Hk Hmiss Hc handler first w1 Hrun H200.
  pose proof (dispatch_miss handler request key w Hm Hk Hmiss) as Hex.
  rewrite Hrun in Hex. cbn [fst snd] in Hex.
  destruct Hex as (response & w0 & Hnext & Hst & Hbody & Hok & _).
  assert (Hs : success response) by (unfold success; rewrite <- Hst, H200; lia).
  destruct (Hok Hs) as [_ ->]. clear Hok.
  unfold handler, endpoint in Hnext. rewrite run_bind in Hnext.
  pose proof (approve_collect_outcome w collect_id collect Hc) as Hout.
  destruct (run (approve_collect collect_id) w) as [[exc|approved] w'].
  { rewrite run_ret in Hnext. injection Hnext as <- <-. cbn in Hst. congruence. }
  rewrite run_ret in Hnext. injection Hnext as <- <-.
  destruct Hout as (Hpending & Happroved & _ & Hdb & Hledger).
  world_simpl. split; [done|]. split; [eauto|]. split.
  - intros n.
    destruct (serve_again_replays (endpoint encode 200 (approve_collect collect_id))
                request key
                {| cached_body := body_of (mkResponse (encode (inr approved)) 200
                                             [("content-type", "application/json")]);
                   cached_status_code := 200 |}
                (set_idempotency_store
                   (<[(key, path request) :=
                        {| cached_body := body_of (mkResponse (encode (inr approved)) 200
                                                     [("content-type", "application/json")]);
                           cached_status_code := 200 |}]> (_idempotency_store w')) w') n Hm Hk)
      as (answers & Hserve & Hlen & Hall).
    { world_simpl. apply lookup_insert_eq. }
    exists answers. split; [exact Hserve|]. split; [done|].
    rewrite H200, Hbody. exact Hall.
  - destruct (approve_collect_not_pending
                (set_idempotency_store
                   (<[(key, path request) :=
                        {| cached_body := body_of (mkResponse (encode (inr approved)) 200
                                                     [("content-type", "application/json")]);
                           cached_status_code := 200 |}]> (_idempotency_store w')) w')
                collect_id approved) as (exc & Hr & He).
    + world_simpl. done.
    + rewrite Happroved. discriminate.
    + exists exc. split; [exact Hr|]. by rewrite Happroved in He.
Qed.

(** C10. The balance read is 999999 when the upstream call fails, when the
    account has no balance field, and whenever the reported balance is
    not positive; a positive balance is returned as reported.  So with a
    reported balance of zero no amount up to 999999 is insufficient: the
    approve and the contribute of such a payer get past the funds check
    and send the transfer to the ledger. *)
Theorem nonpositive_balance_reads_999999 (w : World) (account_id : string) :
  (let '(resp, e) := nessie_get_account account_id (ext w) in
   let balance := (run (get_balance account_id) w).1 in
   (resp = None -> balance = 999999) /\
   (resp = Some None -> balance = 999999) /\
   (forall reported, resp = Some (Some reported) ->
      (reported <= 0 -> balance = 999999 /\ forall amount, amount <= 999999 -> ~ balance < amount) /\
      (reported > 0 -> balance = reported))) /\
  (* the funds check of approve *)
  (forall collect_id collect,
     fake_collect_db w !! collect_id = Some collect ->
     CollectResponse.status collect = "pending" ->
     CollectResponse.payer_account_id collect = account_id ->
     CollectResponse.amount collect <= 999999 ->
     let '(t, e1) := datetime_now (ext w) in
     let '(resp, _) := nessie_get_account account_id e1 in
     ~ t > CollectResponse.expires_at collect ->
     forall reported, resp = Some (Some reported) -> reported <= 0 ->
     ledger_requests (run (approve_collect collect_id) w).2
       = ledger_requests w ++ [collect_transfer collect]) /\
  (* the funds check of contribute *)
  (forall pool_id pool request,
     fake_pool_db w !! pool_id = Some pool ->
     PoolResponse.status pool = "collecting" ->
     pq_payer_account_id request = account_id ->
     pq_amount request <= 999999 ->
     let '(t, e1) := datetime_now (ext w) in
     let '(resp, _) := nessie_get_account account_id e1 in
     ~ t > PoolResponse.deadline pool ->
     forall reported, resp = Some (Some reported) -> reported <= 0 ->
     exists rest,
       ledger_requests (run (contribute_to_pool pool_id request) w).2
         = ledger_requests w ++
           transfer_request account_id (PoolResponse.organizer_account_id pool)
             (pq_amount request) ("FlowPay pool contribution " +:+ PoolResponse.id pool)
           :: rest).
Proof.
  split; [|split].
  - pose proof (run_get_balance w account_id) as Hb.
    destruct (nessie_get_account account_id (ext w)) as [resp e].
    cbv zeta. rewrite Hb. cbn [fst].
    split; [by intros ->|]. split; [by intros ->|].
    intros reported ->. change (default 0 (Some reported)) with reported. split.
    + intros Hle. destruct (decide (reported > 0)); [lia|]. split; [done|].
      intros amount Ham. lia.
    + intros Hgt. destruct (decide (reported > 0)); [done|lia].
  - intros collect_id collect Hc Hst Hpayer Ham.
    destruct (datetime_now (ext w)) as [t e1] eqn:Hclock.
    pose proof (run_get_balance (set_ext e1 w) account_id) as Hb. world_simpl_in Hb.
    destruct (nessie_get_account account_id e1) as [resp e2].
    intros Hexp reported -> Hle. change (default 0 (Some reported)) with reported in Hb.
    unfold approve_collect, raise, update_collect, the_collect. run_step. rewrite Hc.
    goal_decide Hst'; [done|].
    rewrite run_bind. unfold now at 1. cbn [run]. unfold ext_call.
    rewrite Hclock. cbv beta iota.
    goal_decide Hexp'; [done|].
    rewrite run_bind, Hpayer, Hb. cbv beta iota.
    destruct (decide (reported > 0)); [lia|]. goal_decide Hx; [lia|].
    run_step. unfold collect_transfer.
    destruct sent as [transfer_id|]; repeat run_step; rewrite run_ret; world_simpl;
      rewrite ?Hpayer; reflexivity.
  - intros pool_id pool request Hp Hst Hpayer Ham.
    destruct (datetime_now (ext w)) as [t e1] eqn:Hclock.
    pose proof (run_get_balance (set_ext e1 w) account_id) as Hb. world_simpl_in Hb.
    destruct (nessie_get_account account_id e1) as [resp e2].
    intros Hexp reported -> Hle. change (default 0 (Some reported)) with reported in Hb.
    unfold contribute_to_pool, internal_server_error, raise, update_pool, the_pool.
    run_step. rewrite Hp.
    goal_decide Hst'; [rewrite Hst in Hst'; discriminate|].
    rewrite run_bind. unfold now at 1. cbn [run]. unfold ext_call.
    rewrite Hclock. cbv beta iota.
    goal_decide Hexp'; [done|].
    rewrite run_bind, Hpayer, Hb. cbv beta iota.
    destruct (decide (reported > 0)); [lia|]. goal_decide Hx; [lia|].
    run_step. destruct sent as [transfer_id|]; [|exists []; by rewrite run_ret].
    run_step. destruct (fake_contributions_db w !! pool_id) as [cs|];
      [|exists []; by rewrite run_ret].
    do 5 run_step. goal_decide Hgoal.
    + do 5 run_step. destruct sent as [settle_txn|]; repeat run_step; rewrite run_ret;
        world_simpl; rewrite <- app_assoc; eexists; reflexivity.
    + repeat run_step. rewrite run_ret. world_simpl. exists []. reflexivity.
Qed.
End Idempotency.

Lemma idempotency_cache_contract_witness :
  let handler := endpoint encode_collect 201 (create_collect invoice) in
  let request := create_request "k1" in
  let w := boot online in
  method request = "POST" /\
  request_key request = Some "k1" /\
  _idempotency_store w !! ("k1", path request) = None /\
  exists returned w',
    run (dispatch handler request) w = (returned, w') /\
    status_code returned = 201 /\
    executes handler request ("k1", path request) w returned w' /\
    exists replayed,
      run (dispatch handler request) w' = (replayed, w') /\
      status_code replayed = status_code returned /\
      body_of replayed = body_of returned /\
      replay_tag "true" replayed.
Proof.
  intros handler request w.
  split; [reflexivity|]. split; [reflexivity|].
  assert (Hmiss : _idempotency_store w !! ("k1", path request) = None) by reflexivity.
  split; [exact Hmiss|].
  destruct (run (dispatch handler request) w) as [returned w'] eqn:Hrun.
  assert (Hstatus : status_code returned = 201).
  { pose proof Hrun as Hval. vm_compute in Hval. by injection Hval as <- _. }
  destruct (idempotency_cache_contract handler request "k1" w eq_refl eq_refl)
    as (Hfirst & _).
  destruct (Hfirst Hmiss returned w' Hrun) as (Hexec & Hrepeat).
  exists returned, w'. split; [reflexivity|]. split; [exact Hstatus|].
  split; [exact Hexec|]. apply Hrepeat. unfold success. rewrite Hstatus. lia.
Defined.

(** C9 does not hold as worded: two approve requests with the same key,
    interleaved at their await points, both miss the cache, both find the
    collect pending, and both send the transfer: the ledger is asked
    twice and both answers are fresh (not replays, not errors). *)
Lemma concurrent_approvals_transfer_twice :
  let '(tasks, w') := event_loop [0; 1; 0; 1; 0; 1]%nat
                        ([inr approve_task; inr approve_task], pending_world online) in
  exists r0 r1,
    tasks = [inl r0; inl r1] /\
    status_code r0 = 200 /\ status_code r1 = 200 /\
    replay_tag "false" r0 /\ replay_tag "false" r1 /\
    ledger_requests w' =
      [transfer_request "jordan" "shop" 4900 "FlowPay collect clct_id0";
       transfer_request "jordan" "shop" 4900 "FlowPay collect clct_id0"].
Proof.
  vm_compute. eexists _, _. split; [reflexivity|].
  split; [reflexivity|]. split; [reflexivity|].
  split; [apply list_elem_of_In; cbn; auto|].
  split; [apply list_elem_of_In; cbn; auto|]. reflexivity.
Qed.

Lemma sequential_approvals_transfer_once_witness :
  let handler := endpoint encode_collect 200 (approve_collect "clct_id0") in
  let request := approve_request "k1" in
  let w := pending_world online in
  method request = "POST" /\
  request_key request = Some "k1" /\
  _idempotency_store w !! ("k1", path request) = None /\
  exists collect first w1,
    fake_collect_db w !! "clct_id0" = Some collect /\
    run (dispatch handler request) w = (first, w1) /\
    status_code first = 200 /\
    ledger_requests w1 = ledger_requests w ++ [collect_transfer collect] /\
    forall n, exists answers,
      serve_again n (dispatch handler request) w1 = (answers, w1) /\
      length answers = n /\
      Forall (fun r => status_code r = status_code first /\
                       body_of r = body_of first /\ replay_tag "true" r) answers.
Proof.
  intros handler request w.
  split; [reflexivity|]. split; [reflexivity|].
  assert (Hmiss : _idempotency_store w !! ("k1", path request) = None)
    by (vm_compute; reflexivity).
  split; [exact Hmiss|].
  assert (Hc : exists collect, fake_collect_db w !! "clct_id0" = Some collect)
    by (eexists; vm_compute; reflexivity).
  destruct Hc as (collect & Hc).
  destruct (run (dispatch handler request) w) as [first w1] eqn:Hrun.
  assert (Hstatus : status_code first = 200).
  { pose proof Hrun as Hval. vm_compute in Hval. by injection Hval as <- _. }
  destruct (sequential_approvals_transfer_once encode_collect "clct_id0" collect request
              "k1" w eq_refl eq_refl Hmiss Hc first w1 Hrun Hstatus)
    as (Hledger & _ & Hreplays & _).
  exists collect, first, w1. split; [exact Hc|]. split; [reflexivity|].
  split; [exact Hstatus|]. split; [exact Hledger|exact Hreplays].
Defined.

Lemma nonpositive_balance_reads_999999_witness :
  let w := pending_world broke in
  nessie_get_account "jordan" (ext w) = (Some (Some 0), ext w) /\
  (run (get_balance "jordan") w).1 = 999999 /\
  ledger_requests (run (approve_collect "clct_id0") w).2
    = [transfer_request "jordan" "shop" 4900 "FlowPay collect clct_id0"].
Proof.
  intros w.
  assert (Hacc : nessie_get_account "jordan" (ext w) = (Some (Some 0), ext w))
    by (vm_compute; reflexivity).
  split; [exact Hacc|].
  destruct (nonpositive_balance_reads_999999 w "jordan") as (Hread & Happrove & _).
  rewrite Hacc in Hread. destruct Hread as (_ & _ & Hread).
  destruct (Hread 0 eq_refl) as (Hzero & _).
  split; [apply Hzero; lia|].
  assert (Hc : exists collect,
             fake_collect_db w !! "clct_id0" = Some collect /\
             CollectResponse.status collect = "pending" /\
             CollectResponse.payer_account_id collect = "jordan" /\
             CollectResponse.amount collect = 4900 /\
             CollectResponse.expires_at collect = 2000 /\
             collect_transfer collect
             = transfer_request "jordan" "shop" 4900 "FlowPay collect clct_id0")
    by (eexists; split; [vm_compute; reflexivity|]; repeat split; reflexivity).
  destruct Hc as (collect & Hc & Hst & Hpayer & Hamount & Hexp & Htr).
  specialize (Happrove "clct_id0" collect Hc Hst Hpayer).
  rewrite Hamount, Hexp in Happrove. specialize (Happrove ltac:(lia)).
  assert (Hclock : datetime_now (ext w) = (1000, ext w)) by (vm_compute; reflexivity).
  rewrite Hclock, Hacc in Happrove.
  rewrite (Happrove ltac:(lia) 0 eq_refl ltac:(lia)), Htr.
  vm_compute. reflexivity.
Defined.

(** ** The rate oracle and its fallback *)

Lemma fallback_to_usd_values currency :
  fallback_to_usd currency ∈
    [f_1_0; f_1_08; f_1_27; f_0_01202; f_0_0066; f_0_74; f_0_64; f_0_138; f_0_051].
Proof.
  unfold fallback_to_usd.
  destruct (FALLBACK_RATES_TO_USD !! currency) as [v|] eqn:Hv; [|cbn; set_solver].
  apply elem_of_list_to_map_2 in Hv. cbn [default from_option].
  apply list_elem_of_In in Hv. apply list_elem_of_In. cbn in Hv |- *.
  intuition (match goal with H : (_, _) = (_, _) |- _ => injection H as _ <- end; tauto).
Qed.

(** The fallback cross-rate is a positive finite number. *)
Lemma fallback_rate_positive src tgt :
  fltb (S754_zero false) (fallback_rate src tgt) = true /\
  float_truthy (fallback_rate src tgt) = true /\
  exists m e, fallback_rate src tgt = S754_finite false m e.
Proof.
  unfold fallback_rate. fold (fallback_to_usd src). fold (fallback_to_usd tgt).
  pose proof (fallback_to_usd_values src) as Hs.
  pose proof (fallback_to_usd_values tgt) as Ht.
  apply list_elem_of_In in Hs. apply list_elem_of_In in Ht. cbn in Hs, Ht.
  repeat (destruct Hs as [<-|Hs]; [|]); try contradiction;
    repeat (destruct Ht as [<-|Ht]; [|]); try contradiction;
    (split; [vm_compute; reflexivity|]; split; [vm_compute; reflexivity|];
     eexists _, _; vm_compute; reflexivity).
Qed.

Section RateOracle.
Context `{CM : CaseMapping} `{ES : ExternalServices}.

Lemma get_live_rate_truthy (src tgt : string) (w : World) :
  float_truthy (run (get_live_rate src tgt) w).1 = true /\
  feqb (run (get_live_rate src tgt) w).1 (S754_zero false) = false.
Proof.
  assert (H : float_truthy (run (get_live_rate src tgt) w).1 = true).
  { unfold get_live_rate. case_decide; [reflexivity|].
    cbn [bind await_io run]. unfold ext_call.
    destruct (er_api_latest (upper (lower src)) (ext w)) as [resp e].
    destruct (resp ≫= _) as [rate|]; cbn [run fst];
      [destruct (float_truthy rate) eqn:Hr; cbn [run fst]; [exact Hr|]|];
      apply fallback_rate_positive. }
  split; [exact H|].
  destruct (run (get_live_rate src tgt) w).1 as [[]|[]| |[] m e]; try discriminate H;
    reflexivity.
Qed.
(** X1. get_live_rate never returns a zero: whatever the rate oracle
    answers (a rate, a zero, no entry, a failure), the result is a non-
    zero float, because a falsy oracle rate falls back to the table and
    every fallback cross-rate is a positive finite number. *)
Theorem get_live_rate_never_zero (src tgt : string) (w : World) :
  float_truthy (run (get_live_rate src tgt) w).1 = true /\
  feqb (run (get_live_rate src tgt) w).1 (S754_zero false) = false.
Proof. exact (get_live_rate_truthy src tgt w). Qed.
End RateOracle.

(** ** Rates, locks and collects: the remaining paths *)

Section RateLocks.
Context `{CM : CaseMapping} `{ES : ExternalServices}.

Lemma lock_rate_result src tgt amount_target duration max_drift (w : World) lock w' :
  run (lock_rate src tgt amount_target duration max_drift) w = (inr lock, w') ->
  RateLock.rate lock = (run (get_live_rate src tgt) w).1 /\
  RateLock.source_currency lock = lower src /\
  RateLock.target_currency lock = lower tgt /\
  RateLock.amount_target_cents lock = amount_target /\
  RateLock.max_drift_pct lock = max_drift /\
  rate_lock_store w' = <[RateLock.id lock := lock]> (rate_lock_store w) /\
  w' = set_rate_lock_store (rate_lock_store w') (set_ext (ext w') w).
Proof.
  pose proof (get_live_rate_truthy src tgt w) as [_ Hnz].
  unfold lock_rate, lock_fetched_rate. rewrite run_bind.
  destruct (ext_only_get_live_rate src tgt w) as (r & e & Hrun). rewrite Hrun in *.
  cbn [fst] in Hnz. cbv beta iota. rewrite Hnz.
  destruct (py_int_truediv amount_target 100) as [exc|d]; [discriminate|].
  destruct (py_truediv d _) as [exc|q]; [discriminate|].
  destruct (py_int _) as [exc|n]; [discriminate|].
  do 2 run_step.
  destruct (minutes duration) as [exc|delta]; [discriminate|].
  destruct (datetime_add _ delta) as [exc|expires_at]; [discriminate|].
  repeat run_step. rewrite run_ret. intros [= <- <-]. cbn. done.
Qed.

(** X2. When lock_rate returns a lock, its rate is exactly the rate
    get_live_rate returned (the replacement of a zero rate by 1.0 never
    fires), its currencies are the arguments as str.lower() gives them
    (for an ASCII argument: with its letters A-Z lower-cased), and the
    only store changed is rate_lock_store, which gains the lock under
    its id. *)
Theorem lock_rate_keeps_fetched_rate src tgt amount_target duration max_drift
    (w : World) lock w' :
  run (lock_rate src tgt amount_target duration max_drift) w = (inr lock, w') ->
  RateLock.rate lock = (run (get_live_rate src tgt) w).1 /\
  RateLock.source_currency lock = lower src /\
  RateLock.target_currency lock = lower tgt /\
  RateLock.amount_target_cents lock = amount_target /\
  RateLock.max_drift_pct lock = max_drift /\
  rate_lock_store w' = <[RateLock.id lock := lock]> (rate_lock_store w) /\
  w' = set_rate_lock_store (rate_lock_store w') (set_ext (ext w') w) /\
  (isascii src = true -> RateLock.source_currency lock = bytes_lower src) /\
  (isascii tgt = true -> RateLock.target_currency lock = bytes_lower tgt).
Proof.
  intros Hrun.
  destruct (lock_rate_result _ _ _ _ _ _ _ _ Hrun) as (Hrate & Hsrc & Htgt & Hamt & Hmax & Hst & Hw).
  repeat (split; [assumption|]).
  split; intros Hascii.
  - by rewrite Hsrc, lower_isascii.
  - by rewrite Htgt, lower_isascii.
Qed.

End RateLocks.

Section CollectPaths.
Context `{CM : CaseMapping} `{ES : ExternalServices}.

(** X3. Approving a pending collect after its expires_at raises 410
    collect_expired and moves the collect to expired without sending a
    transfer; every later approve or decline of it is refused with
    InvalidStateError and changes nothing. *)
Theorem approve_collect_expired (w : World) collect_id collect :
  fake_collect_db w !! collect_id = Some collect ->
  CollectResponse.status collect = "pending" ->
  (datetime_now (ext w)).1 > CollectResponse.expires_at collect ->
  exists w',
    run (approve_collect collect_id) w =
      (inl {| exc_status_code := 410;
              exc_detail := DetailError (Some "invalid_request_error") "collect_expired"
                              [("expired_at", CollectResponse.expires_at collect)] |}, w') /\
    fake_collect_db w' = <[collect_id := CollectResponse.set_status "expired" collect]>
                           (fake_collect_db w) /\
    ledger_requests w' = ledger_requests w /\
    (exists exc, run (approve_collect collect_id) w' = (inl exc, w') /\
                 InvalidStateError "approve" "collect" "expired" exc) /\
    (exists exc, run (decline_collect collect_id) w' = (inl exc, w') /\
                 InvalidStateError "decline" "collect" "expired" exc).
Proof.
  intros Hc Hst Hlate.
  assert (Hrun : exists e,
    run (approve_collect collect_id) w =
      (inl {| exc_status_code := 410;
              exc_detail := DetailError (Some "invalid_request_error") "collect_expired"
                              [("expired_at", CollectResponse.expires_at collect)] |},
       set_ext e (set_fake_collect_db
                    (<[collect_id := CollectResponse.set_status "expired" collect]>
                       (fake_collect_db w)) w))).
  { unfold approve_collect, raise, update_collect, the_collect. run_step. rewrite Hc.
    goal_decide Hp; [done|].
    rewrite run_bind. unfold now at 1. cbn [run]. unfold ext_call.
    destruct (datetime_now (ext w)) as [t e1] eqn:Hclock. cbn [fst] in Hlate.
    cbv beta iota. goal_decide Hexp; [|done].
    repeat run_step. rewrite run_ret. exists e.
    replace (alter (CollectResponse.set_status "expired") collect_id (fake_collect_db w))
      with (<[collect_id := CollectResponse.set_status "expired" collect]> (fake_collect_db w));
      [reflexivity|].
    apply map_eq. intros j. destruct (decide (collect_id = j)) as [<-|Hj].
    - by rewrite lookup_alter_eq, lookup_insert_eq, Hc.
    - by rewrite lookup_alter_ne, lookup_insert_ne. }
  destruct Hrun as (e & Hrun). eexists. split; [exact Hrun|]. world_simpl.
  split; [reflexivity|]. split; [reflexivity|]. split.
  - match goal with |- context [run (approve_collect _) ?w0] =>
      destruct (approve_collect_not_pending w0 collect_id
                  (CollectResponse.set_status "expired" collect)) as (exc' & Hr & He) end.
    + world_simpl. apply lookup_insert_eq.
    + discriminate.
    + exists exc'. split; [exact Hr|exact He].
  - match goal with |- context [run (decline_collect _) ?w0] =>
      destruct (decline_collect_not_pending w0 collect_id
                  (CollectResponse.set_status "expired" collect)) as (exc' & Hr & He) end.
    + world_simpl. apply lookup_insert_eq.
    + discriminate.
    + exists exc'. split; [exact Hr|exact He].
Qed.

(** X4. Approving a pending, unexpired collect whose payer's balance
    reads below the amount raises 402 insufficient_funds carrying the
    balance read and the required amount; no transfer is sent and no
    store changes. *)
Theorem approve_collect_insufficient_funds (w : World) collect_id collect :
  fake_collect_db w !! collect_id = Some collect ->
  CollectResponse.status collect = "pending" ->
  let clock := datetime_now (ext w) in
  let read := run (get_balance (CollectResponse.payer_account_id collect))
                (set_ext clock.2 w) in
  ~ clock.1 > CollectResponse.expires_at collect ->
  read.1 < CollectResponse.amount collect ->
  run (approve_collect collect_id) w =
    (inl {| exc_status_code := 402;
            exc_detail := DetailError (Some "payment_error") "insufficient_funds"
                            [("nessie_balance", read.1);
                             ("required_amount", CollectResponse.amount collect)] |},
     read.2) /\
  read.2 = set_ext (ext read.2) w.
Proof.
  intros Hc Hst clock read. subst read clock.
  destruct (datetime_now (ext w)) as [t e1] eqn:Hclock. cbn [fst snd]. intros Hnot.
  destruct (ext_only_get_balance (CollectResponse.payer_account_id collect) (set_ext e1 w))
    as (balance & e2 & Hbal). rewrite Hbal. cbn [fst snd]. intros Hshort.
  unfold approve_collect, raise, update_collect, the_collect. run_step. rewrite Hc.
  goal_decide Hp; [done|].
  rewrite run_bind. unfold now at 1. cbn [run]. unfold ext_call. rewrite Hclock.
  cbv beta iota. goal_decide Hexp; [done|].
  rewrite run_bind, Hbal. cbv beta iota. goal_decide Hb; [|done].
  rewrite run_ret. split; reflexivity.
Qed.

(** X5. When the ledger refuses the transfer of an approve, the handler
    raises 500 after exactly one transfer request, and the collect stays
    pending with every store as it was, so the approve can be tried
    again. *)
Theorem approve_collect_ledger_failure (w : World) collect_id collect :
  fake_collect_db w !! collect_id = Some collect ->
  CollectResponse.status collect = "pending" ->
  let clock := datetime_now (ext w) in
  let read := run (get_balance (CollectResponse.payer_account_id collect))
                (set_ext clock.2 w) in
  let answer := nessie_post_transfer (collect_transfer collect) (ext read.2) in
  ~ clock.1 > CollectResponse.expires_at collect ->
  ~ read.1 < CollectResponse.amount collect ->
  answer.1 = None ->
  run (approve_collect collect_id) w =
    (inl {| exc_status_code := 500; exc_detail := DetailText "Nessie transfer failed" |},
     set_ext answer.2 (set_ledger_requests
                         (ledger_requests w ++ [collect_transfer collect]) w)).
Proof.
  intros Hc Hst clock read answer. subst answer read clock.
  destruct (datetime_now (ext w)) as [t e1] eqn:Hclock. cbn [fst snd]. intros Hnot.
  destruct (ext_only_get_balance (CollectResponse.payer_account_id collect) (set_ext e1 w))
    as (balance & e2 & Hbal). rewrite Hbal. cbn [fst snd]. intros Hok. world_simpl.
  destruct (nessie_post_transfer (collect_transfer collect) e2) as [answer e3] eqn:Hpost.
  cbn [fst snd]. intros ->.
  unfold approve_collect, raise, update_collect, the_collect. run_step. rewrite Hc.
  goal_decide Hp; [done|].
  rewrite run_bind. unfold now at 1. cbn [run]. unfold ext_call. rewrite Hclock.
  cbv beta iota. goal_decide Hexp; [done|].
  rewrite run_bind, Hbal. cbv beta iota. goal_decide Hb; [done|].
  rewrite run_bind. unfold transfer at 1. cbn [bind await_io run]. unfold ext_call.
  world_simpl. fold (collect_transfer collect). rewrite Hpost. cbn [run].
  reflexivity.
Qed.

(** X6. Declining a pending collect sets its status to declined and
    declined_at to the current time and sends no transfer; every later
    approve or decline of it is refused with InvalidStateError and
    changes nothing. *)
Theorem decline_collect_from_pending (w : World) collect_id collect :
  fake_collect_db w !! collect_id = Some collect ->
  CollectResponse.status collect = "pending" ->
  let declined := CollectResponse.set_declined_at (Some (datetime_now (ext w)).1)
                    (CollectResponse.set_status "declined" collect) in
  exists w',
    run (decline_collect collect_id) w = (inr declined, w') /\
    fake_collect_db w' = <[collect_id := declined]> (fake_collect_db w) /\
    ledger_requests w' = ledger_requests w /\
    (exists exc, run (approve_collect collect_id) w' = (inl exc, w') /\
                 InvalidStateError "approve" "collect" "declined" exc) /\
    (exists exc, run (decline_collect collect_id) w' = (inl exc, w') /\
                 InvalidStateError "decline" "collect" "declined" exc).
Proof.
  intros Hc Hst declined.
  assert (Hrun : exists e,
    run (decline_collect collect_id) w =
      (inr declined,
       set_ext e (set_fake_collect_db (<[collect_id := declined]> (fake_collect_db w)) w))).
  { subst declined.
    unfold decline_collect, raise, update_collect, the_collect. run_step. rewrite Hc.
    goal_decide Hp; [done|]. run_step.
    rewrite run_bind. unfold now at 1. cbn [run]. unfold ext_call. world_simpl.
    destruct (datetime_now (ext w)) as [t e1] eqn:Hclock. cbv beta iota. world_simpl.
    repeat run_step. rewrite run_ret. world_simpl.
    rewrite !lookup_alter_eq, Hc. cbn [fmap option_fmap option_map default from_option id fst].
    exists e.
    replace (alter (CollectResponse.set_declined_at (Some t)) collect_id
               (alter (CollectResponse.set_status "declined") collect_id (fake_collect_db w)))
      with (<[collect_id := CollectResponse.set_declined_at (Some t)
                              (CollectResponse.set_status "declined" collect)]>
              (fake_collect_db w)); [reflexivity|].
    apply map_eq. intros j. destruct (decide (collect_id = j)) as [<-|Hj].
    - by rewrite !lookup_alter_eq, lookup_insert_eq, Hc.
    - by rewrite !lookup_alter_ne, lookup_insert_ne. }
  destruct Hrun as (e & Hrun). eexists. split; [exact Hrun|]. world_simpl.
  split; [reflexivity|]. split; [reflexivity|]. split.
  - match goal with |- context [run (approve_collect _) ?w0] =>
      destruct (approve_collect_not_pending w0 collect_id declined) as (exc' & Hr & He) end.
    + world_simpl. apply lookup_insert_eq.
    + discriminate.
    + exists exc'. split; [exact Hr|exact He].
  - match goal with |- context [run (decline_collect _) ?w0] =>
      destruct (decline_collect_not_pending w0 collect_id declined) as (exc' & Hr & He) end.
    + world_simpl. apply lookup_insert_eq.
    + discriminate.
    + exists exc'. split; [exact Hr|exact He].
Qed.
End CollectPaths.

(** ** No movement, no drift *)

Lemma fsub_diag s m e : fsub (S754_finite s m e) (S754_finite s m e) = S754_zero false.
Proof. unfold fsub, SFsub. cbv zeta. by rewrite Z.sub_diag. Qed.

Lemma fltb_nan (x : float) : fltb x S754_nan = false.
Proof. by destruct x as [[]|[]| |[] m e]. Qed.

(** The drift percentage [abs((r - r) / r) * 100] of an unchanged non-zero
    rate: zero, or NaN when the rate is not finite. *)
Lemma drift_of_unchanged_rate (r : float) :
  float_truthy r = true ->
  exists q, py_truediv (fsub r r) r = inr q /\
    (fmul (fabs q) f_100 = S754_zero false \/ fmul (fabs q) f_100 = S754_nan).
Proof.
  destruct r as [z|i| |s m e]; [discriminate|..]; intros _.
  - eexists. split; [reflexivity|]. right. by destruct i.
  - eexists. split; [reflexivity|]. by right.
  - rewrite fsub_diag. eexists. split; [reflexivity|]. left. by destruct s.
Qed.

Section NoDrift.
Context `{CM : CaseMapping} `{ES : ExternalServices}.

(** While the oracle answers the locked rate, a lock whose tolerance is not
    negative is never reported as drifted. *)
Lemma check_drift_unchanged (w : World) (lock_id : string) (lock : RateLock.t) :
  rate_lock_store w !! lock_id = Some lock ->
  float_truthy (RateLock.rate lock) = true ->
  (run (get_live_rate (RateLock.source_currency lock) (RateLock.target_currency lock)) w).1
    = RateLock.rate lock ->
  fltb (RateLock.max_drift_pct lock) (S754_zero false) = false ->
  exists i w',
    run (check_drift lock_id) w = (inr (Drift.Info i), w') /\
    Drift.drifted i = false /\
    Drift.current_rate i = Drift.locked_rate i.
Proof.
  intros Hlock Hrate Hsame Htol. unfold check_drift. run_step. rewrite Hlock.
  rewrite run_bind.
  destruct (run (get_live_rate _ _) w) as [r w1]. cbn [fst] in Hsame. subst r.
  cbv beta iota.
  destruct (drift_of_unchanged_rate _ Hrate) as (q & -> & Hq).
  rewrite run_ret. eexists _, _. split; [reflexivity|]. cbn [Drift.drifted
    Drift.current_rate Drift.locked_rate]. split; [|reflexivity].
  destruct Hq as [->| ->]; [exact Htol|apply fltb_nan].
Qed.
(** X7. While the oracle answers the locked rate itself, check_drift
    reports a lock whose max_drift_pct is not negative as not drifted,
    whether that rate is finite or not. *)
Theorem unchanged_rate_is_no_drift (w : World) (lock_id : string) (lock : RateLock.t) :
  rate_lock_store w !! lock_id = Some lock ->
  float_truthy (RateLock.rate lock) = true ->
  (run (get_live_rate (RateLock.source_currency lock) (RateLock.target_currency lock)) w).1
    = RateLock.rate lock ->
  fltb (RateLock.max_drift_pct lock) (S754_zero false) = false ->
  exists i w',
    run (check_drift lock_id) w = (inr (Drift.Info i), w') /\
    Drift.drifted i = false /\
    Drift.current_rate i = Drift.locked_rate i.
Proof. exact (check_drift_unchanged w lock_id lock). Qed.
End NoDrift.

(** ** Pools: cancellation, counters, outcomes *)

Lemma add_refunds_cons x ids p :
  add_refunds ids
    (PoolResponse.set_refund_ids (Some (default [] (PoolResponse.refund_ids p) ++ [x])) p)
  = add_refunds (x :: ids) p.
Proof.
  destruct ids as [|y ids]; [reflexivity|]. destruct p. cbn. by rewrite <- app_assoc.
Qed.

Lemma lookup_alter_proj {A B} (g : A -> B) (f : A -> A) (db : gmap string A) i j :
  (forall p, g (f p) = g p) ->
  g <$> alter f i db !! j = g <$> db !! j.
Proof.
  intros Hf. destruct (decide (i = j)) as [->|Hne].
  - rewrite lookup_alter_eq. destruct (db !! j) as [p|]; [|done]. simpl. by rewrite Hf.
  - by rewrite lookup_alter_ne.
Qed.

Section PoolPaths.
Context `{CM : CaseMapping} `{ES : ExternalServices}.

Lemma refund_contributions_spec pool_id pool cs (w : World) :
  exists ids e,
    length ids = length cs /\
    run (refund_contributions pool_id pool cs) w =
      (tt, set_ext e
             (set_ledger_requests (ledger_requests w ++ map (pool_refund_request pool) cs)
                (set_fake_pool_db (alter (add_refunds ids) pool_id (fake_pool_db w)) w))).
Proof.
  revert w. induction cs as [|c rest IH]; intros w.
  - exists [], (ext w). split; [done|]. cbn [refund_contributions map]. rewrite run_ret.
    rewrite app_nil_r, alter_id by done. by destruct w.
  - cbn [refund_contributions]. unfold update_pool. run_step.
    assert (Hgo : forall x e0, exists ids e1,
      length ids = length (c :: rest) /\
      run (refund_contributions pool_id pool rest)
        (set_fake_pool_db
           (alter (fun p => PoolResponse.set_refund_ids
                     (Some (default [] (PoolResponse.refund_ids p) ++ [x])) p)
              pool_id (fake_pool_db w))
           (set_ext e0 (set_ledger_requests
              (ledger_requests w ++ [pool_refund_request pool c]) w))) =
      (tt, set_ext e1
             (set_ledger_requests
                (ledger_requests w ++ map (pool_refund_request pool) (c :: rest))
                (set_fake_pool_db (alter (add_refunds ids) pool_id (fake_pool_db w)) w)))).
    { intros x e0.
      match goal with |- context [run _ ?w0] => destruct (IH w0) as (ids & e1 & Hlen & ->) end.
      exists (x :: ids), e1. split; [cbn; by rewrite Hlen|]. world_simpl.
      rewrite alter_alter_eq, <- app_assoc. cbn [map app].
      rewrite (alter_ext _ (add_refunds (x :: ids)));
        [reflexivity|intros p _; apply add_refunds_cons]. }
    destruct sent as [refund_txn|].
    + run_step. apply Hgo.
    + rewrite run_bind.
      match goal with |- context [run (bind uuid4 ?k) ?w0] =>
        rewrite (run_bind uuid4 k w0); destruct (ext_only_uuid4 w0) as (hex & e' & ->) end.
      cbv beta iota. rewrite run_modify. cbv beta iota. world_simpl. apply Hgo.
Qed.

(** X8. Cancelling a collecting pool sends exactly one reverse transfer
    per recorded contribution, in order, from the organizer to the
    contributor for the contribution's amount, and records one refund id
    per contribution; the contributions and collected_amount stay as
    they were, and a second cancel is refused with InvalidStateError. *)
Theorem cancel_pool_refunds_every_contribution (w : World) pool_id pool contributions :
  fake_pool_db w !! pool_id = Some pool ->
  PoolResponse.status pool = "collecting" ->
  fake_contributions_db w !! pool_id = Some contributions ->
  exists ids w',
    let cancelled := PoolResponse.set_refund_ids (Some ids)
                       (PoolResponse.set_status "cancelled" pool) in
    run (cancel_pool pool_id) w = (inr cancelled, w') /\
    length ids = length contributions /\
    fake_pool_db w' = <[pool_id := cancelled]> (fake_pool_db w) /\
    ledger_requests w' = ledger_requests w ++ map (pool_refund_request pool) contributions /\
    fake_contributions_db w' = fake_contributions_db w /\
    exists exc, run (cancel_pool pool_id) w' = (inl exc, w') /\
                InvalidStateError "cancel" "pool" "cancelled" exc.
Proof.
  intros Hpool Hst Hcs.
  assert (Hrun : exists ids e,
    length ids = length contributions /\
    run (cancel_pool pool_id) w =
      (inr (PoolResponse.set_refund_ids (Some ids) (PoolResponse.set_status "cancelled" pool)),
       set_ext e
         (set_ledger_requests (ledger_requests w ++ map (pool_refund_request pool) contributions)
            (set_fake_pool_db
               (<[pool_id := PoolResponse.set_refund_ids (Some ids)
                               (PoolResponse.set_status "cancelled" pool)]> (fake_pool_db w))
               w)))).
  { unfold cancel_pool, internal_server_error, raise, update_pool, the_pool. run_step.
    rewrite Hpool. goal_decide Hc; [done|]. do 3 run_step. rewrite Hcs. rewrite run_bind.
    match goal with |- context [run (refund_contributions ?a ?b ?c) ?w0] =>
      destruct (refund_contributions_spec a b c w0) as (ids & e & Hlen & ->) end.
    cbv beta iota. repeat run_step. rewrite run_ret. world_simpl.
    exists ids, e0. split; [exact Hlen|].
    rewrite !lookup_alter_eq, Hpool. cbn [fmap option_fmap option_map default from_option].
    assert (Hrec : add_refunds ids
                     (PoolResponse.set_refund_ids (Some [])
                        (PoolResponse.set_status "cancelled" pool))
                   = PoolResponse.set_refund_ids (Some ids)
                       (PoolResponse.set_status "cancelled" pool)).
    { destruct ids; reflexivity. }
    rewrite Hrec.
    replace (alter (add_refunds ids) pool_id
               (alter (PoolResponse.set_refund_ids (Some [])) pool_id
                  (alter (PoolResponse.set_status "cancelled") pool_id (fake_pool_db w))))
      with (<[pool_id := PoolResponse.set_refund_ids (Some ids)
                           (PoolResponse.set_status "cancelled" pool)]> (fake_pool_db w));
      [by destruct w|].
    apply map_eq. intros j. destruct (decide (pool_id = j)) as [<-|Hj].
    - by rewrite !lookup_alter_eq, lookup_insert_eq, Hpool; cbn; rewrite Hrec.
    - by rewrite !lookup_alter_ne, lookup_insert_ne. }
  destruct Hrun as (ids & e & Hlen & Hrun). exists ids. eexists. cbv zeta.
  split; [exact Hrun|]. world_simpl. split; [exact Hlen|]. split; [reflexivity|].
  split; [reflexivity|]. split; [reflexivity|].
  unfold cancel_pool, raise. run_step. rewrite lookup_insert_eq.
  goal_decide Hc; [|by destruct Hc]. rewrite run_ret. eexists. split; reflexivity.
Qed.

Lemma cancel_pool_frame pool_id (w : World) :
  (run (cancel_pool pool_id) w).2 = w \/
  exists pool ids e l,
    fake_pool_db w !! pool_id = Some pool /\ PoolResponse.status pool = "collecting" /\
    (run (cancel_pool pool_id) w).2 =
      set_ext e (set_ledger_requests l
        (set_fake_pool_db
           (alter (fun p => PoolResponse.set_refund_ids (Some ids)
                              (PoolResponse.set_status "cancelled" p))
              pool_id (fake_pool_db w)) w)).
Proof.
  unfold cancel_pool, internal_server_error, raise, update_pool, the_pool. run_step.
  destruct (fake_pool_db w !! pool_id) as [pool|] eqn:Hpool; [|by left].
  goal_decide Hst; [by left|]. right. exists pool.
  assert (Hc : PoolResponse.status pool = "collecting").
  { by destruct (decide (PoolResponse.status pool = "collecting")). }
  do 3 run_step.
  destruct (fake_contributions_db w !! pool_id) as [cs|] eqn:Hcs.
  - rewrite run_bind.
    match goal with |- context [run (refund_contributions ?a ?b ?c) ?w0] =>
      destruct (refund_contributions_spec a b c w0) as (ids & e & Hlen & ->) end.
    cbv beta iota. repeat run_step. rewrite run_ret. world_simpl.
    exists ids, e0. eexists. split; [done|]. split; [done|].
    rewrite !alter_alter_eq.
    rewrite (alter_ext _ (fun p => PoolResponse.set_refund_ids (Some ids)
                                     (PoolResponse.set_status "cancelled" p)));
      [by destruct w|].
    intros p _. cbn. by destruct ids.
  - rewrite run_ret. world_simpl. exists [], (ext w), (ledger_requests w).
    split; [done|]. split; [done|]. rewrite alter_alter_eq. by destruct w.
Qed.

(** A contribute on a pool that exists: what an accepted one records and
    sends, and that a rejected one changes no store. *)
Lemma contribute_to_pool_effect (w : World) pool_id pool request :
  fake_pool_db w !! pool_id = Some pool ->
  match run (contribute_to_pool pool_id request) w with
  | (inr updated, w') =>
      fake_pool_db w' !! pool_id = Some updated /\
      PoolResponse.collected_amount updated
        = PoolResponse.collected_amount pool + pq_amount request /\
      (exists transfer_id,
         fake_contributions_db w' !! pool_id =
           (fun cs => cs ++ [Contribution.mk (pq_payer_account_id request)
                               (pq_amount request) transfer_id])
             <$> fake_contributions_db w !! pool_id) /\
      if decide (PoolResponse.collected_amount updated >= PoolResponse.goal_amount pool) then
        PoolResponse.status updated = "funded" /\
        is_Some (PoolResponse.funded_at updated) /\
        ledger_requests w' = ledger_requests w ++
          [pool_contribution_request pool request; pool_settlement_request updated]
      else
        PoolResponse.status updated = PoolResponse.status pool /\
        ledger_requests w' = ledger_requests w ++ [pool_contribution_request pool request]
  | (inl exc, w') =>
      fake_pool_db w' = fake_pool_db w /\
      fake_contributions_db w' = fake_contributions_db w /\
      (ledger_requests w' = ledger_requests w \/
       exc_status_code exc = 500 /\
       ledger_requests w' = ledger_requests w ++ [pool_contribution_request pool request])
  end.
Proof.
  intros Hpool.
  unfold contribute_to_pool, internal_server_error, raise, update_pool, the_pool.
  run_step. rewrite Hpool.
  goal_decide Hfunded; [rewrite run_ret; auto|].
  run_step. goal_decide Hdead; [rewrite run_ret; auto|].
  run_step. goal_decide Hbal; [rewrite run_ret; auto|].
  run_step. fold (pool_contribution_request pool request).
  destruct sent as [transfer_id|]; [|rewrite run_ret; world_simpl; auto].
  run_step. destruct (fake_contributions_db w !! pool_id) as [cs|] eqn:Hcs;
    [|rewrite run_ret; world_simpl; auto].
  do 5 run_step.
  rewrite !lookup_alter_eq, Hpool. cbn [fmap option_fmap option_map default from_option].
  cbn [PoolResponse.collected_amount PoolResponse.goal_amount
       PoolResponse.set_contributions_count PoolResponse.set_participant_count
       PoolResponse.set_collected_amount].
  goal_decide Hgoal.
  - do 5 run_step.
    rewrite !lookup_alter_eq, Hpool. cbn [fmap option_fmap option_map default from_option].
    cbn [PoolResponse.collected_amount PoolResponse.goal_amount PoolResponse.id
         PoolResponse.organizer_account_id PoolResponse.payee_account_id
         PoolResponse.set_contributions_count PoolResponse.set_participant_count
         PoolResponse.set_collected_amount PoolResponse.set_status PoolResponse.set_funded_at].
    destruct sent as [settle_txn|]; repeat run_step; rewrite run_ret; world_simpl;
      rewrite !lookup_alter_eq, Hpool, lookup_insert_eq;
      cbn [fmap option_fmap option_map default from_option];
      (split; [reflexivity|]); (split; [reflexivity|]);
      (split; [by exists transfer_id|]);
      cbn [PoolResponse.collected_amount PoolResponse.goal_amount
           PoolResponse.set_contributions_count PoolResponse.set_participant_count
           PoolResponse.set_collected_amount PoolResponse.set_status
           PoolResponse.set_funded_at PoolResponse.set_nessie_transfer_ids];
      (destruct (decide _) as [_|Hn]; [|done]);
      (split; [reflexivity|]); (split; [by eexists|]);
      rewrite <- app_assoc; reflexivity.
  - repeat run_step. rewrite run_ret. world_simpl.
    rewrite !lookup_alter_eq, Hpool, lookup_insert_eq.
    cbn [fmap option_fmap option_map default from_option].
    split; [reflexivity|]. split; [reflexivity|]. split; [by exists transfer_id|].
    cbn [PoolResponse.collected_amount PoolResponse.goal_amount
         PoolResponse.set_contributions_count PoolResponse.set_participant_count
         PoolResponse.set_collected_amount].
    destruct (decide _) as [Hy|_]; [done|]. split; reflexivity.
Qed.

(** X9. A contribute on an existing pool is either accepted: the
    contribution is appended, collected_amount grows by its amount and
    the ledger is sent the contribution transfer, followed by one
    settlement transfer of the whole collected amount exactly when the
    goal is reached (the pool is then funded whether or not the
    settlement succeeds); or rejected: then no pool or contribution
    record changes, and a transfer request was sent only in the 500
    case. *)
Theorem contribute_to_pool_outcome (w : World) pool_id pool request :
  fake_pool_db w !! pool_id = Some pool ->
  match run (contribute_to_pool pool_id request) w with
  | (inr updated, w') =>
      fake_pool_db w' !! pool_id = Some updated /\
      PoolResponse.collected_amount updated
        = PoolResponse.collected_amount pool + pq_amount request /\
      (exists transfer_id,
         fake_contributions_db w' !! pool_id =
           (fun cs => cs ++ [Contribution.mk (pq_payer_account_id request)
                               (pq_amount request) transfer_id])
             <$> fake_contributions_db w !! pool_id) /\
      if decide (PoolResponse.collected_amount updated >= PoolResponse.goal_amount pool) then
        PoolResponse.status updated = "funded" /\
        is_Some (PoolResponse.funded_at updated) /\
        ledger_requests w' = ledger_requests w ++
          [pool_contribution_request pool request; pool_settlement_request updated]
      else
        PoolResponse.status updated = PoolResponse.status pool /\
        ledger_requests w' = ledger_requests w ++ [pool_contribution_request pool request]
  | (inl exc, w') =>
      fake_pool_db w' = fake_pool_db w /\
      fake_contributions_db w' = fake_contributions_db w /\
      (ledger_requests w' = ledger_requests w \/
       exc_status_code exc = 500 /\
       ledger_requests w' = ledger_requests w ++ [pool_contribution_request pool request])
  end.
Proof. exact (contribute_to_pool_effect w pool_id pool request). Qed.

Lemma contribute_to_pool_counts pool_id request (w : World) :
  pool_counts_ok w pool_id ->
  pool_counts_ok (run (contribute_to_pool pool_id request) w).2 pool_id.
Proof.
  intros Hok.
  unfold contribute_to_pool, internal_server_error, raise, update_pool, the_pool.
  run_step.
  destruct (fake_pool_db w !! pool_id) as [pool|] eqn:Hpool; [|done].
  destruct (Hok pool Hpool) as (cs & Hcs & Hn & Hd).
  goal_decide Hfunded; [done|].
  run_step. goal_decide Hdead; [rewrite run_ret; exact Hok|].
  run_step. goal_decide Hbal; [rewrite run_ret; exact Hok|].
  run_step. destruct sent as [transfer_id|]; [|rewrite run_ret; exact Hok].
  run_step. rewrite Hcs.
  do 5 run_step.
  rewrite !lookup_alter_eq, Hpool. cbn [fmap option_fmap option_map default from_option].
  set (c := Contribution.mk _ _ _).
  assert (Hfinal : forall (w' : World) p,
    fake_contributions_db w' !! pool_id = Some (cs ++ [c]) ->
    fake_pool_db w' !! pool_id = Some p ->
    PoolResponse.contributions_count p = PoolResponse.contributions_count pool + 1 ->
    PoolResponse.participant_count p = distinct_payers (cs ++ [c]) ->
    pool_counts_ok w' pool_id).
  { intros w' p Hc Hp Hcount Hpart p' Hp'. rewrite Hp in Hp'. injection Hp' as <-.
    exists (cs ++ [c]). split; [done|]. split; [|done].
    rewrite Hcount, Hn, length_app. cbn. lia. }
  goal_decide Hgoal.
  - do 5 run_step.
    destruct sent as [settle_txn|]; repeat run_step; rewrite run_ret; world_simpl;
      (eapply Hfinal; world_simpl;
       [apply lookup_insert_eq
       |rewrite !lookup_alter_eq, Hpool; reflexivity
       |reflexivity|reflexivity]).
  - repeat run_step. rewrite run_ret. world_simpl.
    eapply Hfinal; world_simpl;
      [apply lookup_insert_eq|rewrite !lookup_alter_eq, Hpool; reflexivity
      |reflexivity|reflexivity].
Qed.

Lemma cancel_pool_counts pool_id (w : World) j :
  pool_counts_ok w j -> pool_counts_ok (run (cancel_pool pool_id) w).2 j.
Proof.
  intros Hok. destruct (cancel_pool_frame pool_id w) as [->|(pool & ids & e & l & _ & _ & ->)];
    [exact Hok|].
  intros p'. world_simpl. intros Hp'.
  destruct (decide (pool_id = j)) as [<-|Hj].
  - rewrite lookup_alter_eq in Hp'. destruct (fake_pool_db w !! pool_id) as [p|] eqn:Hp;
      [|discriminate]. injection Hp' as <-. exact (Hok p Hp).
  - rewrite lookup_alter_ne in Hp' by done. exact (Hok p' Hp').
Qed.

Lemma create_pool_counts request (w : World) j :
  pool_counts_ok w j -> pool_counts_ok (run (create_pool request) w).2 j.
Proof.
  intros Hok. unfold create_pool. repeat run_step. rewrite run_ret.
  unfold pool_counts_ok. world_simpl. intros p.
  match goal with |- <[?i := _]> _ !! _ = _ -> _ => destruct (decide (i = j)) as [<-|Hj] end.
  - rewrite !lookup_insert_eq. intros [= <-]. exists []. done.
  - rewrite !lookup_insert_ne by done. apply Hok.
Qed.

Lemma serve_pool_all_counts cmds (w : World) :
  (forall j, pool_counts_ok w j) -> forall j, pool_counts_ok (serve_pool_all cmds w) j.
Proof.
  revert w. induction cmds as [|cmd rest IH]; intros w Hok; [exact Hok|].
  cbn [serve_pool_all foldl]. apply IH. intros j.
  destruct cmd as [request|pool_id request|pool_id]; cbn [serve_pool].
  - by apply create_pool_counts.
  - destruct (decide (j = pool_id)) as [->|Hj]; [by apply contribute_to_pool_counts|].
    destruct (contribute_to_pool_others pool_id request w j Hj) as [H1 H2].
    intros p. rewrite H1, H2. apply Hok.
  - by apply cancel_pool_counts.
Qed.

(** X10. After any sequence of create, contribute and cancel requests on
    a fresh process, every pool's contributions_count is the number of
    its recorded contributions and its participant_count the number of
    distinct payers among them. *)
Theorem pool_counters_track_contributions (e : Ext) (cmds : list PoolCommand)
    (pool_id : string) (pool : PoolResponse.t) :
  fake_pool_db (serve_pool_all cmds (boot e)) !! pool_id = Some pool ->
  exists contributions,
    fake_contributions_db (serve_pool_all cmds (boot e)) !! pool_id = Some contributions /\
    PoolResponse.contributions_count pool = Z.of_nat (length contributions) /\
    PoolResponse.participant_count pool = distinct_payers contributions.
Proof.
  intros Hpool. apply (serve_pool_all_counts cmds (boot e)); [|exact Hpool].
  intros j p Hp. cbn in Hp. by rewrite lookup_empty in Hp.
Qed.

(** X11. A funded pool is final: no sequence of contribute and cancel
    requests, on it or on any other pool, changes its record or its
    recorded contributions. *)
Theorem funded_pool_is_final (w : World) (cmds : list PoolCommand) pool_id pool :
  fake_pool_db w !! pool_id = Some pool ->
  PoolResponse.status pool = "funded" ->
  Forall (fun cmd => is_create cmd = false) cmds ->
  fake_pool_db (serve_pool_all cmds w) !! pool_id = Some pool /\
  fake_contributions_db (serve_pool_all cmds w) !! pool_id
    = fake_contributions_db w !! pool_id.
Proof.
  intros Hpool Hst Hcmds. revert w Hpool. induction Hcmds as [|cmd rest Hcmd _ IH];
    intros w Hpool; [done|].
  cbn [serve_pool_all foldl].
  assert (Hstep : fake_pool_db (run (serve_pool cmd) w).2 !! pool_id = Some pool /\
                  fake_contributions_db (run (serve_pool cmd) w).2 !! pool_id
                    = fake_contributions_db w !! pool_id).
  { destruct cmd as [request|i request|i]; [discriminate|..]; cbn [serve_pool].
    - destruct (decide (pool_id = i)) as [<-|Hi].
      + destruct (contribute_to_pool_funded pool_id request w pool Hpool Hst)
          as (exc & -> & _). done.
      + destruct (contribute_to_pool_others i request w pool_id Hi) as [-> ->]. done.
    - destruct (cancel_pool_frame i w) as [->|(p & ids & e & l & Hp & Hc & ->)]; [done|].
      world_simpl. split; [|done]. rewrite lookup_alter_ne; [done|].
      intros ->. rewrite Hpool in Hp. injection Hp as <-. rewrite Hst in Hc. discriminate. }
  destruct Hstep as [H1 H2]. destruct (IH _ H1) as [IH1 IH2].
  split; [exact IH1|]. by rewrite <- H2.
Qed.
End PoolPaths.

(** ** FX pools: totals *)

Lemma total_usd_app cs c :
  total_usd (cs ++ [c]) = total_usd cs + FXContribution.amount_usd c.
Proof. induction cs as [|x cs IH]; simpl; lia. Qed.

Section FxTotals.
Context `{CM : CaseMapping} `{ES : ExternalServices}.

Lemma refund_fx_contributions_stores pool_id reason pool cs refunds (w : World) :
  fxpool_db (run (refund_fx_contributions pool_id reason pool cs refunds) w).2 = fxpool_db w /\
  fxpool_contributions_db (run (refund_fx_contributions pool_id reason pool cs refunds) w).2
    = fxpool_contributions_db w.
Proof.
  destruct (refund_fx_contributions_spec pool_id reason pool cs refunds w)
    as (new & e & -> & _). done.
Qed.

(** The refund path changes the status of the pool and nothing else of
    the two FX stores. *)
Lemma trigger_fxpool_refund_stores pool_id reason (w : World) :
  fxpool_contributions_db (run (_trigger_fxpool_refund pool_id reason) w).2
    = fxpool_contributions_db w /\
  exists status,
    fxpool_db (run (_trigger_fxpool_refund pool_id reason) w).2
      = alter (FXPool.set_status status) pool_id (fxpool_db w).
Proof.
  unfold _trigger_fxpool_refund, internal_server_error, raise, update_fxpool, the_fxpool.
  run_step. destruct (fxpool_db w !! pool_id) as [pool|] eqn:Hpool.
  2:{ rewrite run_ret. split; [done|]. exists "cancelled". by rewrite alter_id'. }
  do 2 run_step. rewrite run_bind.
  match goal with |- context [run (refund_fx_contributions ?a ?b ?c ?d ?r) ?w0] =>
    destruct (refund_fx_contributions_spec a b c d r w0) as (new & e & -> & Hall) end.
  cbv beta iota. world_simpl. repeat run_step. rewrite run_ret. world_simpl.
  split; [done|]. eexists. reflexivity.
Qed.

(** What a contribute does to the two FX stores: nothing, or it records
    one contribution and updates the pool's totals. *)
Lemma contribute_to_fxpool_stores pool_id request (w : World) :
  (fxpool_db (run (contribute_to_fxpool pool_id request) w).2 = fxpool_db w /\
   fxpool_contributions_db (run (contribute_to_fxpool pool_id request) w).2
     = fxpool_contributions_db w) \/
  exists pool cs c f,
    fxpool_db w !! pool_id = Some pool /\
    fxpool_contributions_db w !! pool_id = Some cs /\
    FXContribution.amount_local c = fq_amount_local request /\
    FXContribution.currency c = lower (fq_currency request) /\
    fxpool_contributions_db (run (contribute_to_fxpool pool_id request) w).2
      = <[pool_id := cs ++ [c]]> (fxpool_contributions_db w) /\
    fxpool_db (run (contribute_to_fxpool pool_id request) w).2
      = alter f pool_id (fxpool_db w) /\
    FXPool.collected_usd (f pool) = FXPool.collected_usd pool + FXContribution.amount_usd c /\
    FXPool.contributions_count (f pool) = FXPool.contributions_count pool + 1 /\
    FXPool.currencies_collected (f pool) =
      (if bool_decide (FXContribution.currency c ∈ FXPool.currencies_collected pool)
       then FXPool.currencies_collected pool
       else FXPool.currencies_collected pool ++ [FXContribution.currency c]).
Proof.
  unfold contribute_to_fxpool, internal_server_error, raise, update_fxpool, the_fxpool.
  run_step. destruct (fxpool_db w !! pool_id) as [pool|] eqn:Hpool; [|by left].
  case_decide as Hst; [by left|].
  run_step. case_decide as Hdead; [by left|].
  rewrite run_bind.
  match goal with |- context [run (get_live_rate ?a ?b) ?w0] =>
    destruct (ext_only_get_live_rate a b w0) as (usd_rate & e1 & ->) end.
  cbv beta iota.
  destruct (py_int_truediv _ 100) as [exc|local_decimal]; [by left|].
  destruct (py_int _) as [exc|amount_usd]; [by left|].
  rewrite run_bind.
  match goal with |- context [run (lock_rate ?a ?b ?c ?d ?f) ?w0] =>
    pose proof (lock_rate_view a b c d f w0) as Hview;
    destruct (run (lock_rate a b c d f) w0) as [locked w1] end.
  cbn [snd] in Hview. injection Hview as Hv1 Hv2 Hv3. world_simpl_in Hv1.
  world_simpl_in Hv2. world_simpl_in Hv3.
  destruct locked as [exc|rate_lock]; [rewrite run_ret; by left|].
  run_step. destruct sent as [txn_id|]; [|rewrite run_ret; by left].
  do 3 run_step. rewrite Hv2.
  destruct (fxpool_contributions_db w !! pool_id) as [cs|] eqn:Hcs;
    [|rewrite run_ret; by left].
  right.
  set (c := FXContribution.mk _ _ _ _ _ _ _ _ _).
  exists pool, cs, c.
  assert (Hfinal : forall (cdb : gmap string (list FXContribution.t))
                          (db : gmap string FXPool.t) g,
    (forall p, FXPool.collected_usd (g p) = FXPool.collected_usd p /\
               FXPool.contributions_count (g p) = FXPool.contributions_count p /\
               FXPool.currencies_collected (g p) = FXPool.currencies_collected p) ->
    cdb = <[pool_id := cs ++ [c]]> (fxpool_contributions_db w) ->
    db =
      alter g pool_id
        (alter (fun p => if bool_decide (lower (fq_currency request)
                                         ∈ FXPool.currencies_collected p) then p
                         else FXPool.set_currencies_collected
                                (FXPool.currencies_collected p
                                 ++ [lower (fq_currency request)]) p) pool_id
           (alter (fun p => FXPool.set_contributions_count
                              (FXPool.contributions_count p + 1) p) pool_id
              (alter (fun p => FXPool.set_collected_usd
                                 (FXPool.collected_usd p + amount_usd) p) pool_id
                 (fxpool_db w)))) ->
    exists f,
      Some pool = Some pool /\
      Some cs = Some cs /\
      FXContribution.amount_local c = fq_amount_local request /\
      FXContribution.currency c = lower (fq_currency request) /\
      cdb = <[pool_id := cs ++ [c]]> (fxpool_contributions_db w) /\
      db = alter f pool_id (fxpool_db w) /\
      FXPool.collected_usd (f pool) = FXPool.collected_usd pool + FXContribution.amount_usd c /\
      FXPool.contributions_count (f pool) = FXPool.contributions_count pool + 1 /\
      FXPool.currencies_collected (f pool) =
        (if bool_decide (FXContribution.currency c ∈ FXPool.currencies_collected pool)
         then FXPool.currencies_collected pool
         else FXPool.currencies_collected pool ++ [FXContribution.currency c])).
  { intros cdb db g Hg Hcs' Hdb. rewrite !alter_alter_eq in Hdb. eexists.
    split; [done|]. split; [done|]. split; [done|]. split; [done|].
    split; [exact Hcs'|]. split; [exact Hdb|]. cbn [compose].
    match goal with |- context [g ?x] => destruct (Hg x) as (-> & -> & ->) end.
    subst c. destruct pool. cbn. destruct (bool_decide _); done. }
  do 7 run_step.
  rewrite !lookup_alter_eq, Hv1, Hpool.
  cbn [fmap option_fmap option_map default from_option].
  match goal with |- context [decide (?a >= ?b)] =>
    destruct (decide (a >= b)) as [Hgoal|Hgoal] end.
  2:{ repeat run_step. rewrite run_ret. world_simpl. rewrite ?Hv1, ?Hv2.
      apply (Hfinal _ _ (fun p => p)); [done|done|]. symmetry; by apply alter_id. }
  run_step. rewrite lookup_insert_eq. cbn [default from_option].
  rewrite run_bind.
  match goal with |- context [run (any_drift ?l) ?w0] =>
    destruct (ext_only_any_drift l w0) as (scanned & e' & ->) end.
  cbv beta iota. destruct scanned as [exc|[|]].
  - rewrite run_ret. world_simpl. rewrite ?Hv1, ?Hv2.
    apply (Hfinal _ _ (fun p => p)); [done|done|]. symmetry; by apply alter_id.
  - match goal with |- context [run (_trigger_fxpool_refund ?a ?b) ?w0] =>
      destruct (trigger_fxpool_refund_stores a b w0) as (Hc & status & Hdb) end.
    rewrite Hc, Hdb. world_simpl. rewrite ?Hv1, ?Hv2.
    apply (Hfinal _ _ (FXPool.set_status status)); [done|done|done].
  - repeat run_step.
    destruct sent as [settle_txn|]; repeat run_step; rewrite run_ret; world_simpl;
      rewrite ?Hv1, ?Hv2;
      match goal with
      | |- context [alter ?g1 _ (alter ?g2 _ (alter ?g3 _ (alter _ _ (alter _ _
                      (alter _ _ (fxpool_db w))))))] =>
          apply (Hfinal _ _ (g1 ∘ g2 ∘ g3)); [done|done|by rewrite !alter_alter_eq]
      end.
Qed.

Lemma fxpool_ok_status (w w' : World) pool_id status j :
  fxpool_contributions_db w' = fxpool_contributions_db w ->
  fxpool_db w' = alter (FXPool.set_status status) pool_id (fxpool_db w) ->
  fxpool_ok w j -> fxpool_ok w' j.
Proof.
  intros Hc Hdb Hok p'. rewrite Hc, Hdb. destruct (decide (pool_id = j)) as [<-|Hj].
  - rewrite lookup_alter_eq. destruct (fxpool_db w !! pool_id) as [p|] eqn:Hp; [|discriminate].
    intros [= <-]. exact (Hok p Hp).
  - rewrite lookup_alter_ne by done. apply Hok.
Qed.

Lemma serve_fx_ok (cmd : FXCommand) (w : World) :
  (forall j, fxpool_ok w j) -> forall j, fxpool_ok (serve_fx cmd w) j.
Proof.
  intros Hok j. destruct cmd as [request|pool_id request|pool_id|pool_id]; cbn [serve_fx].
  - unfold create_fxpool. repeat run_step. rewrite run_ret.
    unfold fxpool_ok. world_simpl. intros p.
    match goal with |- <[?i := _]> _ !! _ = _ -> _ => destruct (decide (i = j)) as [<-|Hj] end.
    + rewrite !lookup_insert_eq. intros [= <-]. exists []. cbn.
      split; [done|]. split; [done|]. split; [done|]. split; [constructor|]. done.
    + rewrite !lookup_insert_ne by done. apply Hok.
  - destruct (contribute_to_fxpool_stores pool_id request w)
      as [[Hdb Hc]|(pool & cs & c & f & Hpool & Hcs & _ & Hcur & Hc & Hdb & Hf1 & Hf2 & Hf3)].
    { intros p. rewrite Hdb, Hc. apply Hok. }
    intros p'. rewrite Hdb, Hc. destruct (decide (pool_id = j)) as [<-|Hj].
    2:{ rewrite lookup_alter_ne, lookup_insert_ne by done. apply Hok. }
    rewrite lookup_alter_eq, lookup_insert_eq, Hpool. intros [= <-].
    destruct (Hok pool_id pool Hpool) as (cs' & Hcs' & Hsum & Hcount & Hnodup & Hmem).
    rewrite Hcs in Hcs'. injection Hcs' as <-.
    exists (cs ++ [c]). split; [done|].
    split; [rewrite Hf1, total_usd_app, Hsum; done|].
    split; [rewrite Hf2, Hcount, length_app; cbn; lia|].
    rewrite Hf3. case_bool_decide as Hin.
    + split; [done|]. intros x. rewrite fmap_app, elem_of_app, <- Hmem. cbn.
      rewrite list_elem_of_singleton. split; [auto|]. intros [H| ->]; done.
    + split.
      * apply NoDup_app. split; [done|]. split; [|apply NoDup_singleton].
        intros x Hx Hx'. apply list_elem_of_singleton in Hx'. by subst x.
      * intros x. rewrite fmap_app, !elem_of_app, <- Hmem. cbn.
        by rewrite !list_elem_of_singleton.
  - unfold cancel_fxpool, raise. run_step.
    destruct (fxpool_db w !! pool_id) as [pool|]; [|rewrite run_ret; apply Hok].
    destruct (trigger_fxpool_refund_stores pool_id "organizer_cancelled" w)
      as (Hc & status & Hdb).
    by eapply fxpool_ok_status.
  - unfold simulate_rate_drift, raise. run_step.
    destruct (fxpool_db w !! pool_id) as [pool|]; [|rewrite run_ret; apply Hok].
    destruct (trigger_fxpool_refund_stores pool_id "rate_drift_simulated" w)
      as (Hc & status & Hdb).
    by eapply fxpool_ok_status.
Qed.

Lemma serve_fx_all_ok (cmds : list FXCommand) (w : World) :
  (forall j, fxpool_ok w j) -> forall j, fxpool_ok (serve_fx_all cmds w) j.
Proof.
  revert w. induction cmds as [|cmd rest IH]; intros w Hw; [exact Hw|].
  cbn [serve_fx_all foldl]. apply IH. by apply serve_fx_ok.
Qed.

(** X12. After any sequence of create, contribute, cancel and force-
    drift requests on a fresh process, every FX pool's collected_usd is
    the sum of the amount_usd of its recorded contributions, its
    contributions_count is their number, and currencies_collected lists
    each contributed currency exactly once; a refund resets none of
    them. *)
Theorem fxpool_totals_track_contributions (e : Ext) (cmds : list FXCommand)
    (pool_id : string) (pool : FXPool.t) :
  fxpool_db (serve_fx_all cmds (boot e)) !! pool_id = Some pool ->
  exists contributions,
    fxpool_contributions_db (serve_fx_all cmds (boot e)) !! pool_id = Some contributions /\
    FXPool.collected_usd pool = total_usd contributions /\
    FXPool.contributions_count pool = Z.of_nat (length contributions) /\
    NoDup (FXPool.currencies_collected pool) /\
    forall currency, currency ∈ FXPool.currencies_collected pool <->
                     currency ∈ (FXContribution.currency <$> contributions).
Proof.
  apply (serve_fx_all_ok cmds (boot e)).
  intros j p Hp. cbn in Hp. by rewrite lookup_empty in Hp.
Qed.
End FxTotals.

(** ** FX pools: an accepted contribution *)

Section FxOutcome.
Context `{CM : CaseMapping} `{ES : ExternalServices}.

(** What a contribute that returns the pool and the contribution has
    recorded and sent. *)
Lemma contribute_to_fxpool_effect (w : World) pool_id pool request :
  fxpool_db w !! pool_id = Some pool ->
  match run (contribute_to_fxpool pool_id request) w with
  | (inr (SnapFXPoolContribution updated c), w') =>
      FXPool.status pool = "collecting" /\
      FXContribution.payer_account_id c = fq_payer_account_id request /\
      FXContribution.amount_local c = fq_amount_local request /\
      FXContribution.currency c = lower (fq_currency request) /\
      (exists local_decimal,
         py_int_truediv (fq_amount_local request) 100 = inr local_decimal /\
         py_int (fmul (fmul local_decimal (FXContribution.usd_rate c)) f_100)
           = inr (FXContribution.amount_usd c)) /\
      (exists cs, fxpool_contributions_db w !! pool_id = Some cs /\
                  fxpool_contributions_db w' !! pool_id = Some (cs ++ [c])) /\
      fxpool_db w' !! pool_id = Some updated /\
      FXPool.collected_usd updated = FXPool.collected_usd pool + FXContribution.amount_usd c /\
      if decide (FXPool.collected_usd updated >= FXPool.goal_amount_usd pool) then
        FXPool.status updated = "funded" /\
        is_Some (FXPool.nessie_settlement_id updated) /\
        ledger_requests w' = ledger_requests w ++
          [fx_contribution_request pool_id pool request;
           fx_settlement_request pool_id updated]
      else
        FXPool.status updated = "collecting" /\
        ledger_requests w' = ledger_requests w
                             ++ [fx_contribution_request pool_id pool request]
  | _ => True
  end.
Proof.
  intros Hpool.
  unfold contribute_to_fxpool, internal_server_error, raise, update_fxpool, the_fxpool.
  run_step. rewrite Hpool.
  goal_decide Hst; [by rewrite run_ret|].
  assert (Hcollecting : FXPool.status pool = "collecting").
  { by destruct (decide (FXPool.status pool = "collecting")). }
  run_step. goal_decide Hdead; [by rewrite run_ret|].
  rewrite run_bind.
  match goal with |- context [run (get_live_rate ?a ?b) ?w0] =>
    destruct (ext_only_get_live_rate a b w0) as (usd_rate & e1 & ->) end.
  cbv beta iota.
  destruct (py_int_truediv _ 100) as [exc|local_decimal] eqn:Hdec; [by rewrite run_ret|].
  destruct (py_int _) as [exc|amount_usd] eqn:Husd; [by rewrite run_ret|].
  rewrite run_bind.
  match goal with |- context [run (lock_rate ?a ?b ?c ?d ?f) ?w0] =>
    pose proof (lock_rate_view a b c d f w0) as Hview;
    destruct (run (lock_rate a b c d f) w0) as [locked w1] end.
  cbn [snd] in Hview. injection Hview as Hv1 Hv2 Hv3. world_simpl_in Hv1.
  world_simpl_in Hv2. world_simpl_in Hv3.
  destruct locked as [exc|rate_lock]; [by rewrite run_ret|].
  run_step. fold (fx_contribution_request pool_id pool request).
  destruct sent as [txn_id|]; [|by rewrite run_ret].
  do 3 run_step. rewrite Hv2.
  destruct (fxpool_contributions_db w !! pool_id) as [cs|] eqn:Hcs; [|by rewrite run_ret].
  do 7 run_step. rewrite !lookup_alter_eq, Hv1, Hpool.
  cbn [fmap option_fmap option_map default from_option].
  set (c := FXContribution.mk _ _ _ _ _ _ _ _ _).
  set (recorded := if bool_decide _ then _ else _).
  assert (Hrec : FXPool.collected_usd recorded = FXPool.collected_usd pool + amount_usd /\
                 FXPool.goal_amount_usd recorded = FXPool.goal_amount_usd pool /\
                 FXPool.status recorded = "collecting" /\
                 FXPool.organizer_account_id recorded = FXPool.organizer_account_id pool /\
                 FXPool.payee_account_id recorded = FXPool.payee_account_id pool).
  { subst recorded. destruct (bool_decide _); cbn; done. }
  destruct Hrec as (Hcol & Hgoal_eq & Hstatus & Horg & Hpayee).
  match goal with |- context [decide (?a >= ?b)] =>
    destruct (decide (a >= b)) as [Hgoal|Hgoal] end.
  2:{ repeat run_step. rewrite run_ret. world_simpl.
      rewrite !lookup_alter_eq, ?Hv1, Hpool, lookup_insert_eq, Hv3.
      cbn [fmap option_fmap option_map default from_option]. fold recorded.
      split; [done|]. split; [done|]. split; [done|]. split; [done|].
      split; [exists local_decimal; by split|].
      split; [by exists cs|]. split; [done|]. split; [exact Hcol|].
      rewrite <- Hgoal_eq. destruct (decide _) as [Hy|_]; [done|]. by split. }
  run_step. rewrite lookup_insert_eq. cbn [default from_option].
  rewrite run_bind.
  match goal with |- context [run (any_drift ?l) ?w0] =>
    destruct (ext_only_any_drift l w0) as (scanned & e' & ->) end.
  cbv beta iota. destruct scanned as [exc|[|]]; [by rewrite run_ret| |].
  { match goal with |- context [run (_trigger_fxpool_refund ?a ?b) ?w0] =>
      edestruct (trigger_fxpool_refund_spec w0 a b) as (pool' & refunds & w' & -> & _) end;
      [|done].
    world_simpl. rewrite !lookup_alter_eq, ?Hv1, Hpool. reflexivity. }
  run_step. rewrite !lookup_alter_eq, ?Hv1, Hpool.
  cbn [fmap option_fmap option_map default from_option]. fold recorded.
  run_step. unfold id. rewrite Horg, Hpayee, Hcol.
  assert (Hfinal : forall settle_txn t1,
    let updated := FXPool.set_nessie_settlement_id (Some settle_txn)
                     (FXPool.set_funded_at (Some t1) (FXPool.set_status "funded" recorded)) in
    FXPool.collected_usd updated = FXPool.collected_usd pool + FXContribution.amount_usd c /\
    (if decide (FXPool.collected_usd updated >= FXPool.goal_amount_usd pool) then
       FXPool.status updated = "funded" /\
       is_Some (FXPool.nessie_settlement_id updated) /\
       ledger_requests w ++
         [fx_contribution_request pool_id pool request;
          transfer_request (FXPool.organizer_account_id pool) (FXPool.payee_account_id pool)
            (FXPool.collected_usd pool + amount_usd)
            ("FlowBridge FX Pool " +:+ pool_id +:+ " settlement")]
       = ledger_requests w ++
         [fx_contribution_request pool_id pool request;
          fx_settlement_request pool_id updated]
     else
       FXPool.status updated = "collecting" /\
       ledger_requests w ++
         [fx_contribution_request pool_id pool request;
          transfer_request (FXPool.organizer_account_id pool) (FXPool.payee_account_id pool)
            (FXPool.collected_usd pool + amount_usd)
            ("FlowBridge FX Pool " +:+ pool_id +:+ " settlement")]
       = ledger_requests w ++ [fx_contribution_request pool_id pool request])).
  { intros settle_txn t1 updated. subst updated.
    cbn [FXPool.collected_usd FXPool.set_nessie_settlement_id FXPool.set_funded_at
         FXPool.set_status FXPool.status FXPool.nessie_settlement_id].
    split; [exact Hcol|]. rewrite <- Hgoal_eq.
    destruct (decide _) as [_|Hn]; [|done].
    split; [done|]. split; [by eexists|].
    unfold fx_settlement_request.
    cbn [FXPool.collected_usd FXPool.organizer_account_id FXPool.payee_account_id
         FXPool.set_nessie_settlement_id FXPool.set_funded_at FXPool.set_status].
    by rewrite Horg, Hpayee, Hcol. }
  destruct sent as [settle_txn|]; repeat run_step; rewrite run_ret; world_simpl;
    rewrite !lookup_alter_eq, ?Hv1, Hpool, lookup_insert_eq, Hv3, <- app_assoc;
    cbn [fmap option_fmap option_map default from_option app]; fold recorded;
    (split; [done|]); (split; [done|]); (split; [done|]); (split; [done|]);
    (split; [exists local_decimal; by split|]);
    (split; [by exists cs|]); (split; [done|]); apply Hfinal.
Qed.

(** X13. A contribute that returns the FX pool and the contribution was
    made on a collecting pool: the contribution carries the request's
    payer and amount_local, the request's currency as str.lower() gives
    it (for an ASCII currency: with its letters A-Z lower-cased), and an
    amount_usd of int(amount_local / 100 * usd_rate * 100); it is
    appended to the recorded contributions, collected_usd grows by
    amount_usd, and the ledger is sent the contribution transfer of
    amount_local, followed exactly when the goal is reached by one
    settlement transfer of the whole collected_usd (the pool is then
    funded with a settlement id, whether or not that transfer
    succeeded). *)
Theorem contribute_to_fxpool_outcome (w : World) pool_id pool request :
  fxpool_db w !! pool_id = Some pool ->
  match run (contribute_to_fxpool pool_id request) w with
  | (inr (SnapFXPoolContribution updated c), w') =>
      FXPool.status pool = "collecting" /\
      FXContribution.payer_account_id c = fq_payer_account_id request /\
      FXContribution.amount_local c = fq_amount_local request /\
      FXContribution.currency c = lower (fq_currency request) /\
      (isascii (fq_currency request) = true ->
       FXContribution.currency c = bytes_lower (fq_currency request)) /\
      (exists local_decimal,
         py_int_truediv (fq_amount_local request) 100 = inr local_decimal /\
         py_int (fmul (fmul local_decimal (FXContribution.usd_rate c)) f_100)
           = inr (FXContribution.amount_usd c)) /\
      (exists cs, fxpool_contributions_db w !! pool_id = Some cs /\
                  fxpool_contributions_db w' !! pool_id = Some (cs ++ [c])) /\
      fxpool_db w' !! pool_id = Some updated /\
      FXPool.collected_usd updated = FXPool.collected_usd pool + FXContribution.amount_usd c /\
      if decide (FXPool.collected_usd updated >= FXPool.goal_amount_usd pool) then
        FXPool.status updated = "funded" /\
        is_Some (FXPool.nessie_settlement_id updated) /\
        ledger_requests w' = ledger_requests w ++
          [fx_contribution_request pool_id pool request;
           fx_settlement_request pool_id updated]
      else
        FXPool.status updated = "collecting" /\
        ledger_requests w' = ledger_requests w
                             ++ [fx_contribution_request pool_id pool request]
  | _ => True
  end.
Proof.
  intros Hpool. pose proof (contribute_to_fxpool_effect w pool_id pool request Hpool) as Hout.
  destruct (run (contribute_to_fxpool pool_id request) w) as [[exc|snapshot] w']; [done|].
  destruct snapshot as [| | |updated c|]; try done.
  destruct Hout as (Hst & Hpayer & Hlocal & Hcur & Hrest).
  repeat (split; [assumption|]).
  split; [|exact Hrest]. intros Hascii. by rewrite Hcur, lower_isascii.
Qed.
End FxOutcome.

(** ** Webhook delivery *)

Section WebhookProofs.
Context `{CM : CaseMapping} `{BS : BridgeSubscribers}.

Lemma run_post_to_hooks hooks payload (w : World) :
  run (post_to_hooks hooks payload) w =
    (tt, set_ext (foldl (fun e hook => webhook_post (hook_url hook) payload e) (ext w)
                    (List.filter (subscribed (evt_type payload)) hooks)) w).
Proof.
  revert w. induction hooks as [|hook rest IH]; intros w.
  - cbn. by destruct w.
  - cbn [post_to_hooks List.filter]. rewrite run_bind. unfold subscribed at 1.
    destruct (_ || _); cbn [await_io run]; cbv beta iota; rewrite IH; world_simpl;
      [cbn [foldl]|]; by destruct w.
Qed.

(** An event is posted once to every hook subscribed to its type or to
    "*", in registration order, and to no other; no store changes. *)
Lemma run_dispatch_event (event_type : string) (data : Snapshot)
    (w : World) :
  let payload := {| evt_id := "evt_" +:+ prefix 8 (uuid4_hex (ext w)).1;
                    evt_type := event_type; evt_data := data |} in
  run (dispatch_event event_type data) w =
    (tt, set_ext (foldl (fun e hook => webhook_post (hook_url hook) payload e)
                    (uuid4_hex (ext w)).2
                    (List.filter (subscribed event_type) (registered_webhooks w))) w).
Proof.
  unfold dispatch_event. rewrite run_bind. unfold uuid4 at 1. cbn [run]. unfold ext_call.
  destruct (uuid4_hex (ext w)) as [hex e1]. cbv beta iota. cbn [fst snd].
  run_step. rewrite run_post_to_hooks. world_simpl. cbn [evt_type]. by destruct w.
Qed.

(** X14. dispatch_event posts the event exactly once to every registered
    hook subscribed to its type or to "*", in registration order, and to
    no other hook; it changes no store of the process. *)
Theorem dispatch_event_reaches_subscribers (event_type : string) (data : Snapshot)
    (w : World) :
  let payload := {| evt_id := "evt_" +:+ prefix 8 (uuid4_hex (ext w)).1;
                    evt_type := event_type; evt_data := data |} in
  run (dispatch_event event_type data) w =
    (tt, set_ext (foldl (fun e hook => webhook_post (hook_url hook) payload e)
                    (uuid4_hex (ext w)).2
                    (List.filter (subscribed event_type) (registered_webhooks w))) w).
Proof. exact (run_dispatch_event event_type data w). Qed.

Lemma run_register_webhook (request : WebhookRegistration) (w : World) :
  run (register_webhook request) w =
    let hook := {| hook_id := "webhook_" +:+ prefix 8 (uuid4_hex (ext w)).1;
                   hook_url := wr_url request;
                   hook_events := wr_events request |} in
    (hook, set_registered_webhooks (registered_webhooks w ++ [hook])
             (set_ext (uuid4_hex (ext w)).2 w)).
Proof.
  unfold register_webhook. rewrite run_bind. unfold uuid4 at 1. cbn [run]. unfold ext_call.
  destruct (uuid4_hex (ext w)) as [hex e1]. cbv beta iota.
  run_step. by rewrite run_ret.
Qed.

(** X15. Every registration appends a hook (a URL registered twice is
    kept twice), and a later event goes first to the earlier subscribers
    and then to the new hook exactly when its events list holds "*" or
    the event's type. *)
Theorem registered_hook_receives_events (request : WebhookRegistration)
    (event_type : string) (data : Snapshot) (w : World) :
  let w1 := (run (register_webhook request) w).2 in
  let hook := (run (register_webhook request) w).1 in
  let payload := {| evt_id := "evt_" +:+ prefix 8 (uuid4_hex (ext w1)).1;
                    evt_type := event_type; evt_data := data |} in
  let earlier := foldl (fun e hook => webhook_post (hook_url hook) payload e)
                   (uuid4_hex (ext w1)).2
                   (List.filter (subscribed event_type) (registered_webhooks w)) in
  registered_webhooks w1 = registered_webhooks w ++ [hook] /\
  hook_url hook = wr_url request /\
  ext (run (dispatch_event event_type data) w1).2 =
    if bool_decide ("*" ∈ wr_events request) || bool_decide (event_type ∈ wr_events request)
    then webhook_post (wr_url request) payload earlier
    else earlier.
Proof.
  cbv zeta. rewrite run_dispatch_event, run_register_webhook.
  cbv zeta. world_simpl. cbn [hook_url].
  split; [reflexivity|]. split; [reflexivity|].
  rewrite List.filter_app, foldl_app. cbn [List.filter]. unfold subscribed at 2.
  cbn [hook_events]. destruct (_ || _); reflexivity.
Qed.
End WebhookProofs.

(** ** FX pools: refused contributions *)

Section FxPoolGuards.
Context `{CM : CaseMapping} `{ES : ExternalServices}.

(** X16. An FX pool takes contributions only while its status is
    collecting and before its deadline: otherwise the contribute is
    refused (InvalidStateError, or 422 fxpool_expired) before any rate
    is fetched or locked and before any transfer, leaving every store as
    it was. *)
Theorem contribute_to_fxpool_refused (w : World) pool_id pool request :
  fxpool_db w !! pool_id = Some pool ->
  (FXPool.status pool <> "collecting" ->
   exists exc, run (contribute_to_fxpool pool_id request) w = (inl exc, w) /\
     InvalidStateError "contribute to" "fxpool" (FXPool.status pool) exc) /\
  (FXPool.status pool = "collecting" ->
   (datetime_now (ext w)).1 > FXPool.deadline pool ->
   run (contribute_to_fxpool pool_id request) w =
     (inl {| exc_status_code := 422;
             exc_detail := DetailError None "fxpool_expired" [] |},
      set_ext (datetime_now (ext w)).2 w)).
Proof.
  intros Hpool. split.
  - intros Hst. unfold contribute_to_fxpool, raise. run_step. rewrite Hpool.
    goal_decide Hc; [|done]. rewrite run_ret. eexists. split; reflexivity.
  - intros Hst Hlate. unfold contribute_to_fxpool, raise. run_step. rewrite Hpool.
    goal_decide Hc; [done|]. rewrite run_bind. unfold now at 1. cbn [run]. unfold ext_call.
    destruct (datetime_now (ext w)) as [t e1]. cbn [fst snd] in *. cbv beta iota.
    goal_decide Hd; [|done]. by rewrite run_ret.
Qed.
End FxPoolGuards.

(** ** The replay cache *)

Section CachePermanence.
Context `{CM : CaseMapping} `{ES : ExternalServices}.

(** X17. A cached idempotent answer is never replaced or dropped:
    whatever request the middleware serves next, with a handler that
    leaves the cache alone, the entry of a (key, path) pair is still the
    one first stored. *)
Theorem idempotency_entries_are_permanent (call_next : Request -> Async World Response)
    (request : Request) (w : World) (cache_key : string * string) (cached : Cached) :
  (forall r v, _idempotency_store (run (call_next r) v).2 = _idempotency_store v) ->
  _idempotency_store w !! cache_key = Some cached ->
  _idempotency_store (run (dispatch call_next request) w).2 !! cache_key = Some cached.
Proof.
  intros Hkeep Hhit. unfold dispatch.
  goal_decide Hm; [by rewrite Hkeep|].
  destruct (py_or _ _) as [[|c k]|]; try by rewrite Hkeep.
  run_step. destruct (_idempotency_store w !! (String c k, path request)) as [hit|] eqn:Hk.
  - by rewrite run_ret.
  - rewrite run_bind. specialize (Hkeep request w).
    destruct (run (call_next request) w) as [response w1]. cbn [snd] in Hkeep.
    cbv beta iota. goal_decide Hs.
    + run_step. rewrite run_ret. world_simpl. rewrite lookup_insert_ne, Hkeep; [done|].
      intros <-. congruence.
    + rewrite run_ret. cbn [snd]. by rewrite Hkeep.
Qed.
End CachePermanence.

(** ** Insertion-ordered dicts *)

Lemma dict_get_set {V} (k j : string) (v : V) (d : PyDict V) :
  dict_get j (dict_set k v d) = if decide (k = j) then Some v else dict_get j d.
Proof.
  induction d as [|[k' v'] rest IH]; cbn [dict_set dict_get].
  - destruct (decide (k = j)); reflexivity.
  - destruct (decide (k' = k)) as [->|Hk]; cbn [dict_get].
    + destruct (decide (k = j)); reflexivity.
    + rewrite IH. destruct (decide (k' = j)) as [->|Hj]; [|reflexivity].
      destruct (decide (k = j)); [congruence|reflexivity].
Qed.

Lemma dict_get_alter {V} (f : V -> V) (k j : string) (d : PyDict V) :
  dict_get j (dict_alter f k d) = if decide (k = j) then f <$> dict_get j d else dict_get j d.
Proof.
  induction d as [|[k' v'] rest IH]; cbn [dict_alter dict_get].
  - destruct (decide (k = j)); reflexivity.
  - destruct (decide (k' = k)) as [->|Hk]; cbn [dict_get].
    + destruct (decide (k = j)); reflexivity.
    + rewrite IH. destruct (decide (k' = j)) as [->|Hj]; [|reflexivity].
      destruct (decide (k = j)); [congruence|reflexivity].
Qed.

Lemma dict_get_values {V} (P : V -> Prop) (k : string) (v : V) (d : PyDict V) :
  Forall P (dict_values d) -> dict_get k d = Some v -> P v.
Proof.
  unfold dict_values. induction d as [|[k' v'] rest IH]; cbn; [discriminate|].
  intros Hall. apply Forall_cons in Hall as [Hv Hrest].
  destruct (decide (k' = k)); [by intros [= <-]|]. by apply IH.
Qed.

Lemma dict_set_values {V} (P : V -> Prop) (k : string) (v : V) (d : PyDict V) :
  P v -> Forall P (dict_values d) -> Forall P (dict_values (dict_set k v d)).
Proof.
  unfold dict_values. intros Hv. induction d as [|[k' v'] rest IH]; cbn.
  - intros _. by repeat constructor.
  - intros Hall. apply Forall_cons in Hall as [Hv' Hrest].
    destruct (decide (k' = k)); cbn; constructor; auto.
Qed.

Lemma dict_alter_values {V} (P : V -> Prop) (f : V -> V) (k : string) (d : PyDict V) :
  (forall v, dict_get k d = Some v -> P v -> P (f v)) ->
  Forall P (dict_values d) -> Forall P (dict_values (dict_alter f k d)).
Proof.
  unfold dict_values. induction d as [|[k' v'] rest IH]; cbn; [done|].
  intros Hf Hall. apply Forall_cons in Hall as [Hv' Hrest].
  destruct (decide (k' = k)); cbn; constructor; auto.
Qed.

Lemma dict_alter_length {V} (f : V -> V) (k : string) (d : PyDict V) :
  length (dict_alter f k d) = length d.
Proof.
  induction d as [|[k' v'] rest IH]; cbn; [done|]. destruct (decide (k' = k)); cbn; congruence.
Qed.

(** ** Running the coroutines of one module from another *)

Ltac app_simpl :=
  cbn [world corridor_db recurring_db set_world set_corridor_db set_recurring_db fst snd].

Section Lift.
Context `{CM : CaseMapping} `{BS : BridgeSubscribers}.

Lemma run_lift {A} (m : Async World A) (s : App) :
  run (lift m) s = ((run m (world s)).1, set_world (run m (world s)).2 s).
Proof.
  revert s. induction m as [r|B act k IH|k IH]; intros s; cbn [lift run].
  - by destruct s.
  - destruct (act (world s)) as [a w]. rewrite IH. reflexivity.
  - apply IH.
Qed.

Lemma ext_only_post_to_hooks' hooks payload : ext_only (post_to_hooks' hooks payload).
Proof.
  induction hooks as [|hook rest IH]; [apply ext_only_ret|].
  cbn [post_to_hooks']. apply ext_only_bind; [|intros _; exact IH].
  destruct (_ || _); [|apply ext_only_ret].
  intros w. exists tt, (webhook_post' (hook_url hook) payload (ext w)). reflexivity.
Qed.

Lemma ext_only_dispatch_event' event_type data : ext_only (dispatch_event' event_type data).
Proof.
  unfold dispatch_event'. apply ext_only_bind; [apply ext_only_uuid4|]. intros hex.
  apply ext_only_bind; [apply ext_only_gets|]. intros hooks. apply ext_only_post_to_hooks'.
Qed.

Lemma run_lift_ext_only {A} (m : Async World A) (s : App) :
  ext_only m ->
  exists a e, run (lift m) s = (a, set_world (set_ext e (world s)) s).
Proof.
  intros Hm. destruct (Hm (world s)) as (a & e & Hrun). exists a, e.
  by rewrite run_lift, Hrun.
Qed.

Lemma run_lift_transfer payer payee amount description (s : App) :
  exists r e, run (lift (transfer payer payee amount description)) s =
    (r, set_world
          (set_ext e (set_ledger_requests
             (ledger_requests (world s)
              ++ [transfer_request payer payee amount description]) (world s))) s).
Proof.
  destruct (run_transfer payer payee amount description (world s)) as (r & e & Hrun).
  exists r, e. by rewrite run_lift, Hrun.
Qed.

Lemma run_lift_now (s : App) :
  run (lift now) s =
    ((datetime_now (ext (world s))).1,
     set_world (set_ext (datetime_now (ext (world s))).2 (world s)) s).
Proof.
  rewrite run_lift. unfold now. cbn [run]. unfold ext_call.
  by destruct (datetime_now (ext (world s))).
Qed.

End Lift.

(** One step of a handler of these routers. *)
Ltac app_step :=
  lazymatch goal with
  | |- context [run (bind (bind ?m ?f) ?g) ?s] => rewrite (run_bind_assoc m f g s)
  | |- context [run (bind (Return ?a) ?k) ?s] =>
      change (run (bind (Return a) k) s) with (run (k a) s)
  | |- context [run (bind (gets ?f) ?k) ?s] => rewrite (run_gets_bind f k s)
  | |- context [run (bind (modify ?f) ?k) ?s] => rewrite (run_modify_bind f k s)
  | |- context [run (bind (lift now) ?k) ?s] =>
      rewrite (run_bind (lift now) k s);
      let t := fresh "t" in let e := fresh "e" in
      destruct (run_lift_ext_only now s ext_only_now) as (t & e & ->)
  | |- context [run (bind (lift uuid4) ?k) ?s] =>
      rewrite (run_bind (lift uuid4) k s);
      let hex := fresh "hex" in let e := fresh "e" in
      destruct (run_lift_ext_only uuid4 s ext_only_uuid4) as (hex & e & ->)
  | |- context [run (bind (lift (dispatch_event' ?a ?b)) ?k) ?s] =>
      rewrite (run_bind (lift (dispatch_event' a b)) k s);
      let u := fresh "u" in let e := fresh "e" in
      destruct (run_lift_ext_only (dispatch_event' a b) s (ext_only_dispatch_event' a b))
        as (u & e & ->)
  | |- context [run (bind (lift (check_drift ?a)) ?k) ?s] =>
      rewrite (run_bind (lift (check_drift a)) k s);
      let d := fresh "checked" in let e := fresh "e" in
      destruct (run_lift_ext_only (check_drift a) s (ext_only_check_drift a))
        as (d & e & ->)
  | |- context [run (bind (lift (transfer ?a ?b ?c ?d)) ?k) ?s] =>
      rewrite (run_bind (lift (transfer a b c d)) k s);
      let sent := fresh "sent" in let e := fresh "e" in
      destruct (run_lift_transfer a b c d s) as (sent & e & ->)
  end; cbv beta iota; app_simpl.

(** ** Recurring collects *)

Section RecurringProofs.
Context `{CM : CaseMapping} `{BS : BridgeSubscribers}.

(** The plan is due for completion: [max_occurrences] is set, is not 0,
    and is reached. *)
Lemma trigger_condition (rec : Recurring.t) :
  int_truthy (Recurring.max_occurrences rec)
  && bool_decide (Recurring.occurrences_count rec >= default 0 (Recurring.max_occurrences rec))
  = true <->
  exists n, Recurring.max_occurrences rec = Some n /\ n <> 0 /\
            Recurring.occurrences_count rec >= n.
Proof.
  destruct (Recurring.max_occurrences rec) as [n|]; cbn.
  - rewrite andb_true_iff, negb_true_iff, Z.eqb_neq, bool_decide_eq_true. split.
    + intros [H1 H2]. by exists n.
    + intros (m & [= <-] & H1 & H2). done.
  - split; [discriminate|]. intros (m & Hm & _). discriminate.
Qed.

Lemma trigger_recurring_effect (s : App) recurring_id rec :
  dict_get recurring_id (recurring_db s) = Some rec ->
  Recurring.status rec = "active" ->
  match run (trigger_recurring_collect recurring_id) s with
  | (inr Completed, s') =>
      (exists n, Recurring.max_occurrences rec = Some n /\ n <> 0 /\
                 Recurring.occurrences_count rec >= n) /\
      s' = set_recurring_db
             (dict_alter (Recurring.set_status "completed") recurring_id (recurring_db s)) s
  | (inr (Executed rid occurrence transfer_id amount), s') =>
      ~ (exists n, Recurring.max_occurrences rec = Some n /\ n <> 0 /\
                   Recurring.occurrences_count rec >= n) /\
      rid = Recurring.id rec /\
      occurrence = Recurring.occurrences_count rec + 1 /\
      amount = Recurring.amount rec /\
      recurring_db s' =
        dict_alter (fun r => Recurring.set_occurrences_count
                               (Recurring.occurrences_count r + 1) r)
          recurring_id (recurring_db s) /\
      corridor_db s' = corridor_db s /\
      ledger_requests (world s') = ledger_requests (world s) ++ [recurring_transfer rec]
  | (inl exc, s') =>
      ~ (exists n, Recurring.max_occurrences rec = Some n /\ n <> 0 /\
                   Recurring.occurrences_count rec >= n) /\
      exc = {| exc_status_code := 500; exc_detail := DetailText "Transfer failed" |} /\
      recurring_db s' = recurring_db s /\
      corridor_db s' = corridor_db s /\
      ledger_requests (world s') = ledger_requests (world s) ++ [recurring_transfer rec]
  end.
Proof.
  intros Hrec Hst.
  unfold trigger_recurring_collect, raise, update_recurring, the_recurring.
  app_step. rewrite Hrec. goal_decide Hact; [done|].
  destruct (_ && _) eqn:Hdue.
  - app_step. rewrite run_ret. split; [by apply trigger_condition|reflexivity].
  - assert (Hnot : ~ (exists n, Recurring.max_occurrences rec = Some n /\ n <> 0 /\
                                Recurring.occurrences_count rec >= n)).
    { intros H. apply trigger_condition in H. congruence. }
    app_step. fold (recurring_transfer rec). destruct sent as [transfer_id|].
    + repeat app_step. rewrite run_ret. app_simpl.
      rewrite dict_get_alter, decide_True, Hrec by done.
      cbn [fmap option_fmap option_map default from_option].
      cbn [Recurring.id Recurring.occurrences_count Recurring.amount
           Recurring.set_occurrences_count].
      world_simpl. done.
    + cbn [lift]. rewrite run_ret. app_simpl. world_simpl. done.
Qed.

(** X18. A trigger on an active recurring plan completes it without any
    transfer exactly when max_occurrences is set, non-zero and reached;
    otherwise it sends one transfer of the plan's amount from payer to
    payee, and occurrences_count grows by one on success and stays as it
    was (500) when the ledger refuses. *)
Theorem trigger_recurring_outcome (s : App) recurring_id rec :
  dict_get recurring_id (recurring_db s) = Some rec ->
  Recurring.status rec = "active" ->
  match run (trigger_recurring_collect recurring_id) s with
  | (inr Completed, s') =>
      (exists n, Recurring.max_occurrences rec = Some n /\ n <> 0 /\
                 Recurring.occurrences_count rec >= n) /\
      s' = set_recurring_db
             (dict_alter (Recurring.set_status "completed") recurring_id (recurring_db s)) s
  | (inr (Executed rid occurrence transfer_id amount), s') =>
      ~ (exists n, Recurring.max_occurrences rec = Some n /\ n <> 0 /\
                   Recurring.occurrences_count rec >= n) /\
      rid = Recurring.id rec /\
      occurrence = Recurring.occurrences_count rec + 1 /\
      amount = Recurring.amount rec /\
      recurring_db s' =
        dict_alter (fun r => Recurring.set_occurrences_count
                               (Recurring.occurrences_count r + 1) r)
          recurring_id (recurring_db s) /\
      corridor_db s' = corridor_db s /\
      ledger_requests (world s') = ledger_requests (world s) ++ [recurring_transfer rec]
  | (inl exc, s') =>
      ~ (exists n, Recurring.max_occurrences rec = Some n /\ n <> 0 /\
                   Recurring.occurrences_count rec >= n) /\
      exc = {| exc_status_code := 500; exc_detail := DetailText "Transfer failed" |} /\
      recurring_db s' = recurring_db s /\
      corridor_db s' = corridor_db s /\
      ledger_requests (world s') = ledger_requests (world s) ++ [recurring_transfer rec]
  end.
Proof. exact (trigger_recurring_effect s recurring_id rec). Qed.

(** A plan that is not active is never triggered, and nothing makes it
    active again. *)
Lemma trigger_recurring_inactive (s : App) recurring_id rec :
  dict_get recurring_id (recurring_db s) = Some rec ->
  Recurring.status rec <> "active" ->
  exists exc, run (trigger_recurring_collect recurring_id) s = (inl exc, s) /\
    InvalidStateError "trigger" "recurring collect" (Recurring.status rec) exc.
Proof.
  intros Hrec Hst. unfold trigger_recurring_collect, raise. app_step. rewrite Hrec.
  goal_decide Hact; [|done]. cbn [lift]. rewrite run_ret. eexists. split; reflexivity.
Qed.

(** What a command that does not create a plan does to the plans: nothing,
    or one in-place change of the plan it names. *)
Lemma serve_recurring_frame (cmd : RecurringCommand) (s : App) :
  creates cmd = false ->
  recurring_db (serve_recurring cmd s) = recurring_db s \/
  exists recurring_id rec f,
    dict_get recurring_id (recurring_db s) = Some rec /\
    recurring_db (serve_recurring cmd s) = dict_alter f recurring_id (recurring_db s) /\
    (f rec = Recurring.set_status "paused" rec \/
     f rec = Recurring.set_status "cancelled" rec \/
     (Recurring.status rec = "active" /\
      (exists n, Recurring.max_occurrences rec = Some n /\ n <> 0 /\
                 Recurring.occurrences_count rec >= n) /\
      f rec = Recurring.set_status "completed" rec) \/
     (Recurring.status rec = "active" /\
      ~ (exists n, Recurring.max_occurrences rec = Some n /\ n <> 0 /\
                   Recurring.occurrences_count rec >= n) /\
      f rec = Recurring.set_occurrences_count (Recurring.occurrences_count rec + 1) rec)).
Proof.
  destruct cmd as [request|recurring_id|recurring_id|recurring_id]; [discriminate|..];
    intros _; cbn [serve_recurring].
  - unfold pause_recurring, raise, update_recurring, the_recurring. app_step.
    destruct (dict_get recurring_id (recurring_db s)) as [rec|] eqn:Hrec;
      [|cbn [lift]; rewrite run_ret; by left].
    repeat app_step. rewrite run_ret. app_simpl. right.
    exists recurring_id, rec, (Recurring.set_status "paused"). auto.
  - unfold cancel_recurring, raise, update_recurring, the_recurring. app_step.
    destruct (dict_get recurring_id (recurring_db s)) as [rec|] eqn:Hrec;
      [|cbn [lift]; rewrite run_ret; by left].
    repeat app_step. rewrite run_ret. app_simpl. right.
    exists recurring_id, rec, (Recurring.set_status "cancelled"). auto.
  - destruct (dict_get recurring_id (recurring_db s)) as [rec|] eqn:Hrec.
    2:{ left. unfold trigger_recurring_collect, raise. app_step. rewrite Hrec.
        cbn [lift]. by rewrite run_ret. }
    destruct (decide (Recurring.status rec = "active")) as [Hact|Hact].
    + pose proof (trigger_recurring_effect s recurring_id rec Hrec Hact) as Hout.
      destruct (run (trigger_recurring_collect recurring_id) s) as [[exc|[|rid occ tid amt]] s'].
      * left. cbn [snd]. by destruct Hout as (_ & _ & -> & _).
      * right. cbn [snd]. destruct Hout as (Hdue & ->). app_simpl.
        exists recurring_id, rec, (Recurring.set_status "completed"). auto 10.
      * right. cbn [snd]. destruct Hout as (Hdue & _ & _ & _ & -> & _).
        exists recurring_id, rec,
          (fun r => Recurring.set_occurrences_count (Recurring.occurrences_count r + 1) r).
        auto 10.
    + left. destruct (trigger_recurring_inactive s recurring_id rec Hrec Hact) as (exc & -> & _).
      done.
Qed.

Lemma serve_recurring_occurrences (cmd : RecurringCommand) (s : App) :
  Forall occurrences_ok (dict_values (recurring_db s)) ->
  Forall occurrences_ok (dict_values (recurring_db (serve_recurring cmd s))).
Proof.
  intros Hall. destruct (creates cmd) eqn:Hc.
  - destruct cmd as [request| | |]; try discriminate. cbn [serve_recurring].
    unfold create_recurring_collect. repeat app_step. rewrite run_ret. app_simpl.
    apply dict_set_values; [|exact Hall]. split; cbn; [lia|].
    intros n _ Hn. lia.
  - destruct (serve_recurring_frame cmd s Hc)
      as [->|(recurring_id & rec & f & Hrec & -> & Hf)]; [exact Hall|].
    apply dict_alter_values; [|exact Hall]. intros v Hv Hok.
    rewrite Hrec in Hv. injection Hv as <-.
    destruct Hf as [->|[->|[(_ & _ & ->)|(_ & Hnot & ->)]]]; try exact Hok.
    destruct Hok as [H0 Hmax]. split; cbn; [lia|]. intros n Hn Hpos.
    specialize (Hmax n Hn Hpos).
    destruct (decide (Recurring.occurrences_count rec >= n)) as [Hge|Hlt]; [|lia].
    exfalso. apply Hnot. exists n. split; [done|]. split; [lia|done].
Qed.

Lemma serve_recurring_all_occurrences (cmds : list RecurringCommand) (s : App) :
  Forall occurrences_ok (dict_values (recurring_db s)) ->
  Forall occurrences_ok (dict_values (recurring_db (serve_recurring_all cmds s))).
Proof.
  revert s. induction cmds as [|cmd rest IH]; intros s Hs; [exact Hs|].
  cbn [serve_recurring_all foldl]. apply IH. by apply serve_recurring_occurrences.
Qed.

(** X19. After any sequence of create, pause, cancel and trigger
    requests on a fresh process, a recurring plan with a positive
    max_occurrences has executed at most that many collects. *)
Theorem recurring_occurrences_bounded (e : Ext) (cmds : list RecurringCommand)
    recurring_id rec n :
  dict_get recurring_id (recurring_db (serve_recurring_all cmds (start e))) = Some rec ->
  Recurring.max_occurrences rec = Some n ->
  0 < n ->
  0 <= Recurring.occurrences_count rec <= n.
Proof.
  intros Hrec Hmax Hpos.
  assert (Hall : Forall occurrences_ok
                   (dict_values (recurring_db (serve_recurring_all cmds (start e))))).
  { apply serve_recurring_all_occurrences. constructor. }
  destruct (dict_get_values _ _ _ _ Hall Hrec) as [H0 Hle]. split; [exact H0|by apply Hle].
Qed.

(** X20. Nothing resumes a recurring plan: once its status is not
    active, no sequence of pause, cancel and trigger requests makes it
    active again or changes its occurrences_count, and a trigger on it
    is refused with InvalidStateError leaving the state as it was. *)
Theorem inactive_recurring_stays_inactive (s : App) (cmds : list RecurringCommand)
    recurring_id rec :
  dict_get recurring_id (recurring_db s) = Some rec ->
  Recurring.status rec <> "active" ->
  Forall (fun cmd => creates cmd = false) cmds ->
  exists rec',
    dict_get recurring_id (recurring_db (serve_recurring_all cmds s)) = Some rec' /\
    Recurring.status rec' <> "active" /\
    Recurring.occurrences_count rec' = Recurring.occurrences_count rec /\
    exists exc,
      run (trigger_recurring_collect recurring_id) (serve_recurring_all cmds s)
        = (inl exc, serve_recurring_all cmds s) /\
      InvalidStateError "trigger" "recurring collect" (Recurring.status rec') exc.
Proof.
  intros Hrec Hst Hcmds. revert s rec Hrec Hst.
  induction Hcmds as [|cmd rest Hcmd _ IH]; intros s rec Hrec Hst.
  - exists rec. split; [exact Hrec|]. split; [exact Hst|]. split; [reflexivity|].
    by apply trigger_recurring_inactive.
  - cbn [serve_recurring_all foldl].
    assert (Hstep : exists rec1,
      dict_get recurring_id (recurring_db (serve_recurring cmd s)) = Some rec1 /\
      Recurring.status rec1 <> "active" /\
      Recurring.occurrences_count rec1 = Recurring.occurrences_count rec).
    { destruct (serve_recurring_frame cmd s Hcmd) as [->|(i & r & f & Hr & -> & Hf)];
        [by exists rec|].
      rewrite dict_get_alter. destruct (decide (i = recurring_id)) as [->|Hi];
        [|by exists rec].
      rewrite Hrec in Hr. injection Hr as <-. rewrite Hrec. exists (f rec).
      split; [reflexivity|].
      destruct Hf as [->|[->|[(Hact & _)|(Hact & _)]]]; try done. }
    destruct Hstep as (rec1 & Hrec1 & Hst1 & Hcount1).
    destruct (IH _ _ Hrec1 Hst1) as (rec' & H1 & H2 & H3 & H4).
    exists rec'. split; [exact H1|]. split; [exact H2|]. split; [congruence|exact H4].
Qed.

(** X21. list_recurring with neither payee_id nor payer_id (absent or
    empty) returns the empty list whatever is stored; otherwise it
    returns exactly the stored plans whose payee matches payee_id or
    whose payer matches payer_id. *)
Theorem list_recurring_needs_a_filter (s : App) (payee_id payer_id : option string) :
  (str_truthy payee_id = false -> str_truthy payer_id = false ->
   run (list_recurring payee_id payer_id) s = ([], s)) /\
  (forall rec, rec ∈ (run (list_recurring payee_id payer_id) s).1 <->
     rec ∈ dict_values (recurring_db s) /\
     ((str_truthy payee_id = true /\ Some (Recurring.payee_account_id rec) = payee_id) \/
      (str_truthy payer_id = true /\ Some (Recurring.payer_account_id rec) = payer_id))).
Proof.
  unfold list_recurring. cbn [run gets fst]. split.
  - intros Hpayee Hpayer. f_equal.
    induction (dict_values (recurring_db s)) as [|rec rest IH]; [reflexivity|].
    cbn [List.filter]. unfold recurring_matches at 1. rewrite Hpayee, Hpayer. exact IH.
  - intros rec. rewrite list_elem_of_In, filter_In, <- list_elem_of_In.
    unfold recurring_matches.
    rewrite orb_true_iff, !andb_true_iff, !bool_decide_eq_true. reflexivity.
Qed.
End RecurringProofs.

(** ** Corridors *)

Section CorridorProofs.
Context `{CM : CaseMapping} `{BS : BridgeSubscribers}.

Lemma remit_corridor_not_locked (s : App) corridor_id corridor :
  dict_get corridor_id (corridor_db s) = Some corridor ->
  Corridor.status corridor <> "rate_locked" ->
  exists exc, run (remit_corridor corridor_id) s = (inl exc, s) /\
    InvalidStateError "remit" "corridor" (Corridor.status corridor) exc.
Proof.
  intros Hc Hst. unfold remit_corridor, raise. app_step. rewrite Hc.
  goal_decide Hl; [|done]. cbn [lift]. rewrite run_ret. eexists. split; reflexivity.
Qed.

(** A remit of a rate-locked corridor: the one transfer it sends and what
    it records, or why it was refused.  [checked] is what [check_drift]
    answers for the corridor's lock once the clock has been read. *)
Lemma remit_corridor_effect (s : App) corridor_id corridor :
  dict_get corridor_id (corridor_db s) = Some corridor ->
  Corridor.status corridor = "rate_locked" ->
  let clock := datetime_now (ext (world s)) in
  let expired := clock.1 > RateLock.expires_at (Corridor.rate_lock corridor) in
  let checked := (run (check_drift (RateLock.id (Corridor.rate_lock corridor)))
                    (set_ext clock.2 (world s))).1 in
  match run (remit_corridor corridor_id) s with
  | (inr remitted, s') =>
      ~ expired /\
      (exists drift, checked = inr drift /\ Drift.get_drifted drift = false) /\
      (exists txn_id t,
         remitted = Corridor.set_rate_lock (rate_lock_used (Corridor.rate_lock corridor))
                      (Corridor.set_remitted_at (Some t)
                         (Corridor.set_nessie_transfer_id (Some txn_id)
                            (Corridor.set_status "remitted" corridor)))) /\
      dict_get corridor_id (corridor_db s') = Some remitted /\
      ledger_requests (world s')
        = ledger_requests (world s) ++ [corridor_transfer corridor_id corridor] /\
      rate_lock_store (world s')
        = alter rate_lock_used (RateLock.id (Corridor.rate_lock corridor))
            (rate_lock_store (world s))
  | (inl exc, s') =>
      (exc_status_code exc = 410 /\ expired /\
       dict_get corridor_id (corridor_db s')
         = Some (Corridor.set_status "expired" corridor) /\
       ledger_requests (world s') = ledger_requests (world s)) \/
      (exc_status_code exc = 422 /\ ~ expired /\
       (exists drift, checked = inr drift /\ Drift.get_drifted drift = true) /\
       dict_get corridor_id (corridor_db s')
         = Some (Corridor.set_status "drift_cancelled" corridor) /\
       ledger_requests (world s') = ledger_requests (world s)) \/
      (exc_status_code exc = 500 /\ ~ expired /\
       corridor_db s' = corridor_db s /\
       ((exists raised, checked = inl raised) /\
        ledger_requests (world s') = ledger_requests (world s) \/
        (exists drift, checked = inr drift /\ Drift.get_drifted drift = false) /\
        ledger_requests (world s')
          = ledger_requests (world s) ++ [corridor_transfer corridor_id corridor]))
  end.
Proof.
  intros Hc Hst clock expired checked. subst clock expired checked.
  unfold remit_corridor, internal_server_error, raise, update_corridor, the_corridor.
  app_step. rewrite Hc. goal_decide Hl; [done|].
  rewrite run_bind, run_lift_now. cbv beta iota.
  destruct (datetime_now (ext (world s))) as [t e1] eqn:Hclock. app_simpl.
  goal_decide Hexp.
  - repeat app_step. cbn [lift]. rewrite run_ret. app_simpl. world_simpl. left.
    rewrite dict_get_alter, decide_True, Hc by done. done.
  - rewrite run_bind, run_lift. cbv beta iota. app_simpl.
    destruct (ext_only_check_drift (RateLock.id (Corridor.rate_lock corridor))
                (set_ext e1 (world s))) as (checked & e2 & Hcheck).
    rewrite Hcheck. cbn [fst snd]. app_simpl. world_simpl.
    destruct checked as [exc|drift].
    { cbn [lift]. rewrite run_ret. app_simpl. world_simpl. right. right.
      split; [done|]. split; [done|]. split; [done|]. left. split; [by eexists|done]. }
    destruct (Drift.get_drifted drift) eqn:Hdrifted.
    { repeat app_step. cbn [lift]. rewrite run_ret. app_simpl. world_simpl. right. left.
      rewrite dict_get_alter, decide_True, Hc by done.
      split; [done|]. split; [done|]. split; [by eexists|]. done. }
    app_step. fold (corridor_transfer corridor_id corridor).
    destruct sent as [txn_id|].
    2:{ cbn [lift]. rewrite run_ret. app_simpl. world_simpl. right. right.
        split; [done|]. split; [done|]. split; [done|]. right. split; [by eexists|done]. }
    do 2 app_step.
    rewrite run_bind, run_lift_now. cbv beta iota. app_simpl. world_simpl.
    destruct (datetime_now e) as [t' e3]. app_simpl.
    do 2 app_step.
    rewrite run_bind, run_lift. cbn [modify run lift]. cbv beta iota. app_simpl.
    repeat app_step. rewrite run_ret. app_simpl. world_simpl.
    rewrite !dict_get_alter, !decide_True, Hc by done.
    cbn [fmap option_fmap option_map default from_option].
    split; [done|]. split; [by eexists|]. split; [by exists txn_id, t'|]. done.
Qed.

(** X22. A remit of a rate-locked corridor is decided by the expiry of
    its lock and by the answer of check_drift for that lock once the
    clock has been read. It succeeds only when the lock has not expired
    and check_drift answered not drifted: exactly one transfer of
    amount_source_cents from the source to the target account is sent,
    the corridor becomes remitted with the transfer id and time, and its
    lock is marked used. It is refused with 410 when the lock has
    expired (corridor set to expired, no transfer sent); with 422 when
    the lock has not expired and check_drift answered drifted (corridor
    set to drift_cancelled, no transfer sent); and with 500, the
    corridor unchanged, when check_drift raised (no transfer sent) or
    when the transfer sent after a not-drifted answer failed. *)
Theorem remit_corridor_outcome (s : App) corridor_id corridor :
  dict_get corridor_id (corridor_db s) = Some corridor ->
  Corridor.status corridor = "rate_locked" ->
  let clock := datetime_now (ext (world s)) in
  let expired := clock.1 > RateLock.expires_at (Corridor.rate_lock corridor) in
  let checked := (run (check_drift (RateLock.id (Corridor.rate_lock corridor)))
                    (set_ext clock.2 (world s))).1 in
  match run (remit_corridor corridor_id) s with
  | (inr remitted, s') =>
      ~ expired /\
      (exists drift, checked = inr drift /\ Drift.get_drifted drift = false) /\
      (exists txn_id t,
         remitted = Corridor.set_rate_lock (rate_lock_used (Corridor.rate_lock corridor))
                      (Corridor.set_remitted_at (Some t)
                         (Corridor.set_nessie_transfer_id (Some txn_id)
                            (Corridor.set_status "remitted" corridor)))) /\
      dict_get corridor_id (corridor_db s') = Some remitted /\
      ledger_requests (world s')
        = ledger_requests (world s) ++ [corridor_transfer corridor_id corridor] /\
      rate_lock_store (world s')
        = alter rate_lock_used (RateLock.id (Corridor.rate_lock corridor))
            (rate_lock_store (world s))
  | (inl exc, s') =>
      (exc_status_code exc = 410 /\ expired /\
       dict_get corridor_id (corridor_db s')
         = Some (Corridor.set_status "expired" corridor) /\
       ledger_requests (world s') = ledger_requests (world s)) \/
      (exc_status_code exc = 422 /\ ~ expired /\
       (exists drift, checked = inr drift /\ Drift.get_drifted drift = true) /\
       dict_get corridor_id (corridor_db s')
         = Some (Corridor.set_status "drift_cancelled" corridor) /\
       ledger_requests (world s') = ledger_requests (world s)) \/
      (exc_status_code exc = 500 /\ ~ expired /\
       corridor_db s' = corridor_db s /\
       ((exists raised, checked = inl raised) /\
        ledger_requests (world s') = ledger_requests (world s) \/
        (exists drift, checked = inr drift /\ Drift.get_drifted drift = false) /\
        ledger_requests (world s')
          = ledger_requests (world s) ++ [corridor_transfer corridor_id corridor]))
  end.
Proof. exact (remit_corridor_effect s corridor_id corridor). Qed.

(** X23. A corridor is remitted at most once: after a remit that
    succeeded, or was refused for anything but a 500, the corridor is no
    longer rate_locked and every further remit is refused with
    InvalidStateError and changes nothing. *)
Theorem corridor_remits_at_most_once (s : App) corridor_id corridor r s' :
  dict_get corridor_id (corridor_db s) = Some corridor ->
  run (remit_corridor corridor_id) s = (r, s') ->
  match r with inl exc => exc_status_code exc <> 500 | inr _ => True end ->
  exists exc current,
    dict_get corridor_id (corridor_db s') = Some current /\
    Corridor.status current <> "rate_locked" /\
    run (remit_corridor corridor_id) s' = (inl exc, s') /\
    InvalidStateError "remit" "corridor" (Corridor.status current) exc.
Proof.
  intros Hc Hrun Hr.
  assert (Hafter : exists current,
    dict_get corridor_id (corridor_db s') = Some current /\
    Corridor.status current <> "rate_locked").
  { destruct (decide (Corridor.status corridor = "rate_locked")) as [Hst|Hst].
    - pose proof (remit_corridor_effect s corridor_id corridor Hc Hst) as Hout.
      cbv zeta in Hout. rewrite Hrun in Hout. destruct r as [exc|remitted].
      + destruct Hout as [(_ & _ & Hdb & _)|[(_ & _ & _ & Hdb & _)|(H500 & _)]]; [..|done];
          eexists; (split; [exact Hdb|discriminate]).
      + destruct Hout as (_ & _ & (txn_id & t & ->) & Hdb & _).
        eexists. split; [exact Hdb|discriminate].
    - destruct (remit_corridor_not_locked s corridor_id corridor Hc Hst) as (exc & Hrun' & _).
      rewrite Hrun in Hrun'. injection Hrun' as _ <-. by exists corridor. }
  destruct Hafter as (current & Hcur & Hst).
  destruct (remit_corridor_not_locked s' corridor_id current Hcur Hst) as (exc & Hr1 & Hr2).
  by exists exc, current.
Qed.

(** X24. A corridor that create_corridor returns is stored rate_locked
    under its id, carries the lock that lock_rate stored in
    rate_lock_store (at the rate get_live_rate returned), quotes that
    lock's amount_source_cents, and no transfer has been sent. *)
Theorem create_corridor_locks_rate (s : App) (request : CorridorCreateRequest) corridor s' :
  run (create_corridor request) s = (inr corridor, s') ->
  Corridor.status corridor = "rate_locked" /\
  dict_get (Corridor.id corridor) (corridor_db s') = Some corridor /\
  rate_lock_store (world s') !! RateLock.id (Corridor.rate_lock corridor)
    = Some (Corridor.rate_lock corridor) /\
  Corridor.amount_source_cents corridor
    = RateLock.amount_source_cents (Corridor.rate_lock corridor) /\
  Corridor.amount_target_cents corridor = kcr_amount_target request /\
  RateLock.rate (Corridor.rate_lock corridor)
    = (run (get_live_rate (kcr_source_currency request) (kcr_target_currency request))
         (world s)).1 /\
  ledger_requests (world s') = ledger_requests (world s).
Proof.
  unfold create_corridor, internal_server_error, raise, the_corridor.
  rewrite run_bind, run_lift.
  destruct (run (lock_rate _ _ _ _ _) (world s)) as [[exc|lock] w1] eqn:Hlock;
    cbv beta iota; cbn [fst snd]; [cbn [lift]; rewrite run_ret; discriminate|].
  destruct (lock_rate_result _ _ _ _ _ _ _ _ Hlock) as (Hrate & _ & _ & _ & _ & Hstore & Hw1).
  repeat app_step. rewrite run_ret. app_simpl.
  rewrite dict_get_set, decide_True by done. cbn [default from_option].
  intros [= <- <-]. app_simpl. world_simpl. cbn [Corridor.id Corridor.status
    Corridor.rate_lock Corridor.amount_source_cents Corridor.amount_target_cents].
  rewrite dict_get_set, decide_True by done.
  split; [done|]. split; [done|]. split; [by rewrite Hstore, lookup_insert_eq|].
  split; [done|]. split; [done|]. split; [exact Hrate|]. by rewrite Hw1.
Qed.
End CorridorProofs.

(** ** Corridors: drift cancellation needs a movement *)

Section CorridorNoDrift.
Context `{CM : CaseMapping} `{BS : BridgeSubscribers}.

(** X25. A remit is refused for drift only when the rate moved: for a
    rate-locked corridor whose lock is in rate_lock_store with a
    tolerance that is not negative, while the oracle answers the lock's
    rate, a remit either succeeds (status remitted) or is answered 410
    or 500, never 422. *)
Theorem remit_without_movement_is_not_drift_cancelled (s : App) corridor_id corridor lock :
  dict_get corridor_id (corridor_db s) = Some corridor ->
  Corridor.status corridor = "rate_locked" ->
  rate_lock_store (world s) !! RateLock.id (Corridor.rate_lock corridor) = Some lock ->
  float_truthy (RateLock.rate lock) = true ->
  (run (get_live_rate (RateLock.source_currency lock) (RateLock.target_currency lock))
     (set_ext (datetime_now (ext (world s))).2 (world s))).1 = RateLock.rate lock ->
  fltb (RateLock.max_drift_pct lock) (S754_zero false) = false ->
  match (run (remit_corridor corridor_id) s).1 with
  | inl exc => exc_status_code exc = 410 \/ exc_status_code exc = 500
  | inr remitted => Corridor.status remitted = "remitted"
  end.
Proof.
  intros Hc Hst Hlock Hrate Hsame Htol.
  unfold remit_corridor, internal_server_error, raise, update_corridor, the_corridor.
  app_step. rewrite Hc. goal_decide Hl; [done|].
  rewrite run_bind, run_lift_now. cbv beta iota.
  destruct (datetime_now (ext (world s))) as [t e1] eqn:Hclock. app_simpl.
  cbn [snd] in Hsame.
  goal_decide Hexp.
  { repeat app_step. cbn [lift]. rewrite run_ret. by left. }
  rewrite run_bind, run_lift. app_simpl.
  destruct (check_drift_unchanged (set_ext e1 (world s))
              (RateLock.id (Corridor.rate_lock corridor)) lock Hlock Hrate Hsame Htol)
    as (i & w' & -> & Hd & _).
  cbv beta iota. cbn [fst snd Drift.get_drifted]. rewrite Hd.
  app_step. destruct sent as [txn_id|]; [|cbn [lift]; rewrite run_ret; by right].
  do 2 app_step.
  rewrite run_bind, run_lift_now. cbv beta iota. app_simpl.
  do 2 app_step.
  rewrite run_bind, run_lift. cbn [modify run lift]. cbv beta iota. app_simpl.
  repeat app_step. rewrite run_ret. cbn [fst].
  rewrite !dict_get_alter, !decide_True, Hc by done. reflexivity.
Qed.
End CorridorNoDrift.

(** ** Analytics *)

Lemma count_where_cons {A} (p : A -> bool) (x : A) (xs : list A) :
  count_where p (x :: xs) = (if p x then 1 else 0) + count_where p xs.
Proof. unfold count_where. cbn [List.filter]. destruct (p x); cbn [length]; lia. Qed.

Lemma map_Forall_alter {A} (P : A -> Prop) (f : A -> A) (i : string) (m : gmap string A) :
  (forall x, m !! i = Some x -> P x -> P (f x)) ->
  map_Forall (fun _ => P) m -> map_Forall (fun _ => P) (alter f i m).
Proof.
  intros Hf Hm j y. destruct (decide (i = j)) as [<-|Hj].
  - rewrite lookup_alter_eq. destruct (m !! i) as [x|] eqn:Hx; [|discriminate].
    intros [= <-]. apply Hf; [done|]. by apply (Hm i).
  - rewrite lookup_alter_ne by done. apply Hm.
Qed.

Lemma collects_partition (collects : list CollectResponse.t) :
  Forall collect_status_known collects ->
  Z.of_nat (length collects) =
    count_where (collect_is "pending") collects + count_where (collect_is "approved") collects
    + count_where (collect_is "declined") collects + count_where (collect_is "expired") collects.
Proof.
  induction 1 as [|c rest Hc _ IH]; [reflexivity|].
  rewrite !count_where_cons. cbn [length]. rewrite Nat2Z.inj_succ, IH.
  unfold collect_status_known in Hc. unfold collect_is.
  apply list_elem_of_In in Hc. cbn in Hc.
  destruct Hc as [<-|[<-|[<-|[<-|[]]]]]; repeat case_bool_decide; simplify_eq; lia.
Qed.

Lemma pools_partition (pools : list PoolResponse.t) :
  Forall pool_status_known pools ->
  Z.of_nat (length pools) =
    count_where (pool_is "collecting") pools + count_where (pool_is "funded") pools
    + count_where (pool_is "cancelled") pools.
Proof.
  induction 1 as [|p rest Hp _ IH]; [reflexivity|].
  rewrite !count_where_cons. cbn [length]. rewrite Nat2Z.inj_succ, IH.
  unfold pool_status_known in Hp. unfold pool_is.
  apply list_elem_of_In in Hp. cbn in Hp.
  destruct Hp as [<-|[<-|[<-|[]]]]; repeat case_bool_decide; simplify_eq; lia.
Qed.

Lemma recurring_partition (recurring : list Recurring.t) :
  count_where (recurring_is "active") recurring + count_where (recurring_is "paused") recurring
  <= Z.of_nat (length recurring).
Proof.
  induction recurring as [|r rest IH]; [reflexivity|].
  rewrite !count_where_cons. cbn [length]. rewrite Nat2Z.inj_succ. unfold recurring_is at 1 3.
  destruct (decide (Recurring.status r = "active")) as [Ha|Ha].
  - rewrite Ha. repeat case_bool_decide; simplify_eq; lia.
  - rewrite (bool_decide_eq_false_2 _ Ha). destruct (bool_decide _); lia.
Qed.

Lemma map_Forall_values {A} (P : A -> Prop) (m : gmap string A) :
  map_Forall (fun _ => P) m -> Forall P (map_to_list m).*2.
Proof.
  intros Hm. apply Forall_fmap, Forall_forall. intros [k v] Hkv.
  apply elem_of_map_to_list in Hkv. by apply (Hm k).
Qed.

Section AnalyticsProofs.
Context `{CM : CaseMapping} `{BS : BridgeSubscribers}.

Lemma serve_collect_frame (cmd : CollectCommand) (w : World) :
  fake_pool_db (serve_collect cmd w) = fake_pool_db w /\
  (map_Forall (fun _ => collect_status_known) (fake_collect_db w) ->
   map_Forall (fun _ => collect_status_known) (fake_collect_db (serve_collect cmd w))).
Proof.
  assert (Hset : forall v c, v ∈ ["pending"; "approved"; "declined"; "expired"] ->
                   collect_status_known (CollectResponse.set_status v c)).
  { intros v c Hv. exact Hv. }
  destruct cmd as [request|collect_id|collect_id]; cbn [serve_collect].
  - unfold create_collect. repeat run_step. rewrite run_ret. world_simpl.
    split; [done|]. intros Hall. apply map_Forall_insert_2; [|done].
    unfold collect_status_known. cbn. set_solver.
  - unfold approve_collect, raise, update_collect, the_collect. run_step.
    destruct (fake_collect_db w !! collect_id) as [collect|]; [|by rewrite run_ret].
    goal_decide Hst; [by rewrite run_ret|].
    run_step. goal_decide Hexp.
    { repeat run_step. rewrite run_ret. world_simpl. split; [done|].
      apply map_Forall_alter. intros x _ _. apply Hset. set_solver. }
    run_step. goal_decide Hbal; [by rewrite run_ret|].
    run_step. destruct sent as [transfer_id|]; [|by rewrite run_ret].
    repeat run_step. rewrite run_ret. world_simpl. split; [done|]. intros Hall.
    do 2 (apply map_Forall_alter; [intros x _ Hx; exact Hx|]).
    apply map_Forall_alter; [|done]. intros x _ _. apply Hset. set_solver.
  - unfold decline_collect, raise, update_collect, the_collect. run_step.
    destruct (fake_collect_db w !! collect_id) as [collect|]; [|by rewrite run_ret].
    goal_decide Hst; [by rewrite run_ret|].
    repeat run_step. rewrite run_ret. world_simpl. split; [done|]. intros Hall.
    apply map_Forall_alter; [intros x _ Hx; exact Hx|].
    apply map_Forall_alter; [|done]. intros x _ _. apply Hset. set_solver.
Qed.

Lemma contribute_to_pool_missing pool_id request (w : World) :
  fake_pool_db w !! pool_id = None ->
  (run (contribute_to_pool pool_id request) w).2 = w.
Proof.
  intros Hnone. unfold contribute_to_pool, raise. run_step. rewrite Hnone. by rewrite run_ret.
Qed.

Lemma contribute_to_pool_keeps_collects pool_id request (w : World) :
  fake_collect_db (run (contribute_to_pool pool_id request) w).2 = fake_collect_db w.
Proof.
  unfold contribute_to_pool, internal_server_error, raise, update_pool, the_pool.
  run_step.
  destruct (fake_pool_db w !! pool_id) as [pool|] eqn:Hpool; [|done].
  case_decide as Hfunded; [done|].
  run_step. case_decide as Hdead; [done|].
  run_step. case_decide as Hbal; [done|].
  run_step. destruct sent as [transfer_id|]; [|done].
  run_step. destruct (fake_contributions_db w !! pool_id) as [cs|] eqn:Hcs; [|done].
  do 5 run_step.
  case_decide as Hgoal.
  - do 5 run_step.
    destruct sent as [settle_txn|]; repeat run_step; rewrite run_ret; world_simpl; done.
  - repeat run_step. rewrite run_ret; world_simpl. done.
Qed.

Lemma serve_pool_frame (cmd : PoolCommand) (w : World) :
  fake_collect_db (run (serve_pool cmd) w).2 = fake_collect_db w /\
  (map_Forall (fun _ => pool_status_known) (fake_pool_db w) ->
   map_Forall (fun _ => pool_status_known) (fake_pool_db (run (serve_pool cmd) w).2)).
Proof.
  destruct cmd as [request|pool_id request|pool_id]; cbn [serve_pool].
  - unfold create_pool. repeat run_step. rewrite run_ret. world_simpl.
    split; [done|]. intros Hall. apply map_Forall_insert_2; [|done].
    unfold pool_status_known. cbn. set_solver.
  - split; [apply contribute_to_pool_keeps_collects|]. intros Hall j p' Hp'.
    destruct (decide (j = pool_id)) as [->|Hj].
    2:{ destruct (contribute_to_pool_others pool_id request w j Hj) as [H1 _].
        rewrite H1 in Hp'. by apply (Hall j). }
    destruct (fake_pool_db w !! pool_id) as [pool|] eqn:Hpool.
    2:{ rewrite contribute_to_pool_missing in Hp' by done. by apply (Hall pool_id). }
    pose proof (contribute_to_pool_effect w pool_id pool request Hpool) as Hout.
    destruct (run (contribute_to_pool pool_id request) w) as [[exc|updated] w']; cbn [snd] in *.
    + destruct Hout as (Hdb & _). rewrite Hdb in Hp'. by apply (Hall pool_id).
    + destruct Hout as (Hdb & _ & _ & Hst). rewrite Hdb in Hp'. injection Hp' as <-.
      unfold pool_status_known. destruct (decide _).
      * destruct Hst as [-> _]. set_solver.
      * destruct Hst as [-> _]. by apply (Hall pool_id).
  - destruct (cancel_pool_frame pool_id w) as [->|(pool & ids & e & l & _ & _ & ->)]; [done|].
    world_simpl. split; [done|]. intros Hall.
    apply map_Forall_alter; [|done]. intros x _ _. unfold pool_status_known. cbn. set_solver.
Qed.

Lemma serve_recurring_world (cmd : RecurringCommand) (s : App) :
  exists e l, world (serve_recurring cmd s) = set_ext e (set_ledger_requests l (world s)).
Proof.
  assert (Hsame : exists e l, world s = set_ext e (set_ledger_requests l (world s))).
  { exists (ext (world s)), (ledger_requests (world s)). by destruct (world s). }
  destruct cmd as [request|recurring_id|recurring_id|recurring_id]; cbn [serve_recurring].
  - unfold create_recurring_collect. repeat app_step. rewrite run_ret. app_simpl.
    exists e0, (ledger_requests (world s)). by destruct (world s).
  - unfold pause_recurring, raise, update_recurring, the_recurring. app_step.
    destruct (dict_get recurring_id (recurring_db s)) as [rec|];
      [|cbn [lift]; by rewrite run_ret].
    repeat app_step. by rewrite run_ret.
  - unfold cancel_recurring, raise, update_recurring, the_recurring. app_step.
    destruct (dict_get recurring_id (recurring_db s)) as [rec|];
      [|cbn [lift]; by rewrite run_ret].
    repeat app_step. rewrite run_ret. app_simpl.
    exists e, (ledger_requests (world s)). by destruct (world s).
  - unfold trigger_recurring_collect, raise, update_recurring, the_recurring. app_step.
    destruct (dict_get recurring_id (recurring_db s)) as [rec|];
      [|cbn [lift]; by rewrite run_ret].
    goal_decide Hact; [cbn [lift]; by rewrite run_ret|].
    destruct (_ && _); [app_step; by rewrite run_ret|].
    app_step. destruct sent as [transfer_id|].
    + repeat app_step. rewrite run_ret. app_simpl. world_simpl. eexists _, _. reflexivity.
    + cbn [lift]. rewrite run_ret. app_simpl. eexists _, _. reflexivity.
Qed.

Lemma serve_statuses_known (cmd : Command) (s : App) :
  statuses_known s -> statuses_known (serve cmd s).
Proof.
  intros [Hc Hp]. destruct cmd as [cmd|cmd|cmd]; cbn [serve]; unfold statuses_known; app_simpl.
  - destruct (serve_collect_frame cmd (world s)) as [-> H]. auto.
  - destruct (serve_pool_frame cmd (world s)) as [-> H]. auto.
  - destruct (serve_recurring_world cmd s) as (e & l & ->). world_simpl. auto.
Qed.

(** X26. After any sequence of collect, pool and recurring-collect
    requests on a fresh process, the analytics snapshot counts every
    collect under exactly one of pending, approved, declined and expired
    and every pool under exactly one of collecting, funded and
    cancelled, while the active and paused recurring counts together
    never exceed the recurring total. *)
Theorem analytics_counts_partition (e : Ext) (cmds : list Command) :
  let a := (run get_analytics (serve_all cmds (start e))).1 in
  collects_total a = collects_pending a + collects_approved a
                     + collects_declined a + collects_expired a /\
  pools_total a = pools_collecting a + pools_funded a + pools_cancelled a /\
  recurring_active a + recurring_paused a <= recurring_total a.
Proof.
  assert (Hknown : statuses_known (serve_all cmds (start e))).
  { assert (H0 : statuses_known (start e)) by (split; apply map_Forall_empty).
    revert H0. generalize (start e). induction cmds as [|cmd rest IH]; intros s Hs; [exact Hs|].
    cbn [serve_all foldl]. apply IH. by apply serve_statuses_known. }
  destruct Hknown as [Hc Hp]. cbv zeta. unfold get_analytics.
  do 4 app_step. rewrite run_bind. rewrite run_lift_now. cbv beta iota. rewrite run_ret.
  cbn [fst collects_total collects_pending collects_approved collects_declined
       collects_expired pools_total pools_collecting pools_funded pools_cancelled
       recurring_active recurring_paused recurring_total].
  split; [apply collects_partition, map_Forall_values, Hc|].
  split; [apply pools_partition, map_Forall_values, Hp|].
  apply recurring_partition.
Qed.
End AnalyticsProofs.

(** ** The statements above on sandbox runs *)

Lemma lock_rate_keeps_fetched_rate_witness :
  let w := boot online in
  exists lock w',
    run (lock_rate "INR" "USD" 10000 30 f_2_0) w = (inr lock, w') /\
    RateLock.rate lock = (run (get_live_rate "INR" "USD") w).1 /\
    RateLock.source_currency lock = lower "INR" /\
    RateLock.target_currency lock = lower "USD" /\
    RateLock.amount_target_cents lock = 10000 /\
    RateLock.max_drift_pct lock = f_2_0 /\
    rate_lock_store w' = <[RateLock.id lock := lock]> (rate_lock_store w) /\
    w' = set_rate_lock_store (rate_lock_store w') (set_ext (ext w') w) /\
    (isascii "INR" = true -> RateLock.source_currency lock = bytes_lower "INR") /\
    (isascii "USD" = true -> RateLock.target_currency lock = bytes_lower "USD").
Proof.
  intros w.
  assert (Hrun : exists lock w',
            run (lock_rate "INR" "USD" 10000 30 f_2_0) w = (inr lock, w'))
    by (eexists _, _; vm_compute; reflexivity).
  destruct Hrun as (lock & w' & Hrun). exists lock, w'. split; [exact Hrun|].
  exact (lock_rate_keeps_fetched_rate "INR" "USD" 10000 30 f_2_0 w lock w' Hrun).
Defined.

Lemma unchanged_rate_is_no_drift_witness :
  let w := (run (lock_rate "INR" "USD" 10000 30 f_2_0) (boot online)).2 in
  exists lock,
    rate_lock_store w !! "rate_id0" = Some lock /\
    exists i w',
      run (check_drift "rate_id0") w = (inr (Drift.Info i), w') /\
      Drift.drifted i = false /\
      Drift.current_rate i = Drift.locked_rate i.
Proof.
  intros w.
  assert (Hlock : exists lock,
            rate_lock_store w !! "rate_id0" = Some lock /\
            float_truthy (RateLock.rate lock) = true /\
            (run (get_live_rate (RateLock.source_currency lock)
                    (RateLock.target_currency lock)) w).1 = RateLock.rate lock /\
            fltb (RateLock.max_drift_pct lock) (S754_zero false) = false)
    by (eexists; split; [vm_compute; reflexivity|]; split; [reflexivity|];
        split; vm_compute; reflexivity).
  destruct Hlock as (lock & Hlock & Hrate & Hsame & Htol). exists lock.
  split; [exact Hlock|].
  exact (unchanged_rate_is_no_drift w "rate_id0" lock Hlock Hrate Hsame Htol).
Defined.

Lemma approve_collect_expired_witness :
  let w := pending_world late in
  exists collect,
    fake_collect_db w !! "clct_id0" = Some collect /\
    exists w',
      run (approve_collect "clct_id0") w =
        (inl {| exc_status_code := 410;
                exc_detail := DetailError (Some "invalid_request_error") "collect_expired"
                                [("expired_at", CollectResponse.expires_at collect)] |}, w') /\
      fake_collect_db w' = <["clct_id0" := CollectResponse.set_status "expired" collect]>
                             (fake_collect_db w) /\
      ledger_requests w' = ledger_requests w /\
      (exists exc, run (approve_collect "clct_id0") w' = (inl exc, w') /\
                   InvalidStateError "approve" "collect" "expired" exc) /\
      (exists exc, run (decline_collect "clct_id0") w' = (inl exc, w') /\
                   InvalidStateError "decline" "collect" "expired" exc).
Proof.
  intros w.
  assert (Hc : exists collect,
            fake_collect_db w !! "clct_id0" = Some collect /\
            CollectResponse.status collect = "pending" /\
            (datetime_now (ext w)).1 > CollectResponse.expires_at collect)
    by (eexists; split; [vm_compute; reflexivity|]; split; vm_compute; reflexivity).
  destruct Hc as (collect & Hc & Hst & Hlate). exists collect. split; [exact Hc|].
  exact (approve_collect_expired w "clct_id0" collect Hc Hst Hlate).
Defined.

Lemma approve_collect_insufficient_funds_witness :
  let w := pending_world poor in
  exists collect,
    fake_collect_db w !! "clct_id0" = Some collect /\
    let clock := datetime_now (ext w) in
    let read := run (get_balance (CollectResponse.payer_account_id collect))
                  (set_ext clock.2 w) in
    read.1 = 100 /\
    run (approve_collect "clct_id0") w =
      (inl {| exc_status_code := 402;
              exc_detail := DetailError (Some "payment_error") "insufficient_funds"
                              [("nessie_balance", read.1);
                               ("required_amount", CollectResponse.amount collect)] |},
       read.2) /\
    read.2 = set_ext (ext read.2) w.
Proof.
  intros w.
  assert (Hc : exists collect,
            fake_collect_db w !! "clct_id0" = Some collect /\
            CollectResponse.status collect = "pending" /\
            ~ (datetime_now (ext w)).1 > CollectResponse.expires_at collect /\
            (run (get_balance (CollectResponse.payer_account_id collect))
               (set_ext (datetime_now (ext w)).2 w)).1 = 100 /\
            (run (get_balance (CollectResponse.payer_account_id collect))
               (set_ext (datetime_now (ext w)).2 w)).1 < CollectResponse.amount collect)
    by (eexists; split; [vm_compute; reflexivity|]; split; [reflexivity|];
        split; [vm_compute; discriminate|]; split; vm_compute; reflexivity).
  destruct Hc as (collect & Hc & Hst & Hnot & Hread & Hshort). exists collect.
  split; [exact Hc|]. cbv zeta. split; [exact Hread|].
  exact (approve_collect_insufficient_funds w "clct_id0" collect Hc Hst Hnot Hshort).
Defined.

Lemma approve_collect_ledger_failure_witness :
  let w := pending_world offline in
  exists collect,
    fake_collect_db w !! "clct_id0" = Some collect /\
    let clock := datetime_now (ext w) in
    let read := run (get_balance (CollectResponse.payer_account_id collect))
                  (set_ext clock.2 w) in
    let answer := nessie_post_transfer (collect_transfer collect) (ext read.2) in
    run (approve_collect "clct_id0") w =
      (inl {| exc_status_code := 500; exc_detail := DetailText "Nessie transfer failed" |},
       set_ext answer.2 (set_ledger_requests
                           (ledger_requests w ++ [collect_transfer collect]) w)).
Proof.
  intros w.
  assert (Hc : exists collect,
            fake_collect_db w !! "clct_id0" = Some collect /\
            CollectResponse.status collect = "pending" /\
            ~ (datetime_now (ext w)).1 > CollectResponse.expires_at collect /\
            ~ (run (get_balance (CollectResponse.payer_account_id collect))
                 (set_ext (datetime_now (ext w)).2 w)).1 < CollectResponse.amount collect /\
            (nessie_post_transfer (collect_transfer collect)
               (ext (run (get_balance (CollectResponse.payer_account_id collect))
                       (set_ext (datetime_now (ext w)).2 w)).2)).1 = None)
    by (eexists; split; [vm_compute; reflexivity|]; split; [reflexivity|];
        split; [vm_compute; discriminate|]; split; [vm_compute; discriminate|];
        vm_compute; reflexivity).
  destruct Hc as (collect & Hc & Hst & Hnot & Hok & Hfail). exists collect.
  split; [exact Hc|].
  exact (approve_collect_ledger_failure w "clct_id0" collect Hc Hst Hnot Hok Hfail).
Defined.

Lemma decline_collect_from_pending_witness :
  let w := pending_world online in
  exists collect,
    fake_collect_db w !! "clct_id0" = Some collect /\
    let declined := CollectResponse.set_declined_at (Some (datetime_now (ext w)).1)
                      (CollectResponse.set_status "declined" collect) in
    exists w',
      run (decline_collect "clct_id0") w = (inr declined, w') /\
      fake_collect_db w' = <["clct_id0" := declined]> (fake_collect_db w) /\
      ledger_requests w' = ledger_requests w /\
      (exists exc, run (approve_collect "clct_id0") w' = (inl exc, w') /\
                   InvalidStateError "approve" "collect" "declined" exc) /\
      (exists exc, run (decline_collect "clct_id0") w' = (inl exc, w') /\
                   InvalidStateError "decline" "collect" "declined" exc).
Proof.
  intros w.
  assert (Hc : exists collect,
            fake_collect_db w !! "clct_id0" = Some collect /\
            CollectResponse.status collect = "pending")
    by (eexists; split; [vm_compute; reflexivity|reflexivity]).
  destruct Hc as (collect & Hc & Hst). exists collect. split; [exact Hc|].
  exact (decline_collect_from_pending w "clct_id0" collect Hc Hst).
Defined.

Lemma cancel_pool_refunds_every_contribution_witness :
  let w := serve_pool_all
             [CreatePool (demo_pool 1000); Contribute "pool_id0" (chip_in "ana" 300);
              Contribute "pool_id0" (chip_in "bo" 200)] (boot online) in
  exists pool contributions,
    fake_pool_db w !! "pool_id0" = Some pool /\
    fake_contributions_db w !! "pool_id0" = Some contributions /\
    length contributions = 2%nat /\
    exists ids w',
      let cancelled := PoolResponse.set_refund_ids (Some ids)
                         (PoolResponse.set_status "cancelled" pool) in
      run (cancel_pool "pool_id0") w = (inr cancelled, w') /\
      length ids = length contributions /\
      fake_pool_db w' = <["pool_id0" := cancelled]> (fake_pool_db w) /\
      ledger_requests w' = ledger_requests w ++ map (pool_refund_request pool) contributions /\
      fake_contributions_db w' = fake_contributions_db w /\
      exists exc, run (cancel_pool "pool_id0") w' = (inl exc, w') /\
                  InvalidStateError "cancel" "pool" "cancelled" exc.
Proof.
  intros w.
  assert (Hp : exists pool contributions,
            fake_pool_db w !! "pool_id0" = Some pool /\
            PoolResponse.status pool = "collecting" /\
            fake_contributions_db w !! "pool_id0" = Some contributions /\
            length contributions = 2%nat)
    by (eexists _, _; split; [vm_compute; reflexivity|]; split; [reflexivity|];
        split; [vm_compute; reflexivity|reflexivity]).
  destruct Hp as (pool & contributions & Hp & Hst & Hcs & Hlen).
  exists pool, contributions. split; [exact Hp|]. split; [exact Hcs|]. split; [exact Hlen|].
  exact (cancel_pool_refunds_every_contribution w "pool_id0" pool contributions Hp Hst Hcs).
Defined.

Lemma contribute_to_pool_outcome_witness :
  let w := serve_pool_all
             [CreatePool (demo_pool 1000); Contribute "pool_id0" (chip_in "ana" 600)]
             (boot online) in
  exists pool,
    fake_pool_db w !! "pool_id0" = Some pool /\
    match run (contribute_to_pool "pool_id0" (chip_in "bo" 400)) w with
    | (inr updated, w') =>
        fake_pool_db w' !! "pool_id0" = Some updated /\
        PoolResponse.collected_amount updated
          = PoolResponse.collected_amount pool + pq_amount (chip_in "bo" 400) /\
        (exists transfer_id,
           fake_contributions_db w' !! "pool_id0" =
             (fun cs => cs ++ [Contribution.mk (pq_payer_account_id (chip_in "bo" 400))
                                 (pq_amount (chip_in "bo" 400)) transfer_id])
               <$> fake_contributions_db w !! "pool_id0") /\
        if decide (PoolResponse.collected_amount updated >= PoolResponse.goal_amount pool) then
          PoolResponse.status updated = "funded" /\
          is_Some (PoolResponse.funded_at updated) /\
          ledger_requests w' = ledger_requests w ++
            [pool_contribution_request pool (chip_in "bo" 400);
             pool_settlement_request updated]
        else
          PoolResponse.status updated = PoolResponse.status pool /\
          ledger_requests w' = ledger_requests w
                               ++ [pool_contribution_request pool (chip_in "bo" 400)]
    | (inl exc, w') =>
        fake_pool_db w' = fake_pool_db w /\
        fake_contributions_db w' = fake_contributions_db w /\
        (ledger_requests w' = ledger_requests w \/
         exc_status_code exc = 500 /\
         ledger_requests w' = ledger_requests w
                              ++ [pool_contribution_request pool (chip_in "bo" 400)])
    end.
Proof.
  intros w.
  assert (Hp : exists pool, fake_pool_db w !! "pool_id0" = Some pool)
    by (eexists; vm_compute; reflexivity).
  destruct Hp as (pool & Hp). exists pool. split; [exact Hp|].
  exact (contribute_to_pool_outcome w "pool_id0" pool (chip_in "bo" 400) Hp).
Defined.

Lemma pool_counters_track_contributions_witness :
  let cmds := [CreatePool (demo_pool 1000); Contribute "pool_id0" (chip_in "ana" 300);
               Contribute "pool_id0" (chip_in "ana" 200);
               Contribute "pool_id0" (chip_in "bo" 100)] in
  exists pool,
    fake_pool_db (serve_pool_all cmds (boot online)) !! "pool_id0" = Some pool /\
    PoolResponse.contributions_count pool = 3 /\
    PoolResponse.participant_count pool = 2 /\
    exists contributions,
      fake_contributions_db (serve_pool_all cmds (boot online)) !! "pool_id0"
        = Some contributions /\
      PoolResponse.contributions_count pool = Z.of_nat (length contributions) /\
      PoolResponse.participant_count pool = distinct_payers contributions.
Proof.
  intros cmds.
  assert (Hp : exists pool,
            fake_pool_db (serve_pool_all cmds (boot online)) !! "pool_id0" = Some pool /\
            PoolResponse.contributions_count pool = 3 /\
            PoolResponse.participant_count pool = 2)
    by (eexists; split; [vm_compute; reflexivity|]; split; reflexivity).
  destruct Hp as (pool & Hp & Hn & Hd). exists pool.
  split; [exact Hp|]. split; [exact Hn|]. split; [exact Hd|].
  exact (@pool_counters_track_contributions SandboxServices online cmds "pool_id0" pool Hp).
Defined.

Lemma funded_pool_is_final_witness :
  let w := serve_pool_all
             [CreatePool (demo_pool 1000); Contribute "pool_id0" (chip_in "ana" 1000)]
             (boot online) in
  let cmds := [Contribute "pool_id0" (chip_in "bo" 50); CancelPool "pool_id0"] in
  exists pool,
    fake_pool_db w !! "pool_id0" = Some pool /\
    PoolResponse.status pool = "funded" /\
    fake_pool_db (serve_pool_all cmds w) !! "pool_id0" = Some pool /\
    fake_contributions_db (serve_pool_all cmds w) !! "pool_id0"
      = fake_contributions_db w !! "pool_id0".
Proof.
  intros w cmds.
  assert (Hp : exists pool,
            fake_pool_db w !! "pool_id0" = Some pool /\ PoolResponse.status pool = "funded")
    by (eexists; split; [vm_compute; reflexivity|reflexivity]).
  destruct Hp as (pool & Hp & Hst). exists pool. split; [exact Hp|]. split; [exact Hst|].
  assert (Hcmds : Forall (fun cmd => is_create cmd = false) cmds)
    by (repeat constructor).
  exact (funded_pool_is_final w cmds "pool_id0" pool Hp Hst Hcmds).
Defined.

Lemma fxpool_totals_track_contributions_witness :
  let cmds := [CreateFX (trip 5000); ContributeFX "fxpool_id0" (pay_in "lena" "EUR" 1000);
               ContributeFX "fxpool_id0" (pay_in "raj" "INR" 50000);
               CancelFX "fxpool_id0"] in
  exists pool,
    fxpool_db (serve_fx_all cmds (boot online)) !! "fxpool_id0" = Some pool /\
    FXPool.status pool = "cancelled" /\
    FXPool.contributions_count pool = 2 /\
    exists contributions,
      fxpool_contributions_db (serve_fx_all cmds (boot online)) !! "fxpool_id0"
        = Some contributions /\
      FXPool.collected_usd pool = total_usd contributions /\
      FXPool.contributions_count pool = Z.of_nat (length contributions) /\
      NoDup (FXPool.currencies_collected pool) /\
      forall currency, currency ∈ FXPool.currencies_collected pool <->
                       currency ∈ (FXContribution.currency <$> contributions).
Proof.
  intros cmds.
  assert (Hp : exists pool,
            fxpool_db (serve_fx_all cmds (boot online)) !! "fxpool_id0" = Some pool /\
            FXPool.status pool = "cancelled" /\
            FXPool.contributions_count pool = 2)
    by (eexists; split; [vm_compute; reflexivity|]; split; reflexivity).
  destruct Hp as (pool & Hp & Hst & Hn). exists pool.
  split; [exact Hp|]. split; [exact Hst|]. split; [exact Hn|].
  exact (@fxpool_totals_track_contributions ascii_case SandboxServices online cmds "fxpool_id0" pool Hp).
Defined.

Lemma contribute_to_fxpool_refused_witness :
  let w := (run (create_fxpool (trip 5000)) (boot late)).2 in
  let request := pay_in "lena" "EUR" 1000 in
  exists pool,
    fxpool_db w !! "fxpool_id0" = Some pool /\
    FXPool.status pool = "collecting" /\
    (datetime_now (ext w)).1 > FXPool.deadline pool /\
    run (contribute_to_fxpool "fxpool_id0" request) w =
      (inl {| exc_status_code := 422;
              exc_detail := DetailError None "fxpool_expired" [] |},
       set_ext (datetime_now (ext w)).2 w).
Proof.
  intros w request.
  assert (Hp : exists pool,
            fxpool_db w !! "fxpool_id0" = Some pool /\
            FXPool.status pool = "collecting" /\
            (datetime_now (ext w)).1 > FXPool.deadline pool)
    by (eexists; split; [vm_compute; reflexivity|]; split; vm_compute; reflexivity).
  destruct Hp as (pool & Hp & Hst & Hlate). exists pool.
  split; [exact Hp|]. split; [exact Hst|]. split; [exact Hlate|].
  exact (proj2 (contribute_to_fxpool_refused w "fxpool_id0" pool request Hp) Hst Hlate).
Defined.

Lemma idempotency_entries_are_permanent_witness :
  let handler := endpoint encode_collect 200 (approve_collect "clct_id0") in
  let w := (run (dispatch handler (approve_request "k1")) (pending_world online)).2 in
  exists cached,
    _idempotency_store w !! ("k1", "/v1/collects/clct_id0/approve") = Some cached /\
    _idempotency_store (run (dispatch (fun _ => Return (mkResponse "pong" 200 []))
                               (approve_request "k2")) w).2
      !! ("k1", "/v1/collects/clct_id0/approve") = Some cached.
Proof.
  intros handler w.
  assert (Hhit : exists cached,
            _idempotency_store w !! ("k1", "/v1/collects/clct_id0/approve") = Some cached)
    by (eexists; vm_compute; reflexivity).
  destruct Hhit as (cached & Hhit). exists cached. split; [exact Hhit|].
  exact (idempotency_entries_are_permanent (fun _ => Return (mkResponse "pong" 200 []))
           (approve_request "k2") w ("k1", "/v1/collects/clct_id0/approve") cached
           (fun r v => eq_refl) Hhit).
Defined.

Lemma trigger_recurring_outcome_witness :
  let s := plan_world (Some 2) online in
  exists rec,
    dict_get "rec_id0" (recurring_db s) = Some rec /\
    run (trigger_recurring_collect "rec_id0") s
      = (inr (Executed "rec_id0" 1 "txn1" 2500),
         (run (trigger_recurring_collect "rec_id0") s).2) /\
    match run (trigger_recurring_collect "rec_id0") s with
    | (inr Completed, s') =>
        (exists n, Recurring.max_occurrences rec = Some n /\ n <> 0 /\
                   Recurring.occurrences_count rec >= n) /\
        s' = set_recurring_db
               (dict_alter (Recurring.set_status "completed") "rec_id0" (recurring_db s)) s
    | (inr (Executed rid occurrence transfer_id amount), s') =>
        ~ (exists n, Recurring.max_occurrences rec = Some n /\ n <> 0 /\
                     Recurring.occurrences_count rec >= n) /\
        rid = Recurring.id rec /\
        occurrence = Recurring.occurrences_count rec + 1 /\
        amount = Recurring.amount rec /\
        recurring_db s' =
          dict_alter (fun r => Recurring.set_occurrences_count
                                 (Recurring.occurrences_count r + 1) r)
            "rec_id0" (recurring_db s) /\
        corridor_db s' = corridor_db s /\
        ledger_requests (world s') = ledger_requests (world s) ++ [recurring_transfer rec]
    | (inl exc, s') =>
        ~ (exists n, Recurring.max_occurrences rec = Some n /\ n <> 0 /\
                     Recurring.occurrences_count rec >= n) /\
        exc = {| exc_status_code := 500; exc_detail := DetailText "Transfer failed" |} /\
        recurring_db s' = recurring_db s /\
        corridor_db s' = corridor_db s /\
        ledger_requests (world s') = ledger_requests (world s) ++ [recurring_transfer rec]
    end.
Proof.
  intros s.
  assert (Hrec : exists rec,
            dict_get "rec_id0" (recurring_db s) = Some rec /\
            Recurring.status rec = "active")
    by (eexists; split; [vm_compute; reflexivity|reflexivity]).
  destruct Hrec as (rec & Hrec & Hact). exists rec. split; [exact Hrec|].
  split; [vm_compute; reflexivity|].
  exact (trigger_recurring_outcome s "rec_id0" rec Hrec Hact).
Defined.

Lemma recurring_occurrences_bounded_witness :
  let cmds := [CreateRecurring (monthly (Some 2)); Trigger "rec_id0"; Trigger "rec_id0";
               Trigger "rec_id0"; Trigger "rec_id0"] in
  exists rec,
    dict_get "rec_id0" (recurring_db (serve_recurring_all cmds (start online))) = Some rec /\
    Recurring.max_occurrences rec = Some 2 /\
    Recurring.status rec = "completed" /\
    0 <= Recurring.occurrences_count rec <= 2.
Proof.
  intros cmds.
  assert (Hrec : exists rec,
            dict_get "rec_id0" (recurring_db (serve_recurring_all cmds (start online)))
              = Some rec /\
            Recurring.max_occurrences rec = Some 2 /\
            Recurring.status rec = "completed")
    by (eexists; split; [vm_compute; reflexivity|]; split; reflexivity).
  destruct Hrec as (rec & Hrec & Hmax & Hst). exists rec.
  split; [exact Hrec|]. split; [exact Hmax|]. split; [exact Hst|].
  exact (@recurring_occurrences_bounded SandboxServices SandboxSubscribers online cmds
           "rec_id0" rec 2 Hrec Hmax eq_refl).
Defined.

Lemma inactive_recurring_stays_inactive_witness :
  let s := (run (pause_recurring "rec_id0") (plan_world None online)).2 in
  let cmds := [Trigger "rec_id0"; CancelRecurring "rec_id0"; Pause "rec_id0";
               Trigger "rec_id0"] in
  exists rec,
    dict_get "rec_id0" (recurring_db s) = Some rec /\
    Recurring.status rec = "paused" /\
    exists rec',
      dict_get "rec_id0" (recurring_db (serve_recurring_all cmds s)) = Some rec' /\
      Recurring.status rec' <> "active" /\
      Recurring.occurrences_count rec' = Recurring.occurrences_count rec /\
      exists exc,
        run (trigger_recurring_collect "rec_id0") (serve_recurring_all cmds s)
          = (inl exc, serve_recurring_all cmds s) /\
        InvalidStateError "trigger" "recurring collect" (Recurring.status rec') exc.
Proof.
  intros s cmds.
  assert (Hrec : exists rec,
            dict_get "rec_id0" (recurring_db s) = Some rec /\
            Recurring.status rec = "paused")
    by (eexists; split; [vm_compute; reflexivity|reflexivity]).
  destruct Hrec as (rec & Hrec & Hst). exists rec. split; [exact Hrec|]. split; [exact Hst|].
  assert (Hne : Recurring.status rec <> "active") by (rewrite Hst; discriminate).
  assert (Hcmds : Forall (fun cmd => creates cmd = false) cmds) by (repeat constructor).
  exact (inactive_recurring_stays_inactive s cmds "rec_id0" rec Hrec Hne Hcmds).
Defined.

Lemma list_recurring_needs_a_filter_witness :
  let s := plan_world None online in
  length (recurring_db s) = 1%nat /\
  run (list_recurring None (Some EmptyString)) s = ([], s).
Proof.
  intros s. split; [vm_compute; reflexivity|].
  exact (proj1 (list_recurring_needs_a_filter s None (Some EmptyString)) eq_refl eq_refl).
Defined.

Lemma remit_corridor_outcome_witness :
  (let s := corridor_world online in
   exists corridor,
     dict_get "crdr_id1" (corridor_db s) = Some corridor /\
     (exists remitted, (run (remit_corridor "crdr_id1") s).1 = inr remitted) /\
     let clock := datetime_now (ext (world s)) in
     let expired := clock.1 > RateLock.expires_at (Corridor.rate_lock corridor) in
     let checked := (run (check_drift (RateLock.id (Corridor.rate_lock corridor)))
                       (set_ext clock.2 (world s))).1 in
     match run (remit_corridor "crdr_id1") s with
     | (inr remitted, s') =>
         ~ expired /\
         (exists drift, checked = inr drift /\ Drift.get_drifted drift = false) /\
         (exists txn_id t,
            remitted = Corridor.set_rate_lock (rate_lock_used (Corridor.rate_lock corridor))
                         (Corridor.set_remitted_at (Some t)
                            (Corridor.set_nessie_transfer_id (Some txn_id)
                               (Corridor.set_status "remitted" corridor)))) /\
         dict_get "crdr_id1" (corridor_db s') = Some remitted /\
         ledger_requests (world s')
           = ledger_requests (world s) ++ [corridor_transfer "crdr_id1" corridor] /\
         rate_lock_store (world s')
           = alter rate_lock_used (RateLock.id (Corridor.rate_lock corridor))
               (rate_lock_store (world s))
     | (inl exc, s') =>
         (exc_status_code exc = 410 /\ expired /\
          dict_get "crdr_id1" (corridor_db s')
            = Some (Corridor.set_status "expired" corridor) /\
          ledger_requests (world s') = ledger_requests (world s)) \/
         (exc_status_code exc = 422 /\ ~ expired /\
          (exists drift, checked = inr drift /\ Drift.get_drifted drift = true) /\
          dict_get "crdr_id1" (corridor_db s')
            = Some (Corridor.set_status "drift_cancelled" corridor) /\
          ledger_requests (world s') = ledger_requests (world s)) \/
         (exc_status_code exc = 500 /\ ~ expired /\
          corridor_db s' = corridor_db s /\
          ((exists raised, checked = inl raised) /\
           ledger_requests (world s') = ledger_requests (world s) \/
           (exists drift, checked = inr drift /\ Drift.get_drifted drift = false) /\
           ledger_requests (world s')
             = ledger_requests (world s) ++ [corridor_transfer "crdr_id1" corridor]))
     end) /\
  (let s := repriced_corridor_world online in
   exists corridor,
     dict_get "crdr_id1" (corridor_db s) = Some corridor /\
     (exists exc, (run (remit_corridor "crdr_id1") s).1 = inl exc /\
                  exc_status_code exc = 422) /\
     let clock := datetime_now (ext (world s)) in
     let expired := clock.1 > RateLock.expires_at (Corridor.rate_lock corridor) in
     let checked := (run (check_drift (RateLock.id (Corridor.rate_lock corridor)))
                       (set_ext clock.2 (world s))).1 in
     match run (remit_corridor "crdr_id1") s with
     | (inr remitted, s') =>
         ~ expired /\
         (exists drift, checked = inr drift /\ Drift.get_drifted drift = false) /\
         (exists txn_id t,
            remitted = Corridor.set_rate_lock (rate_lock_used (Corridor.rate_lock corridor))
                         (Corridor.set_remitted_at (Some t)
                            (Corridor.set_nessie_transfer_id (Some txn_id)
                               (Corridor.set_status "remitted" corridor)))) /\
         dict_get "crdr_id1" (corridor_db s') = Some remitted /\
         ledger_requests (world s')
           = ledger_requests (world s) ++ [corridor_transfer "crdr_id1" corridor] /\
         rate_lock_store (world s')
           = alter rate_lock_used (RateLock.id (Corridor.rate_lock corridor))
               (rate_lock_store (world s))
     | (inl exc, s') =>
         (exc_status_code exc = 410 /\ expired /\
          dict_get "crdr_id1" (corridor_db s')
            = Some (Corridor.set_status "expired" corridor) /\
          ledger_requests (world s') = ledger_requests (world s)) \/
         (exc_status_code exc = 422 /\ ~ expired /\
          (exists drift, checked = inr drift /\ Drift.get_drifted drift = true) /\
          dict_get "crdr_id1" (corridor_db s')
            = Some (Corridor.set_status "drift_cancelled" corridor) /\
          ledger_requests (world s') = ledger_requests (world s)) \/
         (exc_status_code exc = 500 /\ ~ expired /\
          corridor_db s' = corridor_db s /\
          ((exists raised, checked = inl raised) /\
           ledger_requests (world s') = ledger_requests (world s) \/
           (exists drift, checked = inr drift /\ Drift.get_drifted drift = false) /\
           ledger_requests (world s')
             = ledger_requests (world s) ++ [corridor_transfer "crdr_id1" corridor]))
     end).
Proof.
  split; intros s.
  - assert (Hc : exists corridor,
              dict_get "crdr_id1" (corridor_db s) = Some corridor /\
              Corridor.status corridor = "rate_locked")
      by (eexists; split; [vm_compute; reflexivity|reflexivity]).
    destruct Hc as (corridor & Hc & Hst). exists corridor. split; [exact Hc|].
    split; [eexists; vm_compute; reflexivity|].
    pose proof (remit_corridor_outcome s "crdr_id1" corridor Hc Hst) as Hout.
    cbv zeta in Hout. cbv zeta. exact Hout.
  - assert (Hc : exists corridor,
              dict_get "crdr_id1" (corridor_db s) = Some corridor /\
              Corridor.status corridor = "rate_locked")
      by (eexists; split; [vm_compute; reflexivity|reflexivity]).
    destruct Hc as (corridor & Hc & Hst). exists corridor. split; [exact Hc|].
    split; [eexists; split; [vm_compute; reflexivity|reflexivity]|].
    pose proof (remit_corridor_outcome s "crdr_id1" corridor Hc Hst) as Hout.
    cbv zeta in Hout. cbv zeta. exact Hout.
Defined.

Lemma corridor_remits_at_most_once_witness :
  let s := corridor_world online in
  exists corridor remitted s',
    dict_get "crdr_id1" (corridor_db s) = Some corridor /\
    run (remit_corridor "crdr_id1") s = (inr remitted, s') /\
    exists exc current,
      dict_get "crdr_id1" (corridor_db s') = Some current /\
      Corridor.status current <> "rate_locked" /\
      run (remit_corridor "crdr_id1") s' = (inl exc, s') /\
      InvalidStateError "remit" "corridor" (Corridor.status current) exc.
Proof.
  intros s.
  assert (Hc : exists corridor, dict_get "crdr_id1" (corridor_db s) = Some corridor)
    by (eexists; vm_compute; reflexivity).
  destruct Hc as (corridor & Hc).
  assert (Hrun : exists remitted s',
            run (remit_corridor "crdr_id1") s = (inr remitted, s'))
    by (eexists _, _; vm_compute; reflexivity).
  destruct Hrun as (remitted & s' & Hrun). exists corridor, remitted, s'.
  split; [exact Hc|]. split; [exact Hrun|].
  exact (corridor_remits_at_most_once s "crdr_id1" corridor (inr remitted) s' Hc Hrun I).
Defined.

Lemma create_corridor_locks_rate_witness :
  let s := start online in
  exists corridor s',
    run (create_corridor remittance) s = (inr corridor, s') /\
    Corridor.amount_source_cents corridor = 831946 /\
    Corridor.status corridor = "rate_locked" /\
    dict_get (Corridor.id corridor) (corridor_db s') = Some corridor /\
    rate_lock_store (world s') !! RateLock.id (Corridor.rate_lock corridor)
      = Some (Corridor.rate_lock corridor) /\
    Corridor.amount_source_cents corridor
      = RateLock.amount_source_cents (Corridor.rate_lock corridor) /\
    Corridor.amount_target_cents corridor = kcr_amount_target remittance /\
    RateLock.rate (Corridor.rate_lock corridor)
      = (run (get_live_rate (kcr_source_currency remittance)
                (kcr_target_currency remittance)) (world s)).1 /\
    ledger_requests (world s') = ledger_requests (world s).
Proof.
  intros s.
  assert (Hrun : exists corridor s',
            run (create_corridor remittance) s = (inr corridor, s') /\
            Corridor.amount_source_cents corridor = 831946)
    by (eexists _, _; split; [vm_compute; reflexivity|reflexivity]).
  destruct Hrun as (corridor & s' & Hrun & Hamount). exists corridor, s'.
  split; [exact Hrun|]. split; [exact Hamount|].
  exact (create_corridor_locks_rate s remittance corridor s' Hrun).
Defined.

Lemma contribute_to_fxpool_outcome_witness :
  let w := (run (create_fxpool (trip 1000)) (boot online)).2 in
  let request := pay_in "lena" "EUR" 1000 in
  exists pool,
    fxpool_db w !! "fxpool_id0" = Some pool /\
    (exists updated c,
       (run (contribute_to_fxpool "fxpool_id0" request) w).1
         = inr (SnapFXPoolContribution updated c) /\
       FXContribution.amount_usd c = 1080 /\ FXPool.status updated = "funded") /\
    match run (contribute_to_fxpool "fxpool_id0" request) w with
    | (inr (SnapFXPoolContribution updated c), w') =>
        FXPool.status pool = "collecting" /\
        FXContribution.payer_account_id c = fq_payer_account_id request /\
        FXContribution.amount_local c = fq_amount_local request /\
        FXContribution.currency c = lower (fq_currency request) /\
        (isascii (fq_currency request) = true ->
         FXContribution.currency c = bytes_lower (fq_currency request)) /\
        (exists local_decimal,
           py_int_truediv (fq_amount_local request) 100 = inr local_decimal /\
           py_int (fmul (fmul local_decimal (FXContribution.usd_rate c)) f_100)
             = inr (FXContribution.amount_usd c)) /\
        (exists cs, fxpool_contributions_db w !! "fxpool_id0" = Some cs /\
                    fxpool_contributions_db w' !! "fxpool_id0" = Some (cs ++ [c])) /\
        fxpool_db w' !! "fxpool_id0" = Some updated /\
        FXPool.collected_usd updated
          = FXPool.collected_usd pool + FXContribution.amount_usd c /\
        if decide (FXPool.collected_usd updated >= FXPool.goal_amount_usd pool) then
          FXPool.status updated = "funded" /\
          is_Some (FXPool.nessie_settlement_id updated) /\
          ledger_requests w' = ledger_requests w ++
            [fx_contribution_request "fxpool_id0" pool request;
             fx_settlement_request "fxpool_id0" updated]
        else
          FXPool.status updated = "collecting" /\
          ledger_requests w' = ledger_requests w
                               ++ [fx_contribution_request "fxpool_id0" pool request]
    | _ => True
    end.
Proof.
  intros w request.
  assert (Hp : exists pool, fxpool_db w !! "fxpool_id0" = Some pool)
    by (eexists; vm_compute; reflexivity).
  destruct Hp as (pool & Hp). exists pool. split; [exact Hp|].
  split; [eexists _, _; split; [vm_compute; reflexivity|]; split; reflexivity|].
  pose proof (contribute_to_fxpool_outcome w "fxpool_id0" pool request Hp) as Hout.
  cbv zeta in Hout. cbv zeta. exact Hout.
Defined.

Lemma remit_without_movement_is_not_drift_cancelled_witness :
  let s := corridor_world online in
  exists corridor lock,
    dict_get "crdr_id1" (corridor_db s) = Some corridor /\
    rate_lock_store (world s) !! RateLock.id (Corridor.rate_lock corridor) = Some lock /\
    match (run (remit_corridor "crdr_id1") s).1 with
    | inl exc => exc_status_code exc = 410 \/ exc_status_code exc = 500
    | inr remitted => Corridor.status remitted = "remitted"
    end.
Proof.
  intros s.
  assert (Hc : exists corridor lock,
            dict_get "crdr_id1" (corridor_db s) = Some corridor /\
            Corridor.status corridor = "rate_locked" /\
            rate_lock_store (world s) !! RateLock.id (Corridor.rate_lock corridor)
              = Some lock /\
            float_truthy (RateLock.rate lock) = true /\
            (run (get_live_rate (RateLock.source_currency lock)
                    (RateLock.target_currency lock))
               (set_ext (datetime_now (ext (world s))).2 (world s))).1
              = RateLock.rate lock /\
            fltb (RateLock.max_drift_pct lock) (S754_zero false) = false)
    by (eexists _, _; split; [vm_compute; reflexivity|]; split; [reflexivity|];
        split; [vm_compute; reflexivity|]; split; [reflexivity|];
        split; vm_compute; reflexivity).
  destruct Hc as (corridor & lock & Hc & Hst & Hlock & Hrate & Hsame & Htol).
  exists corridor, lock. split; [exact Hc|]. split; [exact Hlock|].
  pose proof (remit_without_movement_is_not_drift_cancelled s "crdr_id1" corridor lock
                Hc Hst Hlock Hrate Hsame Htol) as Hout.
  exact Hout.
Defined.
